(** * amazon-chime-sdk-js: simulcast uplink policy and subscribe/ack task

    A shallow embedding of
    - [src/videouplinkbandwidthpolicy/DefaultSimulcastUplinkPolicy.ts], and
    - the task [SubscribeAndReceiveSubscribeAckTask],
    followed by the properties of the specification that are stated about
    them.

    Conventions.
    - A JavaScript [number] that carries a bandwidth estimate is a rational
      ([Q]) or [NaN]; times in milliseconds, bitrate constants, stream ids
      and close codes are integers ([Z]).  Comparisons of a double with a
      constant are exact on the rational it denotes; the one sum the code
      forms on such a number, [lastUplinkBandwidthKbps + 1], is rounded
      and is modelled by [plusOne].  Infinite samples are not covered.
    - Methods that mutate [this] are state transformers in the monad [M],
      which also carries a thrown exception.
    - [Date.now()] is an input: every method that reads the clock takes the
      readings as arguments, one per call site.
    - Log lines are kept as structured entries, not as formatted text.
    - The task extends [BaseTask], which is not among the sources.  The
      bodies of [run] and [cancel] are embedded as the subclass writes
      them; the wrapper through which callers reach them is modelled from
      section 4.1 of the specification in the module [BaseTask]. *)

From Stdlib Require Import ZArith QArith Qminmax Qround List String Bool Lia Lqa.
From stdpp Require Import gmap strings list fin_maps.
Import ListNotations.

Local Open Scope string_scope.
Local Open Scope list_scope.
Local Open Scope Z_scope.

(** ** Exceptions and the state monad *)

Inductive Message : Type :=
  | MsgMoreReceiveSections (index len : nat)
  | MsgFixedUp (before after : list Z)
  | MsgSendingSubscribe
  | MsgGotSubscribeAck
  | MsgCanceledWhileWaiting
  | MsgConnectionTerminated (closeCode : Z) (closeReason : string)
  | MsgAlreadyRunning
  | MsgCanceledBeforeRunning
  | MsgAlreadyFinished.

Inductive JsError : Type :=
  | TypeError
  | Error (message : Message).

Inductive Completion (A : Type) : Type :=
  | Normal (a : A)
  | Throw (e : JsError).
Arguments Normal {A} a.
Arguments Throw {A} e.

Definition M (S A : Type) : Type := S -> Completion A * S.

Definition ret {S A} (a : A) : M S A := fun s => (Normal a, s).

Definition bind {S A B} (c : M S A) (k : A -> M S B) : M S B :=
  fun s =>
    match c s with
    | (Normal a, s') => k a s'
    | (Throw e, s') => (Throw e, s')
    end.

Definition throw {S A} (e : JsError) : M S A := fun s => (Throw e, s).
Definition get {S} : M S S := fun s => (Normal s, s).
Definition gets {S A} (f : S -> A) : M S A := fun s => (Normal (f s), s).
Definition modify {S} (f : S -> S) : M S unit := fun s => (Normal tt, f s).
Definition when {S} (b : bool) (c : M S unit) : M S unit :=
  if b then c else ret tt.

Declare Scope js_scope.
Delimit Scope js_scope with js.
Notation "'let!' x ':=' c 'in' k" := (bind c (fun x => k))
  (at level 10, x name, c at level 100, k at level 200) : js_scope.
Notation "'do!' c 'in' k" := (bind c (fun _ : unit => k))
  (at level 10, c at level 100, k at level 200) : js_scope.
Local Open Scope js_scope.

Definition exec {S A} (c : M S A) (s : S) : S := snd (c s).
Definition result {S A} (c : M S A) (s : S) : Completion A := fst (c s).

(** ** JavaScript numbers and [Map] *)

Inductive JsNumber : Type :=
  | NaN
  | Num (q : Q).

(** [a >= b] on rationals. *)
Definition Qge_bool (a b : Q) : bool := Qle_bool b a.

(** A [Map<string, V>]: keys in insertion order, [set] on a present key
    replaces the value in place. *)
Definition JsMap (V : Type) : Type := list (string * V).

Fixpoint map_get {V} (k : string) (m : JsMap V) : option V :=
  match m with
  | [] => None
  | (k', v) :: rest => if String.eqb k' k then Some v else map_get k rest
  end.

Fixpoint map_set {V} (k : string) (v : V) (m : JsMap V) : JsMap V :=
  match m with
  | [] => [(k, v)]
  | (k', v') :: rest =>
      if String.eqb k' k then (k, v) :: rest else (k', v') :: map_set k v rest
  end.

(** A [Set<T>] of object identities, in insertion order. *)
Definition set_add (x : nat) (s : list nat) : list nat :=
  if existsb (Nat.eqb x) s then s else s ++ [x].
Definition set_delete (x : nat) (s : list nat) : list nat :=
  List.filter (fun y => negb (Nat.eqb x y)) s.
Definition set_has (x : nat) (s : list nat) : bool := existsb (Nat.eqb x) s.

(** ** DefaultSimulcastUplinkPolicy *)

Module DefaultSimulcastUplinkPolicy.

Inductive ActiveStreams : Type := kHi | kHiAndLow | kMidAndLow | kLow.

Definition ActiveStreams_eqb (a b : ActiveStreams) : bool :=
  match a, b with
  | kHi, kHi | kHiAndLow, kHiAndLow | kMidAndLow, kMidAndLow | kLow, kLow => true
  | _, _ => false
  end.

(** Modelled from the spec: the enum [SimulcastLayers] is imported from
    [../simulcastlayers/SimulcastLayers]; only the four members this policy
    names are listed. *)
Inductive SimulcastLayers : Type := Low | LowAndMedium | LowAndHigh | High.

(** Modelled from the spec: [SimulcastTransceiverController.NAME_ARR_ASCENDING]
    is declared outside this file; the layer ids are fixed and exhausted
    (low/mid/high), and the rid of the top layer is written ['hi'] by the
    callers of this policy. *)
Definition NAME_ARR_ASCENDING : list string := ["low"; "mid"; "hi"].

Record RTCRtpEncodingParameters : Type := {
  rid : string;
  active : bool;
  scaleResolutionDownBy : Q;
  maxBitrate : Z
}.

Abbreviation QualityMap := (JsMap RTCRtpEncodingParameters).

(** The fields of [VideoStreamDescription] that the policy reads. *)
Record VideoStreamDescription : Type := {
  streamId : Z;
  disabledByWebRTC : bool
}.

(** The methods of [VideoStreamIndex] that the policy calls, as the values
    they return at the moment of the call. *)
Record VideoStreamIndex : Type := {
  localStreamDescriptions : list VideoStreamDescription;
  numberOfParticipants : Z;
  numberOfVideoPublishingParticipantsExcludingSelf : string -> Z
}.

Record ConnectionMetrics : Type := {
  uplinkKbps : option JsNumber   (* [None]: the property is undefined *)
}.

Record QualityFragment : Type := {
  frag_rid : string;
  frag_active : bool;
  frag_disabledByWebRTC : bool;
  frag_maxBitrate : Z
}.

Inductive LogEntry : Type :=
  | DebugUplinkUpdate (lastUplink : Q)
  | InfoCalculate (bw : Q) (numSources : Z) (disabled : bool)
      (quality : list QualityFragment)
  | InfoAddObserver
  | InfoRemoveObserver.

Definition defaultUplinkBandwidthKbps : Q := 1200 # 1.
Definition startupDurationMs : Z := 6000.
Definition holdDownDurationMs : Z := 4000.
Definition defaultMaxFrameRate : Z := 15.
Definition kHiDisabledRate : Q := 700 # 1.
Definition kMidDisabledRate : Q := 240 # 1.

(** The private state of a policy object.  [optimalParameters] and
    [parametersInEffect] (marked "should deprecate in this policy") take no
    part in the layer decision and are left out.  [scheduled] is the queue
    of [AsyncScheduler.nextTick] callbacks issued by [forEachObserver]. *)
Record Policy : Type := {
  selfAttendeeId : string;
  logger : list LogEntry;
  numSenders : Z;
  shouldDisableSimulcast : bool;
  newQualityMap : QualityMap;
  currentQualityMap : QualityMap;
  newActiveStreams : ActiveStreams;
  currentActiveStreams : ActiveStreams;
  lastUplinkBandwidthKbps : Q;
  startTimeMs : Z;
  lastUpdatedMs : Z;
  videoIndex : option VideoStreamIndex;
  currLocalDescriptions : list VideoStreamDescription;
  nextLocalDescriptions : list VideoStreamDescription;
  activeStreamsToPublish : option ActiveStreams;
  observerQueue : list nat;
  scheduled : list (nat * SimulcastLayers)
}.

Definition set_logger (f : list LogEntry -> list LogEntry) (s : Policy) :=
  {| selfAttendeeId := selfAttendeeId s; logger := f (logger s);
     numSenders := numSenders s; shouldDisableSimulcast := shouldDisableSimulcast s;
     newQualityMap := newQualityMap s; currentQualityMap := currentQualityMap s;
     newActiveStreams := newActiveStreams s; currentActiveStreams := currentActiveStreams s;
     lastUplinkBandwidthKbps := lastUplinkBandwidthKbps s; startTimeMs := startTimeMs s;
     lastUpdatedMs := lastUpdatedMs s; videoIndex := videoIndex s;
     currLocalDescriptions := currLocalDescriptions s;
     nextLocalDescriptions := nextLocalDescriptions s;
     activeStreamsToPublish := activeStreamsToPublish s;
     observerQueue := observerQueue s; scheduled := scheduled s |}.

Definition set_numSenders (v : Z) (s : Policy) :=
  {| selfAttendeeId := selfAttendeeId s; logger := logger s;
     numSenders := v; shouldDisableSimulcast := shouldDisableSimulcast s;
     newQualityMap := newQualityMap s; currentQualityMap := currentQualityMap s;
     newActiveStreams := newActiveStreams s; currentActiveStreams := currentActiveStreams s;
     lastUplinkBandwidthKbps := lastUplinkBandwidthKbps s; startTimeMs := startTimeMs s;
     lastUpdatedMs := lastUpdatedMs s; videoIndex := videoIndex s;
     currLocalDescriptions := currLocalDescriptions s;
     nextLocalDescriptions := nextLocalDescriptions s;
     activeStreamsToPublish := activeStreamsToPublish s;
     observerQueue := observerQueue s; scheduled := scheduled s |}.

Definition set_shouldDisableSimulcast (v : bool) (s : Policy) :=
  {| selfAttendeeId := selfAttendeeId s; logger := logger s;
     numSenders := numSenders s; shouldDisableSimulcast := v;
     newQualityMap := newQualityMap s; currentQualityMap := currentQualityMap s;
     newActiveStreams := newActiveStreams s; currentActiveStreams := currentActiveStreams s;
     lastUplinkBandwidthKbps := lastUplinkBandwidthKbps s; startTimeMs := startTimeMs s;
     lastUpdatedMs := lastUpdatedMs s; videoIndex := videoIndex s;
     currLocalDescriptions := currLocalDescriptions s;
     nextLocalDescriptions := nextLocalDescriptions s;
     activeStreamsToPublish := activeStreamsToPublish s;
     observerQueue := observerQueue s; scheduled := scheduled s |}.

Definition set_newQualityMap (v : QualityMap) (s : Policy) :=
  {| selfAttendeeId := selfAttendeeId s; logger := logger s;
     numSenders := numSenders s; shouldDisableSimulcast := shouldDisableSimulcast s;
     newQualityMap := v; currentQualityMap := currentQualityMap s;
     newActiveStreams := newActiveStreams s; currentActiveStreams := currentActiveStreams s;
     lastUplinkBandwidthKbps := lastUplinkBandwidthKbps s; startTimeMs := startTimeMs s;
     lastUpdatedMs := lastUpdatedMs s; videoIndex := videoIndex s;
     currLocalDescriptions := currLocalDescriptions s;
     nextLocalDescriptions := nextLocalDescriptions s;
     activeStreamsToPublish := activeStreamsToPublish s;
     observerQueue := observerQueue s; scheduled := scheduled s |}.

Definition set_currentQualityMap (v : QualityMap) (s : Policy) :=
  {| selfAttendeeId := selfAttendeeId s; logger := logger s;
     numSenders := numSenders s; shouldDisableSimulcast := shouldDisableSimulcast s;
     newQualityMap := newQualityMap s; currentQualityMap := v;
     newActiveStreams := newActiveStreams s; currentActiveStreams := currentActiveStreams s;
     lastUplinkBandwidthKbps := lastUplinkBandwidthKbps s; startTimeMs := startTimeMs s;
     lastUpdatedMs := lastUpdatedMs s; videoIndex := videoIndex s;
     currLocalDescriptions := currLocalDescriptions s;
     nextLocalDescriptions := nextLocalDescriptions s;
     activeStreamsToPublish := activeStreamsToPublish s;
     observerQueue := observerQueue s; scheduled := scheduled s |}.

Definition set_newActiveStreams (v : ActiveStreams) (s : Policy) :=
  {| selfAttendeeId := selfAttendeeId s; logger := logger s;
     numSenders := numSenders s; shouldDisableSimulcast := shouldDisableSimulcast s;
     newQualityMap := newQualityMap s; currentQualityMap := currentQualityMap s;
     newActiveStreams := v; currentActiveStreams := currentActiveStreams s;
     lastUplinkBandwidthKbps := lastUplinkBandwidthKbps s; startTimeMs := startTimeMs s;
     lastUpdatedMs := lastUpdatedMs s; videoIndex := videoIndex s;
     currLocalDescriptions := currLocalDescriptions s;
     nextLocalDescriptions := nextLocalDescriptions s;
     activeStreamsToPublish := activeStreamsToPublish s;
     observerQueue := observerQueue s; scheduled := scheduled s |}.

Definition set_currentActiveStreams (v : ActiveStreams) (s : Policy) :=
  {| selfAttendeeId := selfAttendeeId s; logger := logger s;
     numSenders := numSenders s; shouldDisableSimulcast := shouldDisableSimulcast s;
     newQualityMap := newQualityMap s; currentQualityMap := currentQualityMap s;
     newActiveStreams := newActiveStreams s; currentActiveStreams := v;
     lastUplinkBandwidthKbps := lastUplinkBandwidthKbps s; startTimeMs := startTimeMs s;
     lastUpdatedMs := lastUpdatedMs s; videoIndex := videoIndex s;
     currLocalDescriptions := currLocalDescriptions s;
     nextLocalDescriptions := nextLocalDescriptions s;
     activeStreamsToPublish := activeStreamsToPublish s;
     observerQueue := observerQueue s; scheduled := scheduled s |}.

Definition set_lastUplinkBandwidthKbps (v : Q) (s : Policy) :=
  {| selfAttendeeId := selfAttendeeId s; logger := logger s;
     numSenders := numSenders s; shouldDisableSimulcast := shouldDisableSimulcast s;
     newQualityMap := newQualityMap s; currentQualityMap := currentQualityMap s;
     newActiveStreams := newActiveStreams s; currentActiveStreams := currentActiveStreams s;
     lastUplinkBandwidthKbps := v; startTimeMs := startTimeMs s;
     lastUpdatedMs := lastUpdatedMs s; videoIndex := videoIndex s;
     currLocalDescriptions := currLocalDescriptions s;
     nextLocalDescriptions := nextLocalDescriptions s;
     activeStreamsToPublish := activeStreamsToPublish s;
     observerQueue := observerQueue s; scheduled := scheduled s |}.

Definition set_startTimeMs (v : Z) (s : Policy) :=
  {| selfAttendeeId := selfAttendeeId s; logger := logger s;
     numSenders := numSenders s; shouldDisableSimulcast := shouldDisableSimulcast s;
     newQualityMap := newQualityMap s; currentQualityMap := currentQualityMap s;
     newActiveStreams := newActiveStreams s; currentActiveStreams := currentActiveStreams s;
     lastUplinkBandwidthKbps := lastUplinkBandwidthKbps s; startTimeMs := v;
     lastUpdatedMs := lastUpdatedMs s; videoIndex := videoIndex s;
     currLocalDescriptions := currLocalDescriptions s;
     nextLocalDescriptions := nextLocalDescriptions s;
     activeStreamsToPublish := activeStreamsToPublish s;
     observerQueue := observerQueue s; scheduled := scheduled s |}.

Definition set_lastUpdatedMs (v : Z) (s : Policy) :=
  {| selfAttendeeId := selfAttendeeId s; logger := logger s;
     numSenders := numSenders s; shouldDisableSimulcast := shouldDisableSimulcast s;
     newQualityMap := newQualityMap s; currentQualityMap := currentQualityMap s;
     newActiveStreams := newActiveStreams s; currentActiveStreams := currentActiveStreams s;
     lastUplinkBandwidthKbps := lastUplinkBandwidthKbps s; startTimeMs := startTimeMs s;
     lastUpdatedMs := v; videoIndex := videoIndex s;
     currLocalDescriptions := currLocalDescriptions s;
     nextLocalDescriptions := nextLocalDescriptions s;
     activeStreamsToPublish := activeStreamsToPublish s;
     observerQueue := observerQueue s; scheduled := scheduled s |}.

Definition set_videoIndex (v : option VideoStreamIndex) (s : Policy) :=
  {| selfAttendeeId := selfAttendeeId s; logger := logger s;
     numSenders := numSenders s; shouldDisableSimulcast := shouldDisableSimulcast s;
     newQualityMap := newQualityMap s; currentQualityMap := currentQualityMap s;
     newActiveStreams := newActiveStreams s; currentActiveStreams := currentActiveStreams s;
     lastUplinkBandwidthKbps := lastUplinkBandwidthKbps s; startTimeMs := startTimeMs s;
     lastUpdatedMs := lastUpdatedMs s; videoIndex := v;
     currLocalDescriptions := currLocalDescriptions s;
     nextLocalDescriptions := nextLocalDescriptions s;
     activeStreamsToPublish := activeStreamsToPublish s;
     observerQueue := observerQueue s; scheduled := scheduled s |}.

Definition set_currLocalDescriptions (v : list VideoStreamDescription) (s : Policy) :=
  {| selfAttendeeId := selfAttendeeId s; logger := logger s;
     numSenders := numSenders s; shouldDisableSimulcast := shouldDisableSimulcast s;
     newQualityMap := newQualityMap s; currentQualityMap := currentQualityMap s;
     newActiveStreams := newActiveStreams s; currentActiveStreams := currentActiveStreams s;
     lastUplinkBandwidthKbps := lastUplinkBandwidthKbps s; startTimeMs := startTimeMs s;
     lastUpdatedMs := lastUpdatedMs s; videoIndex := videoIndex s;
     currLocalDescriptions := v;
     nextLocalDescriptions := nextLocalDescriptions s;
     activeStreamsToPublish := activeStreamsToPublish s;
     observerQueue := observerQueue s; scheduled := scheduled s |}.

Definition set_nextLocalDescriptions (v : list VideoStreamDescription) (s : Policy) :=
  {| selfAttendeeId := selfAttendeeId s; logger := logger s;
     numSenders := numSenders s; shouldDisableSimulcast := shouldDisableSimulcast s;
     newQualityMap := newQualityMap s; currentQualityMap := currentQualityMap s;
     newActiveStreams := newActiveStreams s; currentActiveStreams := currentActiveStreams s;
     lastUplinkBandwidthKbps := lastUplinkBandwidthKbps s; startTimeMs := startTimeMs s;
     lastUpdatedMs := lastUpdatedMs s; videoIndex := videoIndex s;
     currLocalDescriptions := currLocalDescriptions s;
     nextLocalDescriptions := v;
     activeStreamsToPublish := activeStreamsToPublish s;
     observerQueue := observerQueue s; scheduled := scheduled s |}.

Definition set_activeStreamsToPublish (v : option ActiveStreams) (s : Policy) :=
  {| selfAttendeeId := selfAttendeeId s; logger := logger s;
     numSenders := numSenders s; shouldDisableSimulcast := shouldDisableSimulcast s;
     newQualityMap := newQualityMap s; currentQualityMap := currentQualityMap s;
     newActiveStreams := newActiveStreams s; currentActiveStreams := currentActiveStreams s;
     lastUplinkBandwidthKbps := lastUplinkBandwidthKbps s; startTimeMs := startTimeMs s;
     lastUpdatedMs := lastUpdatedMs s; videoIndex := videoIndex s;
     currLocalDescriptions := currLocalDescriptions s;
     nextLocalDescriptions := nextLocalDescriptions s;
     activeStreamsToPublish := v;
     observerQueue := observerQueue s; scheduled := scheduled s |}.

Definition set_observerQueue (f : list nat -> list nat) (s : Policy) :=
  {| selfAttendeeId := selfAttendeeId s; logger := logger s;
     numSenders := numSenders s; shouldDisableSimulcast := shouldDisableSimulcast s;
     newQualityMap := newQualityMap s; currentQualityMap := currentQualityMap s;
     newActiveStreams := newActiveStreams s; currentActiveStreams := currentActiveStreams s;
     lastUplinkBandwidthKbps := lastUplinkBandwidthKbps s; startTimeMs := startTimeMs s;
     lastUpdatedMs := lastUpdatedMs s; videoIndex := videoIndex s;
     currLocalDescriptions := currLocalDescriptions s;
     nextLocalDescriptions := nextLocalDescriptions s;
     activeStreamsToPublish := activeStreamsToPublish s;
     observerQueue := f (observerQueue s); scheduled := scheduled s |}.

Definition set_scheduled
    (f : list (nat * SimulcastLayers) -> list (nat * SimulcastLayers)) (s : Policy) :=
  {| selfAttendeeId := selfAttendeeId s; logger := logger s;
     numSenders := numSenders s; shouldDisableSimulcast := shouldDisableSimulcast s;
     newQualityMap := newQualityMap s; currentQualityMap := currentQualityMap s;
     newActiveStreams := newActiveStreams s; currentActiveStreams := currentActiveStreams s;
     lastUplinkBandwidthKbps := lastUplinkBandwidthKbps s; startTimeMs := startTimeMs s;
     lastUpdatedMs := lastUpdatedMs s; videoIndex := videoIndex s;
     currLocalDescriptions := currLocalDescriptions s;
     nextLocalDescriptions := nextLocalDescriptions s;
     activeStreamsToPublish := activeStreamsToPublish s;
     observerQueue := observerQueue s; scheduled := f (scheduled s) |}.

Definition log (e : LogEntry) : M Policy unit :=
  modify (set_logger (fun l => l ++ [e])).

(** *** fillEncodingParamWithBitrates

    The loop runs over [nameArr] with index [i]; [bitrateArr[i]] is read
    with default 0 (every caller passes three bitrates, so the default is
    never reached). *)
Fixpoint fillLoop (nameArr : list string) (i : nat) (bitrateArr : list Z)
    (scale : Q) (newMap : QualityMap) : QualityMap :=
  match nameArr with
  | [] => newMap
  | ridName :: rest =>
      let bitrate := nth i bitrateArr 0 in
      fillLoop rest (S i) bitrateArr (scale / (2 # 1))%Q
        (map_set ridName
           {| rid := ridName;
              active := if 0 <? bitrate then true else false;
              scaleResolutionDownBy := Qmax scale (1 # 1);
              maxBitrate := bitrate * 1000 |}
           newMap)
  end.

Definition fillEncodingParamWithBitrates (bitratesKbps : list Z) (s : Policy)
    : QualityMap :=
  let scale : Q := if shouldDisableSimulcast s then 1 # 1 else 4 # 1 in
  fillLoop NAME_ARR_ASCENDING 0 bitratesKbps scale [].

(** [JSON.stringify(encoding1) === JSON.stringify(encoding2)]: both objects
    are built by the one literal of [fillEncodingParamWithBitrates], so the
    texts agree exactly when the four fields do; [Map.get] of an absent
    key is [undefined], and [JSON.stringify(undefined)] is [undefined]. *)
Definition compareEncodingParameter
    (encoding1 encoding2 : option RTCRtpEncodingParameters) : bool :=
  match encoding1, encoding2 with
  | None, None => true
  | Some a, Some b =>
      String.eqb (rid a) (rid b) && Bool.eqb (active a) (active b)
      && Qeq_bool (scaleResolutionDownBy a) (scaleResolutionDownBy b)
      && (maxBitrate a =? maxBitrate b)
  | _, _ => false
  end.

Definition encodingParametersEqual (s : Policy) : bool :=
  let different :=
    fold_left
      (fun (different : bool) (ridName : string) =>
         if different then true   (* break *)
         else
           different
           || negb (compareEncodingParameter
                      (map_get ridName (newQualityMap s))
                      (map_get ridName (currentQualityMap s))))
      NAME_ARR_ASCENDING false in
  negb different.

(** [this.videoIndex.localStreamDescriptions()] throws a [TypeError] while
    [videoIndex] is still [null]. *)
Definition getQualityMapString (params : QualityMap)
    : M Policy (list QualityFragment) :=
  let! s := get in
  match videoIndex s with
  | None => throw TypeError
  | Some index =>
      let localDescriptions := localStreamDescriptions index in
      let flag (n : nat) :=
        match nth_error localDescriptions n with
        | Some d => disabledByWebRTC d
        | None => false
        end in
      if (length localDescriptions =? 3)%nat then
        ret (List.map
               (fun kv : string * RTCRtpEncodingParameters =>
                  let value := snd kv in
                  {| frag_rid := rid value;
                     frag_active := active value;
                     frag_disabledByWebRTC :=
                       if String.eqb (rid value) "low" then flag 0%nat
                       else if String.eqb (rid value) "mid" then flag 1%nat
                       else flag 2%nat;
                     frag_maxBitrate := maxBitrate value |})
               params)
      else ret []
  end.

(** *** calculateEncodingParameters *)

(** [x + 1] as doubles compute it, as far as the test [x >= x + 1] can
    tell.  Below 2^53 the rounded sum is above [x] (for [x] at or below
    -2^53 the gate is open in any case, by [x <= 0]).  From 2^53 to 2^54
    the doubles are the even integers and the sum is a tie, which goes to
    the even significand: [x] for a multiple of 4, [x + 2] otherwise.  From
    2^54 up the sum rounds back to [x]. *)
Definition plusOne (x : Q) : Q :=
  if Qle_bool (9007199254740992 # 1) x then
    if Qle_bool (18014398509481984 # 1) x then x
    else if Qfloor x mod 4 =? 0 then x
    else (x + (2 # 1))%Q
  else (x + (1 # 1))%Q.

Definition hysteresis (s : Policy) : Q * Q :=
  match currentActiveStreams s with
  | kHi => (plusOne (lastUplinkBandwidthKbps s), 0 # 1)
  | kHiAndLow => (2400 # 1, kHiDisabledRate)
  | kMidAndLow => (1000 # 1, kMidDisabledRate)
  | kLow => (300 # 1, 0 # 1)
  end.

(** The condition under which the layer set is redetermined. *)
Definition redetermines (numSendersChanged : bool) (s : Policy) : bool :=
  let '(hysteresisIncrease, hysteresisDecrease) := hysteresis s in
  numSendersChanged
  || Qge_bool (lastUplinkBandwidthKbps s) hysteresisIncrease
  || Qle_bool (lastUplinkBandwidthKbps s) hysteresisDecrease.

(** The branch taken inside the gate: the new layer set and the three
    [maxBitrateKbps] of [newBitrates], lowest layer first. *)
Definition decideLayers (s : Policy) : ActiveStreams * list Z :=
  if shouldDisableSimulcast s then
    (kHi, [0; 1200; 0])
  else if (numSenders s <=? 4)
          && Qge_bool (lastUplinkBandwidthKbps s) kHiDisabledRate then
    (kHiAndLow, [300; 0; 1200])
  else if Qge_bool (lastUplinkBandwidthKbps s) kMidDisabledRate then
    (kMidAndLow,
     [ if Qge_bool (lastUplinkBandwidthKbps s) (350 # 1) then 200 else 150;
       if numSenders s <=? 6 then 600 else 350;
       0 ])
  else
    (kLow, [300; 0; 0]).

Definition calculateEncodingParameters (numSendersChanged : bool)
    : M Policy QualityMap :=
  let! s := get in
  do! when (redetermines numSendersChanged s)
        (let '(streams, bitrates) := decideLayers s in
         do! modify (set_newActiveStreams streams) in
         do! modify (fun s => set_newQualityMap (fillEncodingParamWithBitrates bitrates s) s) in
         let! s := get in
         when (negb (encodingParametersEqual s))
           (let! quality := getQualityMapString (newQualityMap s) in
            log (InfoCalculate (lastUplinkBandwidthKbps s) (numSenders s)
                   (shouldDisableSimulcast s) quality))) in
  gets newQualityMap.

(** *** updateConnectionMetric

    [nowStart], [nowStartup] and [nowHold] are the values of the three
    [Date.now()] calls, in program order. *)
Definition holdTime (s : Policy) (uplink : Q) : Z :=
  match currentActiveStreams s with
  | kLow => holdDownDurationMs * 2
  | kMidAndLow =>
      if Qle_bool uplink kMidDisabledRate then holdDownDurationMs / 2
      else holdDownDurationMs
  | kHiAndLow =>
      if Qle_bool uplink kHiDisabledRate then holdDownDurationMs / 2
      else holdDownDurationMs
  | kHi => holdDownDurationMs
  end.

Definition updateConnectionMetric (nowStart nowStartup nowHold : Z)
    (metrics : ConnectionMetrics) : M Policy unit :=
  match default (Num (0 # 1)) (uplinkKbps metrics) with
  | NaN => ret tt   (* isNaN(uplinkKbps) *)
  | Num uplink =>
      let! s := get in
      do! when (startTimeMs s =? 0) (modify (set_startTimeMs nowStart)) in
      let! s := get in
      do! (if nowStartup - startTimeMs s <? startupDurationMs
           then modify (set_lastUplinkBandwidthKbps defaultUplinkBandwidthKbps)
           else modify (set_lastUplinkBandwidthKbps uplink)) in
      let! s := get in
      do! log (DebugUplinkUpdate (lastUplinkBandwidthKbps s)) in
      if nowHold <? lastUpdatedMs s + holdTime s uplink then ret tt
      else
        let! quality := calculateEncodingParameters false in
        modify (set_newQualityMap quality)
  end.

(** *** Observers and publication *)

Definition getEncodingSimulcastLayer (activeStreams : ActiveStreams)
    : SimulcastLayers :=
  match activeStreams with
  | kHi => High
  | kHiAndLow => LowAndHigh
  | kMidAndLow => LowAndMedium
  | kLow => Low
  end.

(** [forEachObserver] queues one [nextTick] callback per observer. *)
Definition publishEncodingSimulcastLayer (published : ActiveStreams)
    : M Policy unit :=
  let simulcastLayers := getEncodingSimulcastLayer published in
  let! s := get in
  modify (set_scheduled
            (fun q => q ++ List.map (fun o => (o, simulcastLayers)) (observerQueue s))).

(** One queued callback runs: the observer is called only if it is still
    in [observerQueue].  The result is the call made, if any. *)
Definition runNextTick : M Policy (option (nat * SimulcastLayers)) :=
  let! s := get in
  match scheduled s with
  | [] => ret None
  | (o, layers) :: rest =>
      do! modify (set_scheduled (fun _ => rest)) in
      ret (if set_has o (observerQueue s) then Some (o, layers) else None)
  end.

Definition addObserver (observer : nat) : M Policy unit :=
  do! log InfoAddObserver in
  modify (set_observerQueue (set_add observer)).

Definition removeObserver (observer : nat) : M Policy unit :=
  do! log InfoRemoveObserver in
  modify (set_observerQueue (set_delete observer)).

(** *** chooseEncodingParameters, updateIndex, wantsResubscribe *)

Definition chooseEncodingParameters : M Policy QualityMap :=
  do! modify (fun s => set_currentQualityMap (newQualityMap s) s) in
  do! modify (fun s => set_currentActiveStreams (newActiveStreams s) s) in
  let! s := get in
  do! when (negb match activeStreamsToPublish s with
                 | Some a => ActiveStreams_eqb a (newActiveStreams s)
                 | None => false
                 end)
        (do! modify (set_activeStreamsToPublish (Some (newActiveStreams s))) in
         publishEncodingSimulcastLayer (newActiveStreams s)) in
  gets currentQualityMap.

Definition updateIndex (index : VideoStreamIndex) : M Policy unit :=
  let! s := get in
  let numSenders' :=
    numberOfVideoPublishingParticipantsExcludingSelf index (selfAttendeeId s) + 1 in
  let numSendersChanged := negb (numSenders' =? numSenders s) in
  let numParticipants := numberOfParticipants index in
  let newShouldDisableSimulcast :=
    (0 <=? numParticipants) && (numParticipants <=? 2) in
  let shouldDisableSimulcastChanged :=
    negb (Bool.eqb (shouldDisableSimulcast s) newShouldDisableSimulcast) in
  do! modify (set_numSenders numSenders') in
  do! modify (set_shouldDisableSimulcast newShouldDisableSimulcast) in
  do! modify (set_videoIndex (Some index)) in
  let! quality :=
    calculateEncodingParameters (numSendersChanged || shouldDisableSimulcastChanged) in
  modify (set_newQualityMap quality).

(** [Array.prototype.findIndex], with [None] for -1. *)
Fixpoint findIndex {A} (p : A -> bool) (l : list A) : option nat :=
  match l with
  | [] => None
  | x :: rest => if p x then Some 0%nat else option_map S (findIndex p rest)
  end.

(** The body of the [for] loop of [wantsResubscribe] for one entry of
    [nextLocalDescriptions]. *)
Definition flagFlipped (curr : list VideoStreamDescription)
    (next : VideoStreamDescription) : bool :=
  if negb (streamId next =? 0) then
    match findIndex (fun val => streamId val =? streamId next) curr with
    | Some prevIndex =>
        match nth_error curr prevIndex with
        | Some prev => negb (Bool.eqb (disabledByWebRTC next) (disabledByWebRTC prev))
        | None => false
        end
    | None => false
    end
  else false.

Definition wantsResubscribe (now : Z) : M Policy bool :=
  let! s := get in
  let constraintDiff := negb (encodingParametersEqual s) in
  match videoIndex s with
  | None => throw TypeError
  | Some index =>
      do! modify (set_nextLocalDescriptions (localStreamDescriptions index)) in
      let! s := get in
      let constraintDiff :=
        fold_left
          (fun (diff : bool) (next : VideoStreamDescription) =>
             if flagFlipped (currLocalDescriptions s) next then true else diff)
          (nextLocalDescriptions s) constraintDiff in
      do! when constraintDiff (modify (set_lastUpdatedMs now)) in
      do! modify (fun s => set_currLocalDescriptions (nextLocalDescriptions s) s) in
      ret constraintDiff
  end.

(** *** The constructor; [now] is the [Date.now()] of the field initialiser
    of [lastUpdatedMs]. *)
Definition blank (selfAttendeeId : string) (now : Z) : Policy :=
  {| selfAttendeeId := selfAttendeeId; logger := [];
     numSenders := 0; shouldDisableSimulcast := false;
     newQualityMap := []; currentQualityMap := [];
     newActiveStreams := kHiAndLow; currentActiveStreams := kHiAndLow;
     lastUplinkBandwidthKbps := defaultUplinkBandwidthKbps;
     startTimeMs := 0; lastUpdatedMs := now; videoIndex := None;
     currLocalDescriptions := []; nextLocalDescriptions := [];
     activeStreamsToPublish := None; observerQueue := []; scheduled := [] |}.

Definition constructor (selfAttendeeId : string) (now : Z) : Policy :=
  let s := blank selfAttendeeId now in
  let s := set_lastUplinkBandwidthKbps defaultUplinkBandwidthKbps s in
  let s := set_currentQualityMap (fillEncodingParamWithBitrates [300; 0; 1200] s) s in
  set_newQualityMap (fillEncodingParamWithBitrates [300; 0; 1200] s) s.

End DefaultSimulcastUplinkPolicy.

(** ** SubscribeAndReceiveSubscribeAckTask *)

Module SubscribeAndReceiveSubscribeAckTask.

Inductive MeetingSessionStatusCode : Type :=
  | TaskFailed
  | SignalingInternalServerError.

Record MeetingSessionStatus : Type := { statusCode : MeetingSessionStatusCode }.

Inductive SdkStreamServiceType : Type := RX | TX | DUPLEX.

Inductive SdkSignalFrameType : Type :=
  | SUBSCRIBE_ACK
  | OtherFrame (tag : nat).

Record SdkSubscribeAckFrame : Type := { sdpAnswer : string }.

Record SdkSignalFrame : Type := {
  frameType : SdkSignalFrameType;
  suback : option SdkSubscribeAckFrame   (* [None]: the property is undefined *)
}.

Inductive SignalingClientEventType : Type :=
  | ReceivedSignalFrame
  | OtherEvent (tag : nat).

(** A [SignalingClientEvent] as the interceptor reads it.  The class is
    declared elsewhere; [isConnectionTerminated] is the value its method
    of that name returns for this event. *)
Record SignalingClientEvent : Type := {
  type : SignalingClientEventType;
  isConnectionTerminated : bool;
  closeCode : Z;
  closeReason : string;
  message : option SdkSignalFrame
}.

Record RTCRtpEncodingParameters : Type := {
  rid : string;
  maxBitrate : option Z;   (* [None]: NaN, from an empty [encodeBitrates()] *)
  maxFramerate : Z;
  active : bool
}.

Record VideoCaptureAndEncodeParameter : Type := {
  captureFrameRate : Z;
  encodeBitrates : list Z
}.

Record SignalingClientSubscribe : Type := {
  sub_attendeeId : string;
  sub_sdpOffer : string;
  sub_audioHost : string;
  sub_audioMuted : bool;
  sub_audioCheckin : bool;
  sub_receiveStreamIds : list Z;
  sub_localVideoEnabled : bool;
  sub_videoStreamDescriptions : list Z;
  sub_connectionTypeHasVideo : bool
}.

(** The part of [AudioVideoControllerState] that [run] only reads. *)
Record Session : Type := {
  peerLocalDescriptionSdp : option string;   (* [peer && peer.localDescription] *)
  requiresUnifiedPlanMunging : bool;
  requiresUnifiedPlan : bool;
  enableSimulcast : bool;
  videoCaptureAndEncodeParameter : option VideoCaptureAndEncodeParameter;
  videoSubscriptions : list Z;
  videoDuplexMode : SdkStreamServiceType;
  attendeeId : string;
  audioHostURL : string;
  realtimeIsLocalAudioMuted : bool;
  localStreamDescriptions : list Z
}.

Inductive LogLevel : Type := Info | Warn.

(** Calls received by the signaling client and by the video stream index,
    in the order they are made. *)
Inductive SignalingCall : Type :=
  | CallSubscribe (settings : SignalingClientSubscribe)
  | CallRegisterObserver (observer : nat)
  | CallRemoveObserver (observer : nat).

Inductive IndexCall : Type :=
  | CallIntegrateUplinkPolicyDecision (params : list RTCRtpEncodingParameters)
  | CallSubscribeFrameSent
  | CallIntegrateSubscribeAckFrame (frame : SdkSubscribeAckFrame).

(** The promise created by [receiveSubscribeAck]. *)
Inductive PromiseState : Type :=
  | Pending
  | Resolved (frame : option SdkSubscribeAckFrame)
  | Rejected (e : JsError).

(** Everything the task writes.  Every [Interceptor] object is named by a
    number; [promises] holds the promise each one closes over, [observers]
    is the registry of the signaling client, and [taskCanceler] is the
    field of the task ([None] for [null]). *)
Record World : Type := {
  logger : list (LogLevel * Message);
  previousSdpOffer : option string;
  contextSdpAnswer : option string;
  observers : gset nat;
  signalingCalls : list SignalingCall;
  indexCalls : list IndexCall;
  promises : gmap nat PromiseState;
  taskCanceler : option nat
}.

Definition set_logger (f : list (LogLevel * Message) -> list (LogLevel * Message))
    (w : World) :=
  {| logger := f (logger w); previousSdpOffer := previousSdpOffer w;
     contextSdpAnswer := contextSdpAnswer w; observers := observers w;
     signalingCalls := signalingCalls w; indexCalls := indexCalls w;
     promises := promises w; taskCanceler := taskCanceler w |}.

Definition set_previousSdpOffer (v : option string) (w : World) :=
  {| logger := logger w; previousSdpOffer := v;
     contextSdpAnswer := contextSdpAnswer w; observers := observers w;
     signalingCalls := signalingCalls w; indexCalls := indexCalls w;
     promises := promises w; taskCanceler := taskCanceler w |}.

Definition set_contextSdpAnswer (v : option string) (w : World) :=
  {| logger := logger w; previousSdpOffer := previousSdpOffer w;
     contextSdpAnswer := v; observers := observers w;
     signalingCalls := signalingCalls w; indexCalls := indexCalls w;
     promises := promises w; taskCanceler := taskCanceler w |}.

Definition set_observers (f : gset nat -> gset nat) (w : World) :=
  {| logger := logger w; previousSdpOffer := previousSdpOffer w;
     contextSdpAnswer := contextSdpAnswer w; observers := f (observers w);
     signalingCalls := signalingCalls w; indexCalls := indexCalls w;
     promises := promises w; taskCanceler := taskCanceler w |}.

Definition set_signalingCalls (f : list SignalingCall -> list SignalingCall)
    (w : World) :=
  {| logger := logger w; previousSdpOffer := previousSdpOffer w;
     contextSdpAnswer := contextSdpAnswer w; observers := observers w;
     signalingCalls := f (signalingCalls w); indexCalls := indexCalls w;
     promises := promises w; taskCanceler := taskCanceler w |}.

Definition set_indexCalls (f : list IndexCall -> list IndexCall) (w : World) :=
  {| logger := logger w; previousSdpOffer := previousSdpOffer w;
     contextSdpAnswer := contextSdpAnswer w; observers := observers w;
     signalingCalls := signalingCalls w; indexCalls := f (indexCalls w);
     promises := promises w; taskCanceler := taskCanceler w |}.

Definition set_promises (f : gmap nat PromiseState -> gmap nat PromiseState)
    (w : World) :=
  {| logger := logger w; previousSdpOffer := previousSdpOffer w;
     contextSdpAnswer := contextSdpAnswer w; observers := observers w;
     signalingCalls := signalingCalls w; indexCalls := indexCalls w;
     promises := f (promises w); taskCanceler := taskCanceler w |}.

Definition set_taskCanceler (v : option nat) (w : World) :=
  {| logger := logger w; previousSdpOffer := previousSdpOffer w;
     contextSdpAnswer := contextSdpAnswer w; observers := observers w;
     signalingCalls := signalingCalls w; indexCalls := indexCalls w;
     promises := promises w; taskCanceler := v |}.

(** The collaborators that are declared outside the task: the two methods
    of [DefaultSDP] it calls, and the status handler of the audio-video
    controller, which receives the world and may change it (it is free to
    call back into the task). *)
Record Collaborators : Type := {
  withUnifiedPlanFormat : string -> string;
  videoSectionDirections : string -> list string;
  handleMeetingSessionStatus : MeetingSessionStatus -> JsError -> World -> World
}.

Definition info (m : Message) : M World unit :=
  modify (set_logger (fun l => l ++ [(Info, m)])).
Definition warn (m : Message) : M World unit :=
  modify (set_logger (fun l => l ++ [(Warn, m)])).

(** Modelled from the spec: the signaling channel ([SignalingClient],
    declared outside the task) keeps a registry of observers;
    [registerObserver] adds to it and [removeObserver] removes from it,
    and [subscribe] transmits the request. *)
Definition registerObserver (observer : nat) : M World unit :=
  do! modify (set_signalingCalls (fun l => l ++ [CallRegisterObserver observer])) in
  modify (set_observers (fun o => {[observer]} ∪ o)).

Definition removeObserver (observer : nat) : M World unit :=
  do! modify (set_signalingCalls (fun l => l ++ [CallRemoveObserver observer])) in
  modify (set_observers (fun o => o ∖ {[observer]})).

Definition subscribe (settings : SignalingClientSubscribe) : M World unit :=
  modify (set_signalingCalls (fun l => l ++ [CallSubscribe settings])).

(** The [resolve] and [reject] functions of a promise: only a pending
    promise changes state. *)
Definition settle (p : nat) (outcome : PromiseState) : M World unit :=
  modify (fun w =>
    match promises w !! p with
    | Some Pending => set_promises (<[p := outcome]>) w
    | _ => w
    end).

Definition resolve (p : nat) (frame : option SdkSubscribeAckFrame) : M World unit :=
  settle p (Resolved frame).
Definition reject (p : nat) (e : JsError) : M World unit :=
  settle p (Rejected e).

Section Task.

Context (env : Collaborators) (context : Session).

(** *** fixUpSubscriptionOrder *)

Fixpoint fixUpLoop (directions : list string) (subscriptionsWithoutZero : list Z)
    (subscriptionsWithoutZeroIndex : nat) (newSubscriptions : list Z)
    : M World (list Z) :=
  match directions with
  | [] => ret newSubscriptions
  | direction :: rest =>
      if String.eqb direction "recvonly" then
        if (length subscriptionsWithoutZero <=? subscriptionsWithoutZeroIndex)%nat then
          do! warn (MsgMoreReceiveSections subscriptionsWithoutZeroIndex
                      (length subscriptionsWithoutZero)) in
          fixUpLoop rest subscriptionsWithoutZero subscriptionsWithoutZeroIndex
            (newSubscriptions ++ [0])
        else
          fixUpLoop rest subscriptionsWithoutZero (S subscriptionsWithoutZeroIndex)
            (newSubscriptions
               ++ [nth subscriptionsWithoutZeroIndex subscriptionsWithoutZero 0])
      else
        fixUpLoop rest subscriptionsWithoutZero subscriptionsWithoutZeroIndex
          (newSubscriptions ++ [0])
  end.

Definition fixUpSubscriptionOrder (sdp : string) (videoSubscriptions : list Z)
    : M World (list Z) :=
  let subscriptionsWithoutZero :=
    List.filter (fun value => negb (value =? 0)) videoSubscriptions in
  let directions := videoSectionDirections env sdp in
  let! newSubscriptions := fixUpLoop directions subscriptionsWithoutZero 0 [] in
  do! info (MsgFixedUp videoSubscriptions newSubscriptions) in
  ret newSubscriptions.

(** *** The interceptor of receiveSubscribeAck *)

Definition Interceptor_cancel (this : nat) : M World unit :=
  do! removeObserver this in
  reject this (Error MsgCanceledWhileWaiting).

Definition terminationStatusCode (closeCode : Z) : MeetingSessionStatusCode :=
  let statusCode := TaskFailed in
  if (4500 <=? closeCode) && (closeCode <? 4600)
  then SignalingInternalServerError
  else statusCode.

Definition Interceptor_handleSignalingClientEvent (this : nat)
    (event : SignalingClientEvent) : M World unit :=
  if isConnectionTerminated event then
    let message := MsgConnectionTerminated (closeCode event) (closeReason event) in
    do! warn message in
    let statusCode := terminationStatusCode (closeCode event) in
    modify (handleMeetingSessionStatus env {| statusCode := statusCode |} (Error message))
  else
    match type event with
    | ReceivedSignalFrame =>
        match message event with
        | None => throw TypeError
        | Some frame =>
            match frameType frame with
            | SUBSCRIBE_ACK =>
                do! removeObserver this in
                resolve this (suback frame)
            | OtherFrame _ => ret tt
            end
        end
    | OtherEvent _ => ret tt
    end.

(** The promise executor runs at once: a new interceptor (and its promise)
    is created, registered, and stored in [taskCanceler].  The result is
    the promise that [run] awaits. *)
Definition receiveSubscribeAck : M World nat :=
  let! w := get in
  let interceptor := fresh (dom (promises w)) in
  do! modify (set_promises (<[interceptor := Pending]>)) in
  do! registerObserver interceptor in
  do! modify (set_taskCanceler (Some interceptor)) in
  ret interceptor.

(** *** cancel and run *)

Definition cancel : M World unit :=
  let! w := get in
  match taskCanceler w with
  | Some canceler =>
      do! Interceptor_cancel canceler in
      modify (set_taskCanceler None)
  | None => ret tt
  end.

Definition indexCall (c : IndexCall) : M World unit :=
  modify (set_indexCalls (fun l => l ++ [c])).

(** [run] up to its [await]; the result is the awaited promise. *)
Definition run : M World nat :=
  let localSdp :=
    match peerLocalDescriptionSdp context with
    | Some sdp =>
        if requiresUnifiedPlanMunging context
        then withUnifiedPlanFormat env sdp
        else sdp
    | None => ""
    end in
  do! when (negb (enableSimulcast context))
        (let '(frameRate, maxEncodeBitrateKbps) :=
           match videoCaptureAndEncodeParameter context with
           | Some p => (captureFrameRate p, head (encodeBitrates p))
           | None => (0, Some 0)
           end in
         let param :=
           {| rid := "hi";
              maxBitrate := option_map (fun kbps => kbps * 1000) maxEncodeBitrateKbps;
              maxFramerate := frameRate;
              active := true |} in
         indexCall (CallIntegrateUplinkPolicyDecision [param])) in
  do! indexCall CallSubscribeFrameSent in
  let! videoSubscriptions :=
    if requiresUnifiedPlan context
    then fixUpSubscriptionOrder localSdp (videoSubscriptions context)
    else ret (videoSubscriptions context) in
  let isSendingStreams :=
    match videoDuplexMode context with
    | TX | DUPLEX => true
    | RX => false
    end in
  do! modify (set_previousSdpOffer (Some localSdp)) in
  let settings :=
    {| sub_attendeeId := attendeeId context;
       sub_sdpOffer := localSdp;
       sub_audioHost := audioHostURL context;
       sub_audioMuted := realtimeIsLocalAudioMuted context;
       sub_audioCheckin := false;
       sub_receiveStreamIds := videoSubscriptions;
       sub_localVideoEnabled := isSendingStreams;
       sub_videoStreamDescriptions := localStreamDescriptions context;
       sub_connectionTypeHasVideo := true |} in
  do! info MsgSendingSubscribe in
  do! subscribe settings in
  receiveSubscribeAck.

Inductive RunProgress : Type := Awaiting | Returned.

(** [run] from its [await] on: it stays suspended while the promise is
    pending, throws the rejection, or commits the acknowledgement. *)
Definition runAfterAwait (awaited : nat) : M World RunProgress :=
  let! w := get in
  match promises w !! awaited with
  | Some (Resolved subscribeAckFrame) =>
      do! info MsgGotSubscribeAck in
      match subscribeAckFrame with
      | None => throw TypeError
      | Some frame =>
          do! modify (set_contextSdpAnswer (Some (sdpAnswer frame))) in
          do! indexCall (CallIntegrateSubscribeAckFrame frame) in
          ret Returned
      end
  | Some (Rejected e) => throw e
  | Some Pending | None => ret Awaiting
  end.

(** The signaling client hands an event to an observer that is registered. *)
Definition dispatch (observer : nat) (event : SignalingClientEvent) : M World unit :=
  let! w := get in
  if decide (observer ∈ observers w)
  then Interceptor_handleSignalingClientEvent observer event
  else ret tt.

End Task.

End SubscribeAndReceiveSubscribeAckTask.

(** * The task as its callers reach it *)
Module BaseTask.
Import SubscribeAndReceiveSubscribeAckTask.

(** Modelled from the spec: the class [BaseTask], which the task extends
    and whose constructor it calls, is not among the sources.  Section 4.1
    of the specification gives its contract: [run] produces one terminal
    outcome, [cancel] is idempotent, a [cancel] after the task has settled
    has no effect, and a [cancel] before settlement makes the task settle
    with a cancellation failure.  The base class keeps a status for this. *)
Inductive TaskStatus : Type := IDLE | RUNNING | CANCELED | FINISHED.

(** Modelled from the spec: a task as its callers hold it, the status of
    the missing base class next to the state that the subclass writes. *)
Record Task : Type := {
  status : TaskStatus;
  world : World
}.

Definition set_status (v : TaskStatus) (t : Task) : Task :=
  {| status := v; world := world t |}.

(** A method body of the subclass, or a call of the signaling client into
    the interceptor, run on the task: the status is not touched. *)
Definition lift {A} (c : M World A) : M Task A :=
  fun t =>
    let '(r, w) := c (world t) in
    (r, {| status := status t; world := w |}).

(** Modelled from the spec: a new task is idle (the constructor of the
    missing base class); the subclass starts with a null [taskCanceler]. *)
Definition newTask (w : World) : Task :=
  {| status := IDLE; world := set_taskCanceler None w |}.

(** Modelled from the spec: when [run] settles, by returning or by
    throwing, the task is finished, unless it has been canceled. *)
Definition finish (t : Task) : Task :=
  match status t with
  | CANCELED => t
  | IDLE | RUNNING | FINISHED => set_status FINISHED t
  end.

(** Modelled from the spec: [cancel] as the missing base class wraps it.
    On a task that is canceled or finished it returns at once; otherwise
    it marks the task canceled and runs the [cancel] of the subclass.  The
    log lines of the wrapper itself are not modelled. *)
Definition baseCancel (originalCancel : M World unit) : M Task unit :=
  let! t := get in
  match status t with
  | CANCELED | FINISHED => ret tt
  | IDLE | RUNNING =>
      do! modify (set_status CANCELED) in
      lift originalCancel
  end.

(** Modelled from the spec: [run] as the missing base class wraps it, up
    to the [await] of the subclass.  Only an idle task runs the body of
    the subclass; a task that is running, canceled or finished fails at
    once.  The log lines of the wrapper itself are not modelled. *)
Definition baseRun (originalRun : M World nat) : M Task nat :=
  fun t =>
    match status t with
    | IDLE =>
        match lift originalRun (set_status RUNNING t) with
        | (Normal awaited, t') => (Normal awaited, t')
        | (Throw e, t') => (Throw e, finish t')
        end
    | RUNNING => (Throw (Error MsgAlreadyRunning), finish t)
    | CANCELED => (Throw (Error MsgCanceledBeforeRunning), finish t)
    | FINISHED => (Throw (Error MsgAlreadyFinished), finish t)
    end.

(** Modelled from the spec: the wrapped [run] from the [await] of the
    subclass on.  While the subclass stays suspended nothing happens; when
    it returns or throws, the task settles. *)
Definition baseRunAfterAwait (originalRunAfterAwait : M World RunProgress)
    : M Task RunProgress :=
  fun t =>
    match lift originalRunAfterAwait t with
    | (Normal Awaiting, t') => (Normal Awaiting, t')
    | (Normal Returned, t') => (Normal Returned, finish t')
    | (Throw e, t') => (Throw e, finish t')
    end.

Section Bound.

Context (env : Collaborators) (context : Session).

(** Modelled from the spec: the constructor of the missing base class
    replaces [cancel] and [run] of the object by their wrapped versions;
    these are the methods that callers of the task reach. *)
Definition boundCancel : M Task unit := baseCancel cancel.

Definition boundRun : M Task nat := baseRun (run env context).

Definition boundRunAfterAwait (awaited : nat) : M Task RunProgress :=
  baseRunAfterAwait (runAfterAwait awaited).

End Bound.

End BaseTask.

(** * Notions used in the statements about the uplink policy *)

Module PolicyNotions.
Import DefaultSimulcastUplinkPolicy.

(** What a parameter map says per layer: rid, active, maxBitrate in bps. *)
Definition layers (m : QualityMap) : list (string * bool * Z) :=
  List.map (fun kv => (fst kv, active (snd kv), maxBitrate (snd kv))) m.

(** The entries of a parameter map that are active. *)
Definition activeLayers (m : QualityMap) : list (string * RTCRtpEncodingParameters) :=
  List.filter (fun kv => active (snd kv)) m.

(** The state that a pass through the gate of [calculateEncodingParameters]
    leaves behind, log lines apart. *)
Definition proposal (numSendersChanged : bool) (s : Policy) : Policy :=
  if redetermines numSendersChanged s then
    set_newQualityMap
      (fillEncodingParamWithBitrates (snd (decideLayers s)) s)
      (set_newActiveStreams (fst (decideLayers s)) s)
  else s.

(** The hold-down window in the words of the specification. *)
Definition holdDownWindow (current : ActiveStreams) (rawSample : Q) : Z :=
  match current with
  | kLow => 8000
  | kMidAndLow => if Qle_bool rawSample (240 # 1) then 2000 else 4000
  | kHiAndLow => if Qle_bool rawSample (700 # 1) then 2000 else 4000
  | kHi => 4000
  end.

(** A tracked local stream whose disabled-by-runtime flag differs from the
    snapshot of the previous call. *)
Definition someFlagFlipped (s : Policy) (next : list VideoStreamDescription) : bool :=
  existsb (flagFlipped (currLocalDescriptions s)) next.

(** The state in which [updateConnectionMetric] reaches its hold-down
    test, for a sample that is a number. *)
Definition sampled (nowStart nowStartup : Z) (uplink : Q) (s : Policy) : Policy :=
  let s1 := if startTimeMs s =? 0 then set_startTimeMs nowStart s else s in
  let s2 :=
    set_lastUplinkBandwidthKbps
      (if nowStartup - startTimeMs s1 <? startupDurationMs
       then defaultUplinkBandwidthKbps else uplink) s1 in
  set_logger (fun l => l ++ [DebugUplinkUpdate (lastUplinkBandwidthKbps s2)]) s2.

Definition threeSenders : VideoStreamIndex :=
  {| localStreamDescriptions := [];
     numberOfParticipants := 5;
     numberOfVideoPublishingParticipantsExcludingSelf := fun _ => 2 |}.

Definition twoParticipants : VideoStreamIndex :=
  {| localStreamDescriptions := [];
     numberOfParticipants := 2;
     numberOfVideoPublishingParticipantsExcludingSelf := fun _ => 1 |}.

(** A policy created at time 1000 whose first sample came at time 1500. *)
Definition started : Policy := set_startTimeMs 1500 (constructor "attendee" 1000).

(** A policy in a call of five with three senders whose effective uplink
    is 500 kbps, and a policy in a call of two: in both the proposal made
    by [updateIndex] has not been committed. *)
Definition inCallOfFive : Policy :=
  set_lastUplinkBandwidthKbps (500 # 1)
    (exec (updateIndex threeSenders) (constructor "attendee" 1000)).

Definition inCallOfTwo : Policy :=
  exec (updateIndex twoParticipants) (constructor "attendee" 1000).

(** The proposal of a policy with simulcast disabled: mid alone is
    active, at 1200 kbps. *)
Definition singleLayer (s : Policy) : Prop :=
  shouldDisableSimulcast s = true ->
  layers (newQualityMap s)
  = [("low", false, 0); ("mid", true, 1200000); ("hi", false, 0)].

(** One call of a public method of the policy. *)
Inductive step : Policy -> Policy -> Prop :=
  | step_updateConnectionMetric (nowStart nowStartup nowHold : Z)
      (metrics : ConnectionMetrics) (s : Policy) :
      step s (exec (updateConnectionMetric nowStart nowStartup nowHold metrics) s)
  | step_updateIndex (index : VideoStreamIndex) (s : Policy) :
      step s (exec (updateIndex index) s)
  | step_chooseEncodingParameters (s : Policy) :
      step s (exec chooseEncodingParameters s)
  | step_wantsResubscribe (now : Z) (s : Policy) :
      step s (exec (wantsResubscribe now) s)
  | step_addObserver (observer : nat) (s : Policy) :
      step s (exec (addObserver observer) s)
  | step_removeObserver (observer : nat) (s : Policy) :
      step s (exec (removeObserver observer) s)
  | step_runNextTick (s : Policy) :
      step s (exec runNextTick s).

(** The states a policy object can be in. *)
Inductive reachable : Policy -> Prop :=
  | reachable_new (selfAttendeeId : string) (now : Z) :
      reachable (constructor selfAttendeeId now)
  | reachable_step (s s' : Policy) :
      reachable s -> step s s' -> reachable s'.

(** The state after [this.newQualityMap = this.calculateEncodingParameters(..)]. *)
Definition recalculated (numSendersChanged : bool) (s : Policy) : Policy :=
  match calculateEncodingParameters numSendersChanged s with
  | (Normal quality, s') => set_newQualityMap quality s'
  | (Throw _, s') => s'
  end.

(** The effective uplink lies strictly inside the hysteresis band of the
    current layer set.  For Hi the band ends at 2^53, where the sum
    [lastUplinkBandwidthKbps + 1] starts to round back. *)
Definition insideBand (s : Policy) : Prop :=
  match currentActiveStreams s with
  | kHi =>
      (0 # 1 < lastUplinkBandwidthKbps s)%Q
      /\ (lastUplinkBandwidthKbps s < 9007199254740992 # 1)%Q
  | kHiAndLow =>
      (700 # 1 < lastUplinkBandwidthKbps s)%Q /\ (lastUplinkBandwidthKbps s < 2400 # 1)%Q
  | kMidAndLow =>
      (240 # 1 < lastUplinkBandwidthKbps s)%Q /\ (lastUplinkBandwidthKbps s < 1000 # 1)%Q
  | kLow =>
      (0 # 1 < lastUplinkBandwidthKbps s)%Q /\ (lastUplinkBandwidthKbps s < 300 # 1)%Q
  end.

(** The layer sets of a call with simulcast in use, by bandwidth need. *)
Definition tierRank (streams : ActiveStreams) : Z :=
  match streams with
  | kLow => 0
  | kMidAndLow => 1
  | kHiAndLow => 2
  | kHi => 3
  end.

(** Which layers a layer set switches on, lowest layer first. *)
Definition activePattern (streams : ActiveStreams) : list (string * bool) :=
  match streams with
  | kHi => [("low", false); ("mid", true); ("hi", false)]
  | kHiAndLow => [("low", true); ("mid", false); ("hi", true)]
  | kMidAndLow => [("low", true); ("mid", true); ("hi", false)]
  | kLow => [("low", true); ("mid", false); ("hi", false)]
  end.

Definition activeFlags (m : QualityMap) : list (string * bool) :=
  List.map (fun kv => (fst kv, active (snd kv))) m.

(** The parameter maps agree with the layer sets they are stored with. *)
Definition consistent (s : Policy) : Prop :=
  activeFlags (newQualityMap s) = activePattern (newActiveStreams s)
  /\ activeFlags (currentQualityMap s) = activePattern (currentActiveStreams s).

(** [n] queued [nextTick] callbacks run, one after the other; the result
    lists the observer calls they make. *)
Fixpoint runTicks (n : nat) (s : Policy) : list (nat * SimulcastLayers) * Policy :=
  match n with
  | O => ([], s)
  | S n' =>
      let '(r, s1) := runNextTick s in
      let '(calls, s2) := runTicks n' s1 in
      (match r with Normal (Some call) => call :: calls | _ => calls end, s2)
  end.

(** A local stream of the index that the previous snapshot does not track. *)
Definition untracked (curr : list VideoStreamDescription)
    (next : VideoStreamDescription) : Prop :=
  streamId next = 0
  \/ Forall (fun prev => streamId prev <> streamId next) curr.

(** An index with one local stream, and a policy that has committed its
    proposal and then received this index. *)
Definition oneStream : VideoStreamIndex :=
  {| localStreamDescriptions := [{| streamId := 7; disabledByWebRTC := true |}];
     numberOfParticipants := 5;
     numberOfVideoPublishingParticipantsExcludingSelf := fun _ => 0 |}.

Definition committedWithStream : Policy :=
  exec (updateIndex oneStream)
    (exec chooseEncodingParameters (constructor "attendee" 1000)).

(** The same index after the runtime has switched the stream back on. *)
Definition oneStreamEnabled : VideoStreamIndex :=
  {| localStreamDescriptions := [{| streamId := 7; disabledByWebRTC := false |}];
     numberOfParticipants := 5;
     numberOfVideoPublishingParticipantsExcludingSelf := fun _ => 0 |}.

(** The policy [committedWithStream] after one [wantsResubscribe], which
    takes the snapshot, and a change of the flag in the index. *)
Definition afterFlip : Policy :=
  set_videoIndex (Some oneStreamEnabled)
    (exec (wantsResubscribe 2000) committedWithStream).

(** Two results of [Map.get] describe the same encoding: both absent, or
    both present with the same rid, activity, scale and maximum bitrate. *)
Definition sameEncoding (e1 e2 : option RTCRtpEncodingParameters) : Prop :=
  match e1, e2 with
  | None, None => True
  | Some a, Some b =>
      rid a = rid b
      /\ active a = active b
      /\ (scaleResolutionDownBy a == scaleResolutionDownBy b)%Q
      /\ maxBitrate a = maxBitrate b
  | _, _ => False
  end.

(** The proposed parameter map differs from the committed one in some
    layer. *)
Definition proposalDiffers (s : Policy) : Prop :=
  exists ridName,
    In ridName ["low"; "mid"; "hi"]
    /\ ~ sameEncoding (map_get ridName (newQualityMap s))
                      (map_get ridName (currentQualityMap s)).

(** A local stream of [next] with a non-zero id is tracked by the snapshot
    [curr], and its disabled-by-runtime flag differs from the one of the
    first snapshot entry with that id. *)
Definition trackedFlagFlipped (curr next : list VideoStreamDescription) : Prop :=
  exists (stream prev : VideoStreamDescription) (pre post : list VideoStreamDescription),
    In stream next
    /\ streamId stream <> 0
    /\ curr = pre ++ prev :: post
    /\ Forall (fun earlier => streamId earlier <> streamId stream) pre
    /\ streamId prev = streamId stream
    /\ disabledByWebRTC stream <> disabledByWebRTC prev.

End PolicyNotions.

(** * Notions used in the statements about the subscribe/acknowledge task *)

Module TaskNotions.
Import SubscribeAndReceiveSubscribeAckTask.

Definition isRecvonly (direction : string) : bool := String.eqb direction "recvonly".

(** The number of receive-only sections before section [i]. *)
Definition recvonlyBefore (directions : list string) (i : nat) : nat :=
  length (List.filter isRecvonly (take i directions)).

(** The non-zero values of the input array, in order. *)
Definition nonZero (videoSubscriptions : list Z) : list Z :=
  List.filter (fun value => negb (value =? 0)) videoSubscriptions.

(** The list that the loop of [fixUpSubscriptionOrder] appends, as a pure
    function of the directions and of the index it starts from. *)
Fixpoint repairFrom (directions : list string) (values : list Z) (k : nat) : list Z :=
  match directions with
  | [] => []
  | direction :: rest =>
      if isRecvonly direction then
        if (length values <=? k)%nat then 0 :: repairFrom rest values k
        else nth k values 0 :: repairFrom rest values (S k)
      else 0 :: repairFrom rest values k
  end.

(** The number of [removeObserver] calls the signaling client has received. *)
Definition removals (w : World) : nat :=
  length (List.filter
            (fun c => match c with CallRemoveObserver _ => true | _ => false end)
            (signalingCalls w)).

(** An event on which the interceptor resolves the wait. *)
Definition isSubscribeAck (event : SignalingClientEvent) : bool :=
  negb (isConnectionTerminated event)
  && match type event, message event with
     | ReceivedSignalFrame, Some frame =>
         match frameType frame with SUBSCRIBE_ACK => true | OtherFrame _ => false end
     | _, _ => false
     end.

(** A status handler that leaves the exchange alone: it neither touches the
    observer registry nor any promise. *)
Definition leavesExchange (env : Collaborators) : Prop :=
  forall status e w,
    observers (handleMeetingSessionStatus env status e w) = observers w
    /\ promises (handleMeetingSessionStatus env status e w) = promises w.

(** The signaling client delivers a sequence of events to one observer;
    what a handler throws goes to the client, not to the task. *)
Definition deliver (env : Collaborators) (observer : nat)
    (events : list SignalingClientEvent) (w : World) : World :=
  fold_left (fun w event => exec (dispatch env observer event) w) events w.

(** Collaborators whose status handler only takes note of the status. *)
Definition quietEnv : Collaborators :=
  {| withUnifiedPlanFormat := fun sdp => sdp;
     videoSectionDirections :=
       fun _ => ["sendrecv"; "recvonly"; "inactive"; "recvonly"; "recvonly"];
     handleMeetingSessionStatus := fun _ _ w => w |}.

Definition session : Session :=
  {| peerLocalDescriptionSdp := Some "v=0";
     requiresUnifiedPlanMunging := false;
     requiresUnifiedPlan := true;
     enableSimulcast := true;
     videoCaptureAndEncodeParameter := None;
     videoSubscriptions := [0; 5; 0; 7];
     videoDuplexMode := DUPLEX;
     attendeeId := "attendee";
     audioHostURL := "host";
     realtimeIsLocalAudioMuted := false;
     localStreamDescriptions := [] |}.

Definition idle : World :=
  {| logger := []; previousSdpOffer := None; contextSdpAnswer := None;
     observers := ∅; signalingCalls := []; indexCalls := [];
     promises := ∅; taskCanceler := None |}.

(** The world in which [run] has sent the subscribe frame and awaits the
    acknowledgement; the interceptor is object 0. *)
Definition awaiting : World := exec (run quietEnv session) idle.

Definition closed (code : Z) : SignalingClientEvent :=
  {| type := OtherEvent 0; isConnectionTerminated := true;
     closeCode := code; closeReason := "closed"; message := None |}.

Definition ackFrame : SdkSignalFrame :=
  {| frameType := SUBSCRIBE_ACK; suback := Some {| sdpAnswer := "answer" |} |}.

Definition acknowledged : SignalingClientEvent :=
  {| type := ReceivedSignalFrame; isConnectionTerminated := false;
     closeCode := 0; closeReason := ""; message := Some ackFrame |}.

(** The number of receive-only sections. *)
Definition recvonlyCount (directions : list string) : nat :=
  length (List.filter isRecvonly directions).

(** The log lines of one [fixUpSubscriptionOrder]: one warning per
    receive-only section left without a subscription, then the summary. *)
Definition fixUpLog (directions : list string) (videoSubscriptions repaired : list Z)
    : list (LogLevel * Message) :=
  let available := length (nonZero videoSubscriptions) in
  replicate (recvonlyCount directions - available)
    (Warn, MsgMoreReceiveSections available available)
  ++ [(Info, MsgFixedUp videoSubscriptions repaired)].

(** The local SDP that [run] offers. *)
Definition offeredSdp (env : Collaborators) (context : Session) : string :=
  match peerLocalDescriptionSdp context with
  | Some sdp =>
      if requiresUnifiedPlanMunging context then withUnifiedPlanFormat env sdp else sdp
  | None => ""
  end.

(** A received frame that is not the acknowledgement. *)
Definition otherFrame : SignalingClientEvent :=
  {| type := ReceivedSignalFrame; isConnectionTerminated := false;
     closeCode := 0; closeReason := "";
     message := Some {| frameType := OtherFrame 3; suback := None |} |}.

Import BaseTask.

(** A task that is canceled or has finished. *)
Definition stopped (t : Task) : Prop :=
  status t = CANCELED \/ status t = FINISHED.


(** A new task, and the same task after [run] has sent the subscribe frame
    and suspended; the interceptor is object 0. *)
Definition idleTask : Task := newTask idle.

Definition runningTask : Task := exec (boundRun quietEnv session) idleTask.

End TaskNotions.

(** * Properties of the uplink policy *)

Module PolicyProperties.
Import DefaultSimulcastUplinkPolicy PolicyNotions.

(** ** Helper lemmas *)

Lemma Qge_bool_iff (a b : Q) : Qge_bool a b = true <-> (b <= a)%Q.
Proof. unfold Qge_bool. apply Qle_bool_iff. Qed.

Lemma Qge_bool_false (a b : Q) : Qge_bool a b = false <-> ~ (b <= a)%Q.
Proof.
  rewrite <- Qge_bool_iff. destruct (Qge_bool a b); split; intro H; try reflexivity.
  - discriminate.
  - exfalso. apply H. reflexivity.
  - intro H'. discriminate.
Qed.

Lemma set_logger_nil (s : Policy) : set_logger (fun l => l ++ []) s = s.
Proof. destruct s. unfold set_logger. simpl. rewrite app_nil_r. reflexivity. Qed.

(** [calculateEncodingParameters] changes the proposal as [proposal] says
    and appends log lines; this holds on the throwing path too. *)
(** Unfolding of the monadic combinators of the policy. *)
Ltac run_policy :=
  cbv beta iota delta
    [exec result bind get gets modify when ret throw log fst snd].

Lemma getQualityMapString_state (params : QualityMap) (s : Policy) :
  snd (getQualityMapString params s) = s.
Proof.
  unfold getQualityMapString. run_policy.
  destruct (videoIndex s) as [index|]; [|reflexivity].
  destruct (length (localStreamDescriptions index) =? 3)%nat; reflexivity.
Qed.

(** [calculateEncodingParameters] changes the proposal as [proposal] says
    and appends log lines; this holds on the throwing path too. *)
Lemma calculate_exec (numSendersChanged : bool) (s : Policy) :
  exists entries,
    exec (calculateEncodingParameters numSendersChanged) s
    = set_logger (fun l => l ++ entries) (proposal numSendersChanged s).
Proof.
  unfold calculateEncodingParameters, proposal. run_policy.
  destruct (redetermines numSendersChanged s) eqn:Hgate.
  - destruct (decideLayers s) as [streams bitrates] eqn:Hd.
    cbv beta iota.
    set (s1 := set_newQualityMap _ (set_newActiveStreams streams s)).
    clearbody s1.
    destruct (encodingParametersEqual s1).
    + exists []. rewrite set_logger_nil. reflexivity.
    + cbv beta iota delta [negb].
      pose proof (getQualityMapString_state (newQualityMap s1) s1) as Hq.
      destruct (getQualityMapString (newQualityMap s1) s1) as [[quality|e] s2].
      * simpl in Hq. subst s2. eexists. reflexivity.
      * simpl in Hq. subst s2. exists []. rewrite set_logger_nil. reflexivity.
  - exists []. rewrite set_logger_nil. reflexivity.
Qed.

Lemma proposal_frame (numSendersChanged : bool) (s : Policy) :
  lastUplinkBandwidthKbps (proposal numSendersChanged s) = lastUplinkBandwidthKbps s
  /\ currentActiveStreams (proposal numSendersChanged s) = currentActiveStreams s
  /\ currentQualityMap (proposal numSendersChanged s) = currentQualityMap s
  /\ lastUpdatedMs (proposal numSendersChanged s) = lastUpdatedMs s
  /\ shouldDisableSimulcast (proposal numSendersChanged s) = shouldDisableSimulcast s.
Proof.
  unfold proposal. destruct (redetermines numSendersChanged s); repeat split.
Qed.

Lemma holdTime_window (s : Policy) (uplink : Q) :
  holdTime s uplink = holdDownWindow (currentActiveStreams s) uplink.
Proof.
  unfold holdTime, holdDownWindow, kMidDisabledRate, kHiDisabledRate.
  destruct (currentActiveStreams s); try reflexivity;
    destruct (Qle_bool uplink _); reflexivity.
Qed.

Lemma sampled_frame (nowStart nowStartup : Z) (uplink : Q) (s : Policy) :
  let s' := sampled nowStart nowStartup uplink s in
  newQualityMap s' = newQualityMap s
  /\ newActiveStreams s' = newActiveStreams s
  /\ currentActiveStreams s' = currentActiveStreams s
  /\ lastUpdatedMs s' = lastUpdatedMs s.
Proof.
  unfold sampled. destruct (startTimeMs s =? 0); repeat split.
Qed.

Lemma updateConnectionMetric_unfold (nowStart nowStartup nowHold : Z)
    (uplink : Q) (s : Policy) :
  updateConnectionMetric nowStart nowStartup nowHold
    {| uplinkKbps := Some (Num uplink) |} s
  = let s' := sampled nowStart nowStartup uplink s in
    if nowHold <? lastUpdatedMs s' + holdTime s' uplink then (Normal tt, s')
    else
      match calculateEncodingParameters false s' with
      | (Normal quality, s'') => (Normal tt, set_newQualityMap quality s'')
      | (Throw e, s'') => (Throw e, s'')
      end.
Proof.
  unfold updateConnectionMetric, sampled.
  cbv beta iota delta [default from_option id uplinkKbps]. run_policy.
  destruct (startTimeMs s =? 0);
    destruct (nowStartup - startTimeMs _ <? startupDurationMs);
    unfold holdTime;
    cbn [lastUpdatedMs currentActiveStreams set_logger
         set_lastUplinkBandwidthKbps set_startTimeMs];
    destruct (nowHold <? _); reflexivity.
Qed.

Lemma fold_flag (p : VideoStreamDescription -> bool)
    (l : list VideoStreamDescription) (diff : bool) :
  fold_left (fun (d : bool) next => if p next then true else d) l diff
  = diff || existsb p l.
Proof.
  revert diff. induction l as [|x l IH]; intro diff; simpl.
  - rewrite orb_false_r. reflexivity.
  - rewrite IH. destruct (p x), diff; reflexivity.
Qed.

Lemma compareEncodingParameter_refl (e : option RTCRtpEncodingParameters) :
  compareEncodingParameter e e = true.
Proof.
  destruct e as [p|]; [|reflexivity]. simpl.
  rewrite String.eqb_refl, Z.eqb_refl.
  assert (Hq : Qeq_bool (scaleResolutionDownBy p) (scaleResolutionDownBy p) = true)
    by (apply Qeq_bool_iff; reflexivity).
  rewrite Hq. destruct (active p); reflexivity.
Qed.

Lemma encodingParametersEqual_same (s : Policy) :
  newQualityMap s = currentQualityMap s -> encodingParametersEqual s = true.
Proof.
  intro H. unfold encodingParametersEqual, NAME_ARR_ASCENDING. rewrite H. simpl.
  rewrite !compareEncodingParameter_refl. reflexivity.
Qed.

Lemma bind_gets_result {S A B : Type} (c : M S A) (f : S -> B) (s s' : S) (b : B) :
  bind c (fun _ => gets f) s = (Normal b, s') -> b = f s'.
Proof.
  unfold bind, gets. destruct (c s) as [[a|e] s1]; intro H; inversion H; reflexivity.
Qed.

Lemma calculate_result (numSendersChanged : bool) (s : Policy) :
  forall quality s',
    calculateEncodingParameters numSendersChanged s = (Normal quality, s') ->
    quality = newQualityMap s'.
Proof.
  intros quality s' H. unfold calculateEncodingParameters in H.
  unfold bind at 1 in H. unfold get in H. cbv beta iota in H.
  apply bind_gets_result in H. exact H.
Qed.

(** Boolean tests in the hypotheses become propositions. *)
Ltac reflect_hyps :=
  repeat match goal with
    | H : (_ <=? _) = true |- _ => apply Z.leb_le in H
    | H : (_ <=? _) = false |- _ => apply Z.leb_gt in H
    | H : (_ <? _) = true |- _ => apply Z.ltb_lt in H
    | H : (_ <? _) = false |- _ => apply Z.ltb_ge in H
    | H : Qge_bool _ _ = true |- _ => apply (proj1 (Qge_bool_iff _ _)) in H
    | H : Qge_bool _ _ = false |- _ => apply (proj1 (Qge_bool_false _ _)) in H
    end.

(** ** The layer decision *)

(** C3. When the layer set is redetermined (the gate is passed or the
    recomputation is forced) and simulcast is not disabled: with at most 4
    senders and an effective uplink of at least 700 kbps the proposal is
    HiAndLow with low = 300 kbps and high = 1200 kbps; otherwise, with an
    uplink of at least 240 kbps, it is MidAndLow with low = 200 kbps if the
    uplink is at least 350 and 150 kbps if not, and mid = 600 kbps for at
    most 6 senders and 350 kbps for more; otherwise it is Low, with only
    low = 300 kbps active. *)
Theorem layer_decision_table (numSendersChanged : bool) (s : Policy) :
  shouldDisableSimulcast s = false ->
  redetermines numSendersChanged s = true ->
  let s' := exec (calculateEncodingParameters numSendersChanged) s in
  let uplink := lastUplinkBandwidthKbps s in
  (numSenders s <= 4 /\ (700 # 1 <= uplink)%Q ->
     newActiveStreams s' = kHiAndLow
     /\ layers (newQualityMap s')
        = [("low", true, 300000); ("mid", false, 0); ("hi", true, 1200000)])
  /\ (~ (numSenders s <= 4 /\ (700 # 1 <= uplink)%Q) -> (240 # 1 <= uplink)%Q ->
     newActiveStreams s' = kMidAndLow
     /\ layers (newQualityMap s')
        = [("low", true, if Qle_bool (350 # 1) uplink then 200000 else 150000);
           ("mid", true, if numSenders s <=? 6 then 600000 else 350000);
           ("hi", false, 0)])
  /\ (~ (numSenders s <= 4 /\ (700 # 1 <= uplink)%Q) -> ~ (240 # 1 <= uplink)%Q ->
     newActiveStreams s' = kLow
     /\ layers (newQualityMap s')
        = [("low", true, 300000); ("mid", false, 0); ("hi", false, 0)]).
Proof.
  intros Hdis Hgate s' uplink. subst s'.
  destruct (calculate_exec numSendersChanged s) as [entries ->].
  unfold proposal. rewrite Hgate. cbn [newActiveStreams newQualityMap set_logger
    set_newQualityMap set_newActiveStreams].
  unfold decideLayers. rewrite Hdis. fold uplink.
  unfold kHiDisabledRate, kMidDisabledRate.
  destruct (numSenders s <=? 4) eqn:Hn;
    destruct (Qge_bool uplink (700 # 1)) eqn:Hhi;
    destruct (Qge_bool uplink (240 # 1)) eqn:Hmid;
    cbn [andb fst snd];
    reflect_hyps;
    (split; [|split]); intros;
    try (exfalso; tauto); try (exfalso; lia);
    try (split; reflexivity);
    try (unfold Qge_bool; split; [reflexivity|];
         destruct (Qle_bool (350 # 1) uplink); destruct (numSenders s <=? 6);
         reflexivity).
Qed.

(** C4. When simulcast is disabled (two participants or fewer) and the
    parameters are computed, the map has exactly one active layer, with
    maxBitrate 1,200,000 bps and scaleResolutionDownBy equal to 1, whatever
    the last uplink sample; every other layer is inactive. *)
Theorem disabled_simulcast_single_layer (numSendersChanged : bool) (s : Policy) :
  shouldDisableSimulcast s = true ->
  redetermines numSendersChanged s = true ->
  let s' := exec (calculateEncodingParameters numSendersChanged) s in
  (exists p,
      activeLayers (newQualityMap s') = [("mid", p)]
      /\ maxBitrate p = 1200000
      /\ (scaleResolutionDownBy p == 1 # 1)%Q)
  /\ layers (newQualityMap s')
     = [("low", false, 0); ("mid", true, 1200000); ("hi", false, 0)].
Proof.
  intros Hdis Hgate s'. subst s'.
  destruct (calculate_exec numSendersChanged s) as [entries ->].
  unfold proposal. rewrite Hgate. cbn [newQualityMap set_logger set_newQualityMap].
  unfold decideLayers, fillEncodingParamWithBitrates. rewrite Hdis.
  cbn [snd]. split.
  - eexists. split; [reflexivity|]. split; reflexivity.
  - reflexivity.
Qed.

(** X14. The scenario of the specification: the participant count drops to two
    (or fewer), which forces the recomputation. *)
Lemma participants_drop_to_two (index : VideoStreamIndex) (s : Policy) :
  shouldDisableSimulcast s = false ->
  0 <= numberOfParticipants index <= 2 ->
  let s' := exec (updateIndex index) s in
  shouldDisableSimulcast s' = true
  /\ layers (newQualityMap s')
     = [("low", false, 0); ("mid", true, 1200000); ("hi", false, 0)].
Proof.
  intros Hdis Hp s'. subst s'. unfold updateIndex. run_policy.
  assert (Hnew : (0 <=? numberOfParticipants index)
                 && (numberOfParticipants index <=? 2) = true).
  { apply andb_true_iff. split; apply Z.leb_le; lia. }
  rewrite Hnew, Hdis. cbn [Bool.eqb negb]. rewrite orb_true_r.
  set (s1 := set_videoIndex _ _).
  assert (Hd1 : shouldDisableSimulcast s1 = true) by reflexivity.
  assert (Hg1 : redetermines true s1 = true).
  { unfold redetermines. destruct (hysteresis s1). reflexivity. }
  pose proof (calculate_result true s1) as Hres.
  destruct (calculate_exec true s1) as [entries He]. unfold exec in He.
  assert (Hmap : layers (newQualityMap (snd (calculateEncodingParameters true s1)))
                 = [("low", false, 0); ("mid", true, 1200000); ("hi", false, 0)]).
  { rewrite He. unfold proposal. rewrite Hg1.
    unfold decideLayers, fillEncodingParamWithBitrates. rewrite Hd1. reflexivity. }
  assert (Hd2 : shouldDisableSimulcast (snd (calculateEncodingParameters true s1)) = true).
  { rewrite He. cbn [shouldDisableSimulcast set_logger].
    destruct (proposal_frame true s1) as (_ & _ & _ & _ & ->). exact Hd1. }
  destruct (calculateEncodingParameters true s1) as [[quality|e] s2];
    cbn [snd] in Hmap, Hd2 |- *.
  - rewrite (Hres quality s2 eq_refl). split; [exact Hd2 | exact Hmap].
  - split; [exact Hd2 | exact Hmap].
Qed.

(** ** Bandwidth samples: start-up grace and hold-down *)

Lemma calculate_lastUplink (numSendersChanged : bool) (s : Policy) :
  lastUplinkBandwidthKbps (snd (calculateEncodingParameters numSendersChanged s))
  = lastUplinkBandwidthKbps s.
Proof.
  destruct (calculate_exec numSendersChanged s) as [entries He].
  unfold exec in He. rewrite He. cbn [lastUplinkBandwidthKbps set_logger].
  apply proposal_frame.
Qed.

(** C5. A sample that is a number and arrives at a time earlier than the
    last transition plus H leaves the proposed quality map (and the
    proposed layer set) unchanged, where H is 8000 ms when the current
    layer set is Low, 2000 ms when it is MidAndLow and the raw sample is at
    most 240 kbps or it is HiAndLow and the raw sample is at most 700 kbps,
    and 4000 ms otherwise; H is read off the current layer set, whatever
    the proposed one is. *)
Theorem hold_down_suppresses_recomputation
    (s : Policy) (nowStart nowStartup nowHold : Z) (sample : Q) :
  nowHold < lastUpdatedMs s + holdDownWindow (currentActiveStreams s) sample ->
  let update :=
    updateConnectionMetric nowStart nowStartup nowHold
      {| uplinkKbps := Some (Num sample) |} in
  result update s = Normal tt
  /\ newQualityMap (exec update s) = newQualityMap s
  /\ newActiveStreams (exec update s) = newActiveStreams s.
Proof.
  intros Hlt update. subst update. unfold result, exec.
  rewrite updateConnectionMetric_unfold. cbv zeta.
  rewrite holdTime_window.
  destruct (sampled_frame nowStart nowStartup sample s) as (Hq & Ha & Hc & Hu).
  rewrite Hc, Hu.
  apply Z.ltb_lt in Hlt. rewrite Hlt. cbn [fst snd].
  split; [reflexivity|]. split; assumption.
Qed.

(** X15. Once the window has passed the sample does reach the layer decision,
    so the window of C5 is the exact one. *)
Lemma hold_down_elapsed_recomputes
    (s : Policy) (nowStart nowStartup nowHold : Z) (sample : Q) :
  lastUpdatedMs s + holdDownWindow (currentActiveStreams s) sample <= nowHold ->
  exec (updateConnectionMetric nowStart nowStartup nowHold
          {| uplinkKbps := Some (Num sample) |}) s
  = recalculated false (sampled nowStart nowStartup sample s).
Proof.
  intro Hge. unfold exec. rewrite updateConnectionMetric_unfold. cbv zeta.
  rewrite holdTime_window.
  destruct (sampled_frame nowStart nowStartup sample s) as (_ & _ & Hc & Hu).
  rewrite Hc, Hu. apply Z.ltb_ge in Hge. rewrite Hge. unfold recalculated.
  destruct (calculateEncodingParameters false _) as [[quality|e] s'']; reflexivity.
Qed.

(** C8. A sample that is a number and arrives less than 6000 ms after the
    start time (the time of the first such sample) stores the default of
    1200 kbps as the effective bandwidth, not the raw value. *)
Theorem startup_grace_substitutes_default
    (s : Policy) (nowStart nowStartup nowHold : Z) (sample : Q) :
  let start := if startTimeMs s =? 0 then nowStart else startTimeMs s in
  nowStartup - start < 6000 ->
  lastUplinkBandwidthKbps
    (exec (updateConnectionMetric nowStart nowStartup nowHold
             {| uplinkKbps := Some (Num sample) |}) s)
  = 1200 # 1.
Proof.
  intros start Hlt. unfold exec. rewrite updateConnectionMetric_unfold. cbv zeta.
  assert (Hs : lastUplinkBandwidthKbps (sampled nowStart nowStartup sample s) = 1200 # 1).
  { unfold sampled. cbn [lastUplinkBandwidthKbps set_logger set_lastUplinkBandwidthKbps].
    subst start. apply Z.ltb_lt in Hlt. unfold startupDurationMs.
    destruct (startTimeMs s =? 0); cbn [startTimeMs set_startTimeMs];
      rewrite Hlt; reflexivity. }
  destruct (nowHold <? _); [exact Hs|].
  pose proof (calculate_lastUplink false (sampled nowStart nowStartup sample s)) as Hc.
  destruct (calculateEncodingParameters false _) as [[quality|e] s''];
    cbn [snd] in Hc |- *.
  - cbn [lastUplinkBandwidthKbps set_newQualityMap]. rewrite Hc. exact Hs.
  - rewrite Hc. exact Hs.
Qed.

(** X16. After the start-up window the raw sample is stored. *)
Lemma after_startup_raw_sample
    (s : Policy) (nowStart nowStartup nowHold : Z) (sample : Q) :
  let start := if startTimeMs s =? 0 then nowStart else startTimeMs s in
  6000 <= nowStartup - start ->
  lastUplinkBandwidthKbps
    (exec (updateConnectionMetric nowStart nowStartup nowHold
             {| uplinkKbps := Some (Num sample) |}) s)
  = sample.
Proof.
  intros start Hge. unfold exec. rewrite updateConnectionMetric_unfold. cbv zeta.
  assert (Hs : lastUplinkBandwidthKbps (sampled nowStart nowStartup sample s) = sample).
  { unfold sampled. cbn [lastUplinkBandwidthKbps set_logger set_lastUplinkBandwidthKbps].
    subst start. apply Z.ltb_ge in Hge. unfold startupDurationMs.
    destruct (startTimeMs s =? 0); cbn [startTimeMs set_startTimeMs];
      rewrite Hge; reflexivity. }
  destruct (nowHold <? _); [exact Hs|].
  pose proof (calculate_lastUplink false (sampled nowStart nowStartup sample s)) as Hc.
  destruct (calculateEncodingParameters false _) as [[quality|e] s''];
    cbn [snd] in Hc |- *.
  - cbn [lastUplinkBandwidthKbps set_newQualityMap]. rewrite Hc. exact Hs.
  - rewrite Hc. exact Hs.
Qed.

(** A sample that is not a number changes nothing. *)
Lemma nan_sample_ignored (s : Policy) (nowStart nowStartup nowHold : Z) :
  updateConnectionMetric nowStart nowStartup nowHold {| uplinkKbps := Some NaN |} s
  = (Normal tt, s).
Proof. reflexivity. Qed.

(** ** wantsResubscribe *)

Lemma wantsResubscribe_unfold (s : Policy) (index : VideoStreamIndex) (now : Z) :
  videoIndex s = Some index ->
  let next := localStreamDescriptions index in
  let answer := negb (encodingParametersEqual s) || someFlagFlipped s next in
  wantsResubscribe now s
  = (Normal answer,
     set_currLocalDescriptions next
       (if answer
        then set_lastUpdatedMs now (set_nextLocalDescriptions next s)
        else set_nextLocalDescriptions next s)).
Proof.
  intros Hindex next answer. unfold wantsResubscribe. run_policy.
  rewrite Hindex.
  cbn [nextLocalDescriptions currLocalDescriptions set_nextLocalDescriptions].
  rewrite fold_flag. fold next. unfold someFlagFlipped in answer. fold answer.
  destruct answer; reflexivity.
Qed.

Lemma chooseEncodingParameters_frame (s : Policy) :
  let s' := exec chooseEncodingParameters s in
  currentQualityMap s' = newQualityMap s
  /\ newQualityMap s' = newQualityMap s
  /\ currentActiveStreams s' = newActiveStreams s
  /\ videoIndex s' = videoIndex s
  /\ currLocalDescriptions s' = currLocalDescriptions s
  /\ lastUpdatedMs s' = lastUpdatedMs s.
Proof.
  unfold chooseEncodingParameters, publishEncodingSimulcastLayer. run_policy.
  cbn [activeStreamsToPublish newActiveStreams set_currentActiveStreams
       set_currentQualityMap].
  destruct (negb _); repeat split.
Qed.

Lemma findIndex_first {A} (p : A -> bool) (pre post : list A) (x : A) :
  Forall (fun y => p y = false) pre ->
  p x = true ->
  findIndex p (pre ++ x :: post) = Some (length pre)
  /\ nth_error (pre ++ x :: post) (length pre) = Some x.
Proof.
  intros Hpre Hx. induction Hpre as [|y pre Hy _ [IH1 IH2]].
  - simpl. rewrite Hx. split; reflexivity.
  - simpl. rewrite Hy, IH1. split; [reflexivity | exact IH2].
Qed.

Lemma findIndex_Some {A} (p : A -> bool) (l : list A) :
  forall i, findIndex p l = Some i ->
  exists pre x post,
    l = pre ++ x :: post
    /\ Forall (fun y => p y = false) pre
    /\ p x = true
    /\ nth_error l i = Some x.
Proof.
  induction l as [|y l IH]; intros i Hi; [discriminate Hi|].
  simpl in Hi. destruct (p y) eqn:Hy.
  - injection Hi as <-. exists [], y, l. repeat split; [constructor | exact Hy].
  - destruct (findIndex p l) as [j|] eqn:Hj; [|discriminate Hi].
    simpl in Hi. injection Hi as <-.
    destruct (IH j eq_refl) as (pre & x & post & -> & Hpre & Hx & Hnth).
    exists (y :: pre), x, post. repeat split; [constructor; assumption | exact Hx | exact Hnth].
Qed.

Lemma compareEncodingParameter_spec (e1 e2 : option RTCRtpEncodingParameters) :
  compareEncodingParameter e1 e2 = true <-> sameEncoding e1 e2.
Proof.
  destruct e1 as [a|], e2 as [b|]; simpl; try (split; [discriminate | contradiction]);
    [|split; reflexivity].
  rewrite !andb_true_iff, String.eqb_eq, Bool.eqb_true_iff, Qeq_bool_iff, Z.eqb_eq.
  tauto.
Qed.

Lemma encodingParametersEqual_spec (s : Policy) :
  encodingParametersEqual s = false <-> proposalDiffers s.
Proof.
  unfold encodingParametersEqual, proposalDiffers, NAME_ARR_ASCENDING.
  cbn [fold_left orb].
  pose proof (compareEncodingParameter_spec
                (map_get "low" (newQualityMap s)) (map_get "low" (currentQualityMap s)))
    as Hlow.
  pose proof (compareEncodingParameter_spec
                (map_get "mid" (newQualityMap s)) (map_get "mid" (currentQualityMap s)))
    as Hmid.
  pose proof (compareEncodingParameter_spec
                (map_get "hi" (newQualityMap s)) (map_get "hi" (currentQualityMap s)))
    as Hhi.
  destruct (compareEncodingParameter (map_get "low" _) _);
    destruct (compareEncodingParameter (map_get "mid" _) _);
    destruct (compareEncodingParameter (map_get "hi" _) _);
    cbn [negb]; (split; [intro H; try discriminate H | intro H]);
    try (exists "low"; split; [simpl; tauto | intro Hs; apply Hlow in Hs; discriminate Hs]);
    try (exists "mid"; split; [simpl; tauto | intro Hs; apply Hmid in Hs; discriminate Hs]);
    try (exists "hi"; split; [simpl; tauto | intro Hs; apply Hhi in Hs; discriminate Hs]);
    try reflexivity.
  destruct H as (ridName & Hin & Hne). exfalso. apply Hne.
  simpl in Hin. destruct Hin as [<- | [<- | [<- | []]]];
    [apply Hlow | apply Hmid | apply Hhi]; reflexivity.
Qed.

Lemma flagFlipped_spec (curr : list VideoStreamDescription) (stream : VideoStreamDescription) :
  flagFlipped curr stream = true
  <-> streamId stream <> 0
      /\ exists prev pre post,
           curr = pre ++ prev :: post
           /\ Forall (fun earlier => streamId earlier <> streamId stream) pre
           /\ streamId prev = streamId stream
           /\ disabledByWebRTC stream <> disabledByWebRTC prev.
Proof.
  unfold flagFlipped. split.
  - destruct (streamId stream =? 0) eqn:Hid; cbn [negb]; [discriminate|].
    apply Z.eqb_neq in Hid.
    destruct (findIndex _ curr) as [i|] eqn:Hi; [|discriminate].
    destruct (findIndex_Some _ curr i Hi) as (pre & x & post & -> & Hpre & Hx & Hnth).
    rewrite Hnth. intro Hflag. split; [exact Hid|].
    exists x, pre, post. split; [reflexivity|]. split.
    + eapply Forall_impl; [exact Hpre|]. intros earlier He. cbv beta in He.
      apply Z.eqb_neq. exact He.
    + split; [apply Z.eqb_eq; exact Hx|].
      intro Heq. rewrite Heq in Hflag.
      destruct (disabledByWebRTC x); discriminate Hflag.
  - intros (Hid & prev & pre & post & -> & Hpre & Hsame & Hflag).
    apply Z.eqb_neq in Hid. rewrite Hid. cbn [negb].
    destruct (findIndex_first (fun val => streamId val =? streamId stream) pre post prev)
      as [-> ->].
    + eapply Forall_impl; [exact Hpre|]. intros earlier Hne. cbv beta in *.
      apply Z.eqb_neq. exact Hne.
    + apply Z.eqb_eq. exact Hsame.
    + destruct (disabledByWebRTC stream), (disabledByWebRTC prev);
        try reflexivity; exfalso; apply Hflag; reflexivity.
Qed.

Lemma someFlagFlipped_spec (s : Policy) (next : list VideoStreamDescription) :
  someFlagFlipped s next = true <-> trackedFlagFlipped (currLocalDescriptions s) next.
Proof.
  unfold someFlagFlipped, trackedFlagFlipped. rewrite existsb_exists. split.
  - intros (stream & Hin & Hflip). apply flagFlipped_spec in Hflip.
    destruct Hflip as (Hid & prev & pre & post & Hcurr & Hpre & Hsame & Hflag).
    exists stream, prev, pre, post. tauto.
  - intros (stream & prev & pre & post & Hin & Hid & Hcurr & Hpre & Hsame & Hflag).
    exists stream. split; [exact Hin|]. apply flagFlipped_spec.
    split; [exact Hid|]. exists prev, pre, post. tauto.
Qed.

(** C9, as the code has it.  Once a video index is stored, a call of
    [wantsResubscribe] returns normally, and it returns true exactly when
    the proposed parameter map differs from the committed one in some layer
    (rid, activity, scale or maximum bitrate) or a local stream with a
    non-zero id has a disabled-by-runtime flag that differs from the first
    entry with that id in the snapshot of the previous call.  A call that
    returns true sets the last-transition timestamp to the current time, a
    call that returns false leaves it, and every call snapshots the current
    local stream descriptors.  While the proposal differs from the committed
    map every further call returns true again; right after a commit the
    call returns true exactly when a tracked flag has flipped. *)
Theorem wantsResubscribe_contract (s : Policy) (index : VideoStreamIndex) (now : Z) :
  videoIndex s = Some index ->
  let next := localStreamDescriptions index in
  let s' := exec (wantsResubscribe now) s in
  exists answer : bool,
    result (wantsResubscribe now) s = Normal answer
    /\ (answer = true
        <-> proposalDiffers s \/ trackedFlagFlipped (currLocalDescriptions s) next)
    /\ lastUpdatedMs s' = (if answer then now else lastUpdatedMs s)
    /\ currLocalDescriptions s' = next
    /\ (proposalDiffers s ->
        forall later, result (wantsResubscribe later) s' = Normal true)
    /\ exists afterCommit : bool,
         result (wantsResubscribe now) (exec chooseEncodingParameters s)
         = Normal afterCommit
         /\ (afterCommit = true
             <-> trackedFlagFlipped (currLocalDescriptions s) next).
Proof.
  intros Hindex next s'. subst s'. unfold result, exec.
  rewrite (wantsResubscribe_unfold s index now Hindex). cbv zeta. cbn [fst snd].
  fold next.
  exists (negb (encodingParametersEqual s) || someFlagFlipped s next).
  split; [reflexivity|]. split.
  - rewrite orb_true_iff, negb_true_iff, encodingParametersEqual_spec,
      someFlagFlipped_spec. reflexivity.
  - split; [destruct (_ || _); reflexivity|]. split; [reflexivity|]. split.
    + intros Hdiff later. apply encodingParametersEqual_spec in Hdiff.
      set (s1 := set_currLocalDescriptions next _).
      assert (Hi1 : videoIndex s1 = Some index)
        by (subst s1; destruct (_ || _); exact Hindex).
      rewrite (wantsResubscribe_unfold s1 index later Hi1). cbv zeta. cbn [fst].
      assert (He1 : encodingParametersEqual s1 = encodingParametersEqual s)
        by (subst s1; destruct (_ || _); reflexivity).
      rewrite He1, Hdiff. reflexivity.
    + destruct (chooseEncodingParameters_frame s) as (Hc & Hn & _ & Hv & Hl & _).
      set (committed := exec chooseEncodingParameters s) in *.
      assert (Hi2 : videoIndex committed = Some index) by (rewrite Hv; exact Hindex).
      fold (exec chooseEncodingParameters s). fold committed.
      rewrite (wantsResubscribe_unfold committed index now Hi2). cbv zeta. cbn [fst].
      rewrite (encodingParametersEqual_same committed) by (rewrite Hc, Hn; reflexivity).
      cbn [negb orb]. fold next.
      exists (someFlagFlipped committed next). split; [reflexivity|].
      rewrite someFlagFlipped_spec, Hl. reflexivity.
Qed.

(** ** The single layer is an invariant of the policy *)

Lemma proposal_singleLayer (numSendersChanged : bool) (s : Policy) :
  singleLayer s -> singleLayer (proposal numSendersChanged s).
Proof.
  intros Hs Hdis. unfold proposal in *.
  destruct (redetermines numSendersChanged s); [|exact (Hs Hdis)].
  cbn [shouldDisableSimulcast set_newQualityMap set_newActiveStreams] in Hdis.
  cbn [newQualityMap set_newQualityMap].
  unfold decideLayers, fillEncodingParamWithBitrates. rewrite Hdis. reflexivity.
Qed.

Lemma proposal_forced_singleLayer (s : Policy) : singleLayer (proposal true s).
Proof.
  intro Hdis. unfold proposal in *.
  assert (Hgate : redetermines true s = true)
    by (unfold redetermines; destruct (hysteresis s); reflexivity).
  rewrite Hgate in *.
  cbn [shouldDisableSimulcast set_newQualityMap set_newActiveStreams] in Hdis.
  cbn [newQualityMap set_newQualityMap].
  unfold decideLayers, fillEncodingParamWithBitrates. rewrite Hdis. reflexivity.
Qed.

Lemma recalculated_fields (numSendersChanged : bool) (s : Policy) :
  newQualityMap (recalculated numSendersChanged s)
  = newQualityMap (proposal numSendersChanged s)
  /\ newActiveStreams (recalculated numSendersChanged s)
     = newActiveStreams (proposal numSendersChanged s)
  /\ shouldDisableSimulcast (recalculated numSendersChanged s)
     = shouldDisableSimulcast s.
Proof.
  unfold recalculated.
  pose proof (calculate_result numSendersChanged s) as Hres.
  destruct (calculate_exec numSendersChanged s) as [entries He]. unfold exec in He.
  destruct (proposal_frame numSendersChanged s) as (_ & _ & _ & _ & Hd).
  destruct (calculateEncodingParameters numSendersChanged s) as [[quality|e] s'];
    cbn [snd] in He.
  - rewrite (Hres quality s' eq_refl). subst s'.
    cbn [newQualityMap newActiveStreams shouldDisableSimulcast set_newQualityMap
         set_logger]. auto.
  - subst s'. cbn [newQualityMap newActiveStreams shouldDisableSimulcast set_logger].
    auto.
Qed.

Lemma recalculated_singleLayer (numSendersChanged : bool) (s : Policy) :
  singleLayer s -> singleLayer (recalculated numSendersChanged s).
Proof.
  intros Hs Hdis.
  destruct (recalculated_fields numSendersChanged s) as (Hq & _ & Hd).
  rewrite Hq. apply (proposal_singleLayer numSendersChanged s Hs).
  destruct (proposal_frame numSendersChanged s) as (_ & _ & _ & _ & ->).
  rewrite <- Hd. exact Hdis.
Qed.

Lemma updateIndex_exec (index : VideoStreamIndex) (s : Policy) :
  exec (updateIndex index) s
  = let numSenders' :=
      numberOfVideoPublishingParticipantsExcludingSelf index (selfAttendeeId s) + 1 in
    let newShouldDisableSimulcast :=
      (0 <=? numberOfParticipants index) && (numberOfParticipants index <=? 2) in
    recalculated
      (negb (numSenders' =? numSenders s)
       || negb (Bool.eqb (shouldDisableSimulcast s) newShouldDisableSimulcast))
      (set_videoIndex (Some index)
         (set_shouldDisableSimulcast newShouldDisableSimulcast
            (set_numSenders numSenders' s))).
Proof.
  unfold updateIndex, recalculated. run_policy.
  destruct (calculateEncodingParameters _ _) as [[quality|e] s']; reflexivity.
Qed.

Lemma step_singleLayer (s s' : Policy) : step s s' -> singleLayer s -> singleLayer s'.
Proof.
  intros Hstep Hs. destruct Hstep.
  - (* updateConnectionMetric *)
    assert (Hnum : forall sample,
      singleLayer (exec (updateConnectionMetric nowStart nowStartup nowHold
                           {| uplinkKbps := Some (Num sample) |}) s)).
    { intro sample. unfold exec. rewrite updateConnectionMetric_unfold. cbv zeta.
      assert (H1 : singleLayer (sampled nowStart nowStartup sample s)).
      { intro Hdis. destruct (sampled_frame nowStart nowStartup sample s) as (-> & _).
        apply Hs. revert Hdis. unfold sampled.
        destruct (startTimeMs s =? 0); intro Hdis; exact Hdis. }
      destruct (nowHold <? _); [exact H1|].
      apply (recalculated_singleLayer false) in H1. unfold recalculated in H1.
      destruct (calculateEncodingParameters false _) as [[quality|e] s'']; exact H1. }
    destruct metrics as [[[|sample]|]].
    + exact Hs.
    + apply Hnum.
    + apply (Hnum (0 # 1)).
  - (* updateIndex *)
    rewrite updateIndex_exec. cbv zeta.
    match goal with |- singleLayer (recalculated ?c ?x) =>
      set (changed := c); set (s1 := x) end.
    destruct (Bool.eqb (shouldDisableSimulcast s) (shouldDisableSimulcast s1)) eqn:Hsame.
    + apply recalculated_singleLayer. intro Hdis.
      apply Bool.eqb_prop in Hsame. rewrite <- Hsame in Hdis. exact (Hs Hdis).
    + assert (Hforced : changed = true).
      { subst changed. change (shouldDisableSimulcast s1)
          with ((0 <=? numberOfParticipants index) && (numberOfParticipants index <=? 2))
          in Hsame. rewrite Hsame. apply orb_true_r. }
      rewrite Hforced. intro Hdis.
      destruct (recalculated_fields true s1) as (-> & _ & Hd).
      apply proposal_forced_singleLayer.
      destruct (proposal_frame true s1) as (_ & _ & _ & _ & ->).
      rewrite <- Hd. exact Hdis.
  - (* chooseEncodingParameters *)
    intro Hdis. destruct (chooseEncodingParameters_frame s) as (_ & -> & _).
    apply Hs. revert Hdis.
    unfold chooseEncodingParameters, publishEncodingSimulcastLayer. run_policy.
    destruct (negb _); intro Hdis; exact Hdis.
  - (* wantsResubscribe *)
    destruct (videoIndex s) as [index|] eqn:Hindex.
    + unfold exec. rewrite (wantsResubscribe_unfold s index now Hindex). cbv zeta.
      cbn [snd]. destruct (_ || _); exact Hs.
    + unfold wantsResubscribe. run_policy. rewrite Hindex. exact Hs.
  - exact Hs.
  - exact Hs.
  - unfold runNextTick. run_policy. destruct (scheduled s) as [|[o l] rest]; exact Hs.
Qed.

(** X17. Whenever simulcast is disabled, the proposed parameter map of a policy
    has mid alone active, at 1,200,000 bps. *)
Theorem disabled_simulcast_invariant (s : Policy) : reachable s -> singleLayer s.
Proof.
  induction 1 as [selfAttendeeId now | s s' _ IH Hstep].
  - intro Hdis. discriminate Hdis.
  - exact (step_singleLayer s s' Hstep IH).
Qed.

(** ** Instances on concrete policies *)

Lemma layer_decision_table_witness :
  newActiveStreams (exec (calculateEncodingParameters true) inCallOfFive) = kMidAndLow
  /\ layers (newQualityMap (exec (calculateEncodingParameters true) inCallOfFive))
     = [("low", true, 200000); ("mid", true, 600000); ("hi", false, 0)].
Proof.
  refine (proj1 (proj2 (layer_decision_table true inCallOfFive _ _)) _ _).
  - reflexivity.
  - reflexivity.
  - intros [_ H]. apply H. reflexivity.
  - intro H. discriminate H.
Defined.

Lemma disabled_simulcast_single_layer_witness :
  layers (newQualityMap (exec (calculateEncodingParameters true) inCallOfTwo))
  = [("low", false, 0); ("mid", true, 1200000); ("hi", false, 0)].
Proof.
  refine (proj2 (disabled_simulcast_single_layer true inCallOfTwo _ _));
    reflexivity.
Defined.

Lemma hold_down_suppresses_recomputation_witness :
  newQualityMap
    (exec (updateConnectionMetric 2500 2500 2500
             {| uplinkKbps := Some (Num (100 # 1)) |}) started)
  = newQualityMap started.
Proof.
  refine (proj1 (proj2
    (hold_down_suppresses_recomputation started 2500 2500 2500 (100 # 1) _))).
  vm_compute. reflexivity.
Defined.

(** A 50 kbps sample 1000 ms after the start is stored as 1200 kbps. *)
Lemma startup_grace_substitutes_default_witness :
  lastUplinkBandwidthKbps
    (exec (updateConnectionMetric 2500 2500 2500
             {| uplinkKbps := Some (Num (50 # 1)) |}) started)
  = 1200 # 1.
Proof.
  apply (startup_grace_substitutes_default started 2500 2500 2500 (50 # 1)).
  vm_compute. reflexivity.
Defined.

Lemma wantsResubscribe_contract_witness :
  exists answer : bool,
    result (wantsResubscribe 2000) inCallOfTwo = Normal answer
    /\ (answer = true
        <-> proposalDiffers inCallOfTwo
            \/ trackedFlagFlipped (currLocalDescriptions inCallOfTwo)
                 (localStreamDescriptions twoParticipants)).
Proof.
  destruct (wantsResubscribe_contract inCallOfTwo twoParticipants 2000 eq_refl)
    as (answer & Hr & Hiff & _).
  exists answer. split; [exact Hr | exact Hiff].
Defined.

(** C9, as stated, fails: one uncommitted parameter change makes two calls
    in a row return true, with no further change and no flag flip between
    them. *)
Lemma wantsResubscribe_true_twice :
  newQualityMap (exec (wantsResubscribe 2000) inCallOfTwo) = newQualityMap inCallOfTwo
  /\ currentQualityMap (exec (wantsResubscribe 2000) inCallOfTwo)
     = currentQualityMap inCallOfTwo
  /\ result (wantsResubscribe 2000) inCallOfTwo = Normal true
  /\ result (wantsResubscribe 3000) (exec (wantsResubscribe 2000) inCallOfTwo)
     = Normal true.
Proof. repeat split. Qed.

End PolicyProperties.

(** * Properties of the subscribe/acknowledge task *)

Module TaskProperties.
Import SubscribeAndReceiveSubscribeAckTask TaskNotions.

(** ** Helper lemmas *)

Ltac run_task :=
  cbv beta iota delta
    [exec result bind get gets modify when ret throw info warn registerObserver
     removeObserver subscribe settle resolve reject Interceptor_cancel indexCall
     fst snd].

Lemma fixUpLoop_result (values : list Z) (directions : list string) :
  forall (k : nat) (acc : list Z) (w : World),
    result (fixUpLoop directions values k acc) w
    = Normal (acc ++ repairFrom directions values k).
Proof.
  induction directions as [|direction rest IH]; intros k acc w.
  - simpl. rewrite app_nil_r. reflexivity.
  - simpl. unfold isRecvonly.
    destruct (String.eqb direction "recvonly").
    + destruct (length values <=? k)%nat.
      * unfold result, bind, warn, modify. cbv beta iota.
        fold (result (fixUpLoop rest values k (acc ++ [0]))
                (set_logger (fun l => l ++ [(Warn, MsgMoreReceiveSections k (length values))]) w)).
        rewrite IH, <- app_assoc. reflexivity.
      * rewrite IH, <- app_assoc. reflexivity.
    + rewrite IH, <- app_assoc. reflexivity.
Qed.

Lemma repairFrom_length (values : list Z) (directions : list string) :
  forall k, length (repairFrom directions values k) = length directions.
Proof.
  induction directions as [|direction rest IH]; intro k; simpl; [reflexivity|].
  destruct (isRecvonly direction); [destruct (length values <=? k)%nat|];
    simpl; rewrite IH; reflexivity.
Qed.

Lemma repairFrom_lookup (values : list Z) (directions : list string) :
  forall (k i : nat) (direction : string),
    directions !! i = Some direction ->
    repairFrom directions values k !! i
    = Some (if isRecvonly direction
            then nth (k + recvonlyBefore directions i) values 0
            else 0).
Proof.
  unfold recvonlyBefore.
  induction directions as [|d rest IH]; intros k i direction Hi.
  - destruct i; discriminate Hi.
  - destruct i as [|i].
    + simpl in Hi. injection Hi as ->. simpl.
      rewrite Nat.add_0_r.
      destruct (isRecvonly direction); [|reflexivity].
      destruct (length values <=? k)%nat eqn:Hk; [|reflexivity].
      apply Nat.leb_le in Hk. simpl. rewrite nth_overflow by lia. reflexivity.
    + simpl in Hi. simpl.
      destruct (isRecvonly d) eqn:Hd.
      * destruct (length values <=? k)%nat eqn:Hk; simpl.
        -- apply Nat.leb_le in Hk. rewrite (IH k i direction Hi).
           destruct (isRecvonly direction); [|reflexivity].
           rewrite !nth_overflow by lia. reflexivity.
        -- rewrite (IH (S k) i direction Hi).
           replace (k + S (length (List.filter isRecvonly (take i rest))))%nat
             with (S k + length (List.filter isRecvonly (take i rest)))%nat by lia.
           reflexivity.
      * simpl. apply (IH k i direction Hi).
Qed.

(** ** Subscription-order repair *)

(** C1. For a local SDP whose video sections have the directions
    [directions], and any input array, [fixUpSubscriptionOrder] returns one
    array, the same whatever the rest of the state: it has one entry per
    video section; a section that is not "recvonly" holds 0; the k-th
    "recvonly" section (counting from 0) holds the k-th non-zero value of
    the input, and holds 0 when the input has no such value. *)
Theorem fixUpSubscriptionOrder_repairs
    (env : Collaborators) (sdp : string) (videoSubscriptions : list Z) :
  let directions := videoSectionDirections env sdp in
  exists repaired : list Z,
    (forall w, result (fixUpSubscriptionOrder env sdp videoSubscriptions) w
               = Normal repaired)
    /\ length repaired = length directions
    /\ forall (i : nat) (direction : string),
         directions !! i = Some direction ->
         repaired !! i
         = Some (if isRecvonly direction
                 then nth (recvonlyBefore directions i) (nonZero videoSubscriptions) 0
                 else 0).
Proof.
  intro directions.
  exists (repairFrom directions (nonZero videoSubscriptions) 0).
  split; [|split].
  - intro w. unfold fixUpSubscriptionOrder.
    pose proof (fixUpLoop_result (nonZero videoSubscriptions) directions 0 [] w) as H.
    unfold result in *. fold directions. unfold nonZero in *.
    unfold bind at 1.
    destruct (fixUpLoop directions _ 0%nat [] w) as [[out|e] w'];
      simpl in H; [|discriminate H].
    injection H as ->. reflexivity.
  - apply repairFrom_length.
  - intros i direction Hi.
    apply (repairFrom_lookup (nonZero videoSubscriptions) directions 0 i direction Hi).
Qed.

(** ** The wait for the acknowledgement *)

Lemma handle_terminated (env : Collaborators) (this : nat)
    (event : SignalingClientEvent) (w : World) :
  isConnectionTerminated event = true ->
  let message := MsgConnectionTerminated (closeCode event) (closeReason event) in
  Interceptor_handleSignalingClientEvent env this event w
  = (Normal tt,
     handleMeetingSessionStatus env
       {| statusCode := terminationStatusCode (closeCode event) |}
       (Error message) (exec (warn message) w)).
Proof.
  intros Hterm message. unfold Interceptor_handleSignalingClientEvent.
  rewrite Hterm. reflexivity.
Qed.

Lemma cancel_null (w : World) : taskCanceler w = None -> cancel w = (Normal tt, w).
Proof. intro H. unfold cancel. run_task. rewrite H. reflexivity. Qed.

Lemma cancel_normal (w : World) : result cancel w = Normal tt.
Proof.
  unfold cancel. run_task. destruct (taskCanceler w); reflexivity.
Qed.

Lemma cancel_clears (w : World) : taskCanceler (exec cancel w) = None.
Proof.
  unfold cancel. run_task. destruct (taskCanceler w) as [c|] eqn:Hc; [|exact Hc].
  cbn [promises set_observers set_signalingCalls]. 
  destruct (promises w !! c) as [[| |]|]; reflexivity.
Qed.

Lemma cancel_removals (w : World) : (removals (exec cancel w) <= S (removals w))%nat.
Proof.
  unfold cancel, removals. run_task. destruct (taskCanceler w) as [c|]; [|lia].
  cbn [promises set_observers set_signalingCalls].
  assert (H : forall w0 : World,
             signalingCalls w0 = signalingCalls w ++ [CallRemoveObserver c] ->
             (length (List.filter
                (fun c => match c with CallRemoveObserver _ => true | _ => false end)
                (signalingCalls w0)) <= S (removals w))%nat).
  { intros w0 Hw0. rewrite Hw0. unfold removals.
    rewrite List.filter_app, length_app. simpl. lia. }
  destruct (promises w !! c) as [[| |]|]; apply H; reflexivity.
Qed.

Lemma runAfterAwait_result (awaited : nat) (w1 w2 : World) :
  promises w1 = promises w2 ->
  result (runAfterAwait awaited) w1 = result (runAfterAwait awaited) w2.
Proof.
  intro H. unfold runAfterAwait. run_task. rewrite H.
  destruct (promises w2 !! awaited) as [[|[frame|]|e]|]; reflexivity.
Qed.


(** C6. For a connection-terminated event with close code c, the status
    handed to the status handler is SignalingInternalServerError if
    4500 <= c < 4600 and TaskFailed for every other c. *)
Theorem termination_status_classification
    (env : Collaborators) (this : nat) (event : SignalingClientEvent) (w : World) :
  isConnectionTerminated event = true ->
  let c := closeCode event in
  let message := MsgConnectionTerminated c (closeReason event) in
  let after := exec (Interceptor_handleSignalingClientEvent env this event) w in
  (4500 <= c < 4600 ->
   after = handleMeetingSessionStatus env
             {| statusCode := SignalingInternalServerError |}
             (Error message) (exec (warn message) w))
  /\ (~ (4500 <= c < 4600) ->
      after = handleMeetingSessionStatus env
                {| statusCode := TaskFailed |}
                (Error message) (exec (warn message) w)).
Proof.
  intros Hterm c message after. subst after. unfold exec at 1 3.
  rewrite (handle_terminated env this event w Hterm). cbn [snd].
  fold c. fold message. unfold terminationStatusCode.
  destruct (4500 <=? c) eqn:Hlo; destruct (c <? 4600) eqn:Hhi; cbn [andb];
    try apply Z.leb_le in Hlo; try apply Z.leb_gt in Hlo;
    try apply Z.ltb_lt in Hhi; try apply Z.ltb_ge in Hhi;
    split; intro H; try reflexivity; exfalso; lia.
Qed.

Lemma ack_settles (env : Collaborators) (this : nat) (event : SignalingClientEvent)
    (frame : SdkSignalFrame) (w : World) :
  promises w !! this = Some Pending ->
  isConnectionTerminated event = false ->
  type event = ReceivedSignalFrame ->
  message event = Some frame ->
  frameType frame = SUBSCRIBE_ACK ->
  Interceptor_handleSignalingClientEvent env this event w
  = (Normal tt,
     set_promises (<[this := Resolved (suback frame)]>)
       (set_observers (fun o => o ∖ {[this]})
          (set_signalingCalls (fun l => l ++ [CallRemoveObserver this]) w))).
Proof.
  intros Hpending Hterm Htype Hmessage Hframe.
  unfold Interceptor_handleSignalingClientEvent.
  rewrite Hterm, Htype, Hmessage, Hframe. run_task.
  cbn [promises set_observers set_signalingCalls]. rewrite Hpending.
  reflexivity.
Qed.

(** The [cancel] of the subclass, run after the acknowledgement has
    resolved the wait: it still forwards to the interceptor, so the
    signaling client receives a second [removeObserver] for an observer it
    no longer has, the settled promise ignores the [reject], and
    [taskCanceler] is cleared.  Nothing else changes. *)
Lemma cancel_after_settlement_state
    (env : Collaborators) (w : World) (this : nat)
    (event : SignalingClientEvent) (frame : SdkSignalFrame) :
  taskCanceler w = Some this ->
  promises w !! this = Some Pending ->
  isConnectionTerminated event = false ->
  type event = ReceivedSignalFrame ->
  message event = Some frame ->
  frameType frame = SUBSCRIBE_ACK ->
  let settled := exec (Interceptor_handleSignalingClientEvent env this event) w in
  exec cancel settled
  = set_taskCanceler None
      (set_signalingCalls (fun l => l ++ [CallRemoveObserver this]) settled).
Proof.
  intros Hcanceler Hpending Hterm Htype Hmessage Hframe settled.
  assert (Hsettled :
    settled
    = set_promises (<[this := Resolved (suback frame)]>)
        (set_observers (fun o => o ∖ {[this]})
           (set_signalingCalls (fun l => l ++ [CallRemoveObserver this]) w))).
  { subst settled. unfold Interceptor_handleSignalingClientEvent.
    rewrite Hterm, Htype, Hmessage, Hframe. run_task.
    cbn [promises set_observers set_signalingCalls]. rewrite Hpending.
    reflexivity. }
  clearbody settled. subst settled.
  unfold cancel. run_task.
  cbn [taskCanceler set_promises set_observers set_signalingCalls]. rewrite Hcanceler.
  cbn [promises set_promises set_observers set_signalingCalls].
  rewrite lookup_insert_eq.
  unfold set_taskCanceler, set_observers, set_signalingCalls, set_promises.
  cbn [logger previousSdpOffer contextSdpAnswer observers signalingCalls indexCalls
       promises taskCanceler].
  f_equal. apply set_eq. intro x. rewrite !elem_of_difference. tauto.
Qed.

Lemma dispatch_keeps_pending (env : Collaborators) (this : nat)
    (event : SignalingClientEvent) (w : World) :
  leavesExchange env ->
  isSubscribeAck event = false ->
  observers (exec (dispatch env this event) w) = observers w
  /\ promises (exec (dispatch env this event) w) = promises w.
Proof.
  intros Hkeep Hack. unfold dispatch. run_task.
  destruct (decide (this ∈ observers w)); [|split; reflexivity].
  unfold isSubscribeAck in Hack.
  destruct (isConnectionTerminated event) eqn:Hterm.
  - fold (exec (Interceptor_handleSignalingClientEvent env this event) w).
    unfold exec. rewrite (handle_terminated env this event w Hterm). cbn [snd].
    match goal with
    | |- context [handleMeetingSessionStatus env ?status ?e ?w0] =>
        destruct (Hkeep status e w0) as [-> ->]
    end.
    split; reflexivity.
  - unfold Interceptor_handleSignalingClientEvent. rewrite Hterm.
    cbn [negb andb] in Hack.
    destruct (type event); [|split; reflexivity].
    destruct (message event) as [frame|]; [|split; reflexivity].
    destruct (frameType frame); [discriminate Hack|split; reflexivity].
Qed.

Lemma deliver_keeps_pending (env : Collaborators) (this : nat)
    (events : list SignalingClientEvent) :
  leavesExchange env ->
  Forall (fun event => isSubscribeAck event = false) events ->
  forall w,
    observers (deliver env this events w) = observers w
    /\ promises (deliver env this events w) = promises w.
Proof.
  intros Hkeep Hall. induction Hall as [|event events Hack _ IH]; intro w.
  - split; reflexivity.
  - simpl. destruct (IH (exec (dispatch env this event) w)) as [Ho Hp].
    destruct (dispatch_keeps_pending env this event w Hkeep Hack) as [Ho' Hp'].
    rewrite Ho, Hp. split; assumption.
Qed.

Import BaseTask.

(** ** The wrapped methods *)

Lemma baseCancel_unfold (originalCancel : M World unit) (t : Task) :
  baseCancel originalCancel t
  = match status t with
    | CANCELED | FINISHED => (Normal tt, t)
    | IDLE | RUNNING =>
        (result originalCancel (world t),
         {| status := CANCELED; world := exec originalCancel (world t) |})
    end.
Proof.
  unfold baseCancel, bind, get, modify, ret, lift, set_status, result, exec.
  destruct t as [[] w]; cbn [status world]; try reflexivity;
    destruct (originalCancel w); reflexivity.
Qed.

Lemma baseCancel_stopped (originalCancel : M World unit) (t : Task) :
  stopped t -> baseCancel originalCancel t = (Normal tt, t).
Proof.
  intros [H | H]; rewrite baseCancel_unfold, H; reflexivity.
Qed.

Lemma baseRun_stopped (originalRun : M World nat) (t : Task) :
  stopped t ->
  baseRun originalRun t
  = (Throw (Error match status t with
                  | CANCELED => MsgCanceledBeforeRunning
                  | _ => MsgAlreadyFinished
                  end), t).
Proof.
  unfold baseRun, finish, set_status.
  destruct t as [st w]. cbn [status world].
  intros [H | H]; cbn [status] in H; subst st; reflexivity.
Qed.

Lemma baseRunAfterAwait_unfold (originalRunAfterAwait : M World RunProgress) (t : Task) :
  result (baseRunAfterAwait originalRunAfterAwait) t
  = result originalRunAfterAwait (world t)
  /\ world (exec (baseRunAfterAwait originalRunAfterAwait) t)
     = exec originalRunAfterAwait (world t)
  /\ status (exec (baseRunAfterAwait originalRunAfterAwait) t)
     = match result originalRunAfterAwait (world t) with
       | Normal Awaiting => status t
       | _ => match status t with CANCELED => CANCELED | _ => FINISHED end
       end.
Proof.
  unfold baseRunAfterAwait, lift, finish, set_status, result, exec.
  destruct t as [st w]. cbn [status world].
  destruct (originalRunAfterAwait w) as [[[]|e] w']; cbn [fst snd status world];
    destruct st; repeat split.
Qed.

Lemma stopped_persists (env : Collaborators) (context : Session) (t : Task) :
  stopped t ->
  stopped (exec (boundRun env context) t)
  /\ (forall awaited, stopped (exec (boundRunAfterAwait awaited) t))
  /\ (forall observer event, stopped (exec (lift (dispatch env observer event)) t)).
Proof.
  intro Hstopped. split; [|split].
  - unfold exec, boundRun. rewrite (baseRun_stopped _ _ Hstopped). exact Hstopped.
  - intro awaited. unfold boundRunAfterAwait, stopped.
    destruct (baseRunAfterAwait_unfold (runAfterAwait awaited) t) as (_ & _ & ->).
    destruct Hstopped as [H | H]; rewrite H;
      destruct (result (runAfterAwait awaited) (world t)) as [[]|e]; tauto.
  - intros observer event. unfold exec, lift, stopped.
    destruct (dispatch env observer event (world t)). exact Hstopped.
Qed.

(** C7.  [cancel], as callers reach it, never throws and leaves the task
    canceled or finished.  On a task that is canceled or finished every
    [cancel] returns at once and changes nothing, and the task stays so
    under [run], under the resumption of [run] and under every event; so a
    second [cancel], whenever it comes, does nothing, and two calls make at
    most one [removeObserver] call.  Once the acknowledgement has been
    received and [run] has settled on it, the task is finished and [cancel]
    changes nothing at all.  A [cancel] that falls between the
    acknowledgement and the resumption of [run] leaves the promise, the
    observer registry, the outcome of [run] and what [run] commits as they
    are. *)
Theorem cancel_twice_and_after_settlement_wrapped
    (env : Collaborators) (context : Session) (t : Task) (this : nat)
    (event : SignalingClientEvent) (frame : SdkSignalFrame) :
  (result boundCancel t = Normal tt
   /\ stopped (exec boundCancel t)
   /\ (forall later : Task,
         stopped later ->
         boundCancel later = (Normal tt, later)
         /\ stopped (exec (boundRun env context) later)
         /\ (forall awaited, stopped (exec (boundRunAfterAwait awaited) later))
         /\ (forall observer e, stopped (exec (lift (dispatch env observer e)) later)))
   /\ boundCancel (exec boundCancel t) = (Normal tt, exec boundCancel t)
   /\ (removals (world (exec boundCancel (exec boundCancel t)))
       <= S (removals (world t)))%nat)
  /\ (status t = RUNNING ->
      taskCanceler (world t) = Some this ->
      promises (world t) !! this = Some Pending ->
      isConnectionTerminated event = false ->
      type event = ReceivedSignalFrame ->
      message event = Some frame ->
      frameType frame = SUBSCRIBE_ACK ->
      let acked := exec (lift (Interceptor_handleSignalingClientEvent env this event)) t in
      let finished := exec (boundRunAfterAwait this) acked in
      let late := exec boundCancel acked in
      (result (boundRunAfterAwait this) acked
       = match suback frame with
         | Some _ => Normal Returned
         | None => Throw TypeError
         end
       /\ status finished = FINISHED
       /\ boundCancel finished = (Normal tt, finished))
      /\ (result boundCancel acked = Normal tt
          /\ promises (world late) = promises (world acked)
          /\ observers (world late) = observers (world acked)
          /\ result (boundRunAfterAwait this) late
             = result (boundRunAfterAwait this) acked
          /\ contextSdpAnswer (world (exec (boundRunAfterAwait this) late))
             = contextSdpAnswer (world finished)
          /\ indexCalls (world (exec (boundRunAfterAwait this) late))
             = indexCalls (world finished))).
Proof.
  assert (Hstop : stopped (exec boundCancel t)).
  { unfold exec, boundCancel. rewrite baseCancel_unfold.
    destruct (status t) eqn:Hs; cbn [snd]; unfold stopped;
      try rewrite Hs; cbn [status]; tauto. }
  assert (Hagain : boundCancel (exec boundCancel t) = (Normal tt, exec boundCancel t))
    by (apply baseCancel_stopped; exact Hstop).
  split.
  - split.
    { unfold result, boundCancel. rewrite baseCancel_unfold.
      destruct (status t); cbn [fst]; try reflexivity; apply cancel_normal. }
    split; [exact Hstop|]. split.
    { intros later Hlater. split; [apply baseCancel_stopped; exact Hlater|].
      apply stopped_persists. exact Hlater. }
    split; [exact Hagain|].
    unfold exec at 1. rewrite Hagain. cbn [snd].
    unfold exec, boundCancel. rewrite baseCancel_unfold.
    destruct (status t); cbn [snd world]; try lia; apply cancel_removals.
  - intros Hstatus Hcanceler Hpending Hterm Htype Hmessage Hframe acked finished late.
    pose proof (ack_settles env this event frame (world t)
                  Hpending Hterm Htype Hmessage Hframe) as Hack.
    set (settledWorld :=
           set_promises (<[this := Resolved (suback frame)]>)
             (set_observers (fun o => o ∖ {[this]})
                (set_signalingCalls (fun l => l ++ [CallRemoveObserver this]) (world t))))
      in *.
    assert (Hacked : acked = {| status := RUNNING; world := settledWorld |}).
    { subst acked. unfold exec, lift. rewrite Hack, Hstatus. reflexivity. }
    assert (Hresolved : promises settledWorld !! this = Some (Resolved (suback frame))).
    { subst settledWorld. cbn [promises set_promises]. apply lookup_insert_eq. }
    assert (Hresume : forall w0,
              promises w0 !! this = Some (Resolved (suback frame)) ->
              runAfterAwait this w0
              = match suback frame with
                | Some ack =>
                    (Normal Returned,
                     exec (indexCall (CallIntegrateSubscribeAckFrame ack))
                       (set_contextSdpAnswer (Some (sdpAnswer ack))
                          (exec (info MsgGotSubscribeAck) w0)))
                | None => (Throw TypeError, exec (info MsgGotSubscribeAck) w0)
                end).
    { intros w0 H0. unfold runAfterAwait. run_task. rewrite H0.
      destruct (suback frame); reflexivity. }
    destruct (baseRunAfterAwait_unfold (runAfterAwait this) acked) as (Hr & Hw & Hs).
    fold (boundRunAfterAwait this) in Hr, Hw, Hs. fold finished in Hw, Hs.
    assert (Hfinished : status finished = FINISHED).
    { rewrite Hs, Hacked. cbn [status world]. unfold result.
      rewrite (Hresume settledWorld Hresolved).
      destruct (suback frame); reflexivity. }
    split.
    + split.
      { rewrite Hr, Hacked. cbn [world]. unfold result.
        rewrite (Hresume settledWorld Hresolved).
        destruct (suback frame); reflexivity. }
      split; [exact Hfinished|].
      apply baseCancel_stopped. right. exact Hfinished.
    + assert (Hlate : late
                      = {| status := CANCELED; world := exec cancel settledWorld |}).
      { subst late. unfold exec at 1, boundCancel. rewrite baseCancel_unfold, Hacked.
        reflexivity. }
      assert (Hstill : taskCanceler settledWorld = Some this) by exact Hcanceler.
      assert (Hcancel : exec cancel settledWorld
                        = set_taskCanceler None
                            (set_signalingCalls (fun l => l ++ [CallRemoveObserver this])
                               settledWorld)).
      { unfold cancel. run_task. rewrite Hstill.
        cbn [promises set_observers set_signalingCalls]. rewrite Hresolved.
        unfold set_taskCanceler, set_observers, set_signalingCalls.
        cbn [logger previousSdpOffer contextSdpAnswer observers signalingCalls
             indexCalls promises taskCanceler].
        f_equal. subst settledWorld. cbn [observers set_promises set_observers].
        apply set_eq. intro x. rewrite !elem_of_difference. tauto. }
      assert (Hlp : promises (world late) = promises settledWorld)
        by (rewrite Hlate; cbn [world]; rewrite Hcancel; reflexivity).
      destruct (baseRunAfterAwait_unfold (runAfterAwait this) late) as (Hr' & Hw' & _).
      fold (boundRunAfterAwait this) in Hr', Hw'.
      split.
      { unfold result, boundCancel. rewrite baseCancel_unfold, Hacked. cbn [status fst].
        apply cancel_normal. }
      split; [rewrite Hlp, Hacked; reflexivity|].
      split; [rewrite Hlate, Hacked; cbn [world]; rewrite Hcancel; reflexivity|].
      split.
      { rewrite Hr', Hr. apply runAfterAwait_result. rewrite Hlp, Hacked. reflexivity. }
      assert (Hfw : exec (runAfterAwait this) settledWorld
                    = snd (runAfterAwait this settledWorld)) by reflexivity.
      assert (Hlw : exec (runAfterAwait this) (world late)
                    = snd (runAfterAwait this (world late))) by reflexivity.
      rewrite (Hresume settledWorld Hresolved) in Hfw.
      rewrite (Hresume (world late)) in Hlw by (rewrite Hlp; exact Hresolved).
      rewrite Hw', Hw, Hacked. cbn [world]. rewrite Hfw, Hlw.
      rewrite Hlate. cbn [world]. rewrite Hcancel.
      destruct (suback frame); split; reflexivity.
Qed.


(** ** Instances on a concrete session *)


Example run_sends_repaired_subscriptions :
  result (run quietEnv session) idle = Normal 0%nat
  /\ List.map
       (fun c => match c with
                 | CallSubscribe settings => sub_receiveStreamIds settings
                 | _ => []
                 end)
       (signalingCalls awaiting)
     = [[0; 5; 0; 7; 0]; []].
Proof. split; reflexivity. Qed.

Lemma fixUpSubscriptionOrder_repairs_witness :
  exists repaired : list Z,
    result (fixUpSubscriptionOrder quietEnv "v=0" [0; 5; 0; 7]) idle = Normal repaired
    /\ length repaired = 5%nat
    /\ repaired !! 3%nat = Some 7.
Proof.
  destruct (fixUpSubscriptionOrder_repairs quietEnv "v=0" [0; 5; 0; 7])
    as (repaired & Hresult & Hlength & Hentry).
  exists repaired. split; [apply Hresult|]. split; [exact Hlength|].
  exact (Hentry 3%nat "recvonly" eq_refl).
Defined.



Lemma termination_status_classification_witness :
  exec (Interceptor_handleSignalingClientEvent quietEnv 0 (closed 4500)) awaiting
  = handleMeetingSessionStatus quietEnv
      {| statusCode := SignalingInternalServerError |}
      (Error (MsgConnectionTerminated 4500 "closed"))
      (exec (warn (MsgConnectionTerminated 4500 "closed")) awaiting).
Proof.
  refine (proj1 (termination_status_classification quietEnv 0 (closed 4500) awaiting _) _).
  - reflexivity.
  - simpl. lia.
Defined.

Lemma cancel_twice_and_after_settlement_wrapped_witness :
  let acked :=
    exec (lift (Interceptor_handleSignalingClientEvent quietEnv 0 acknowledged))
      runningTask in
  let finished := exec (boundRunAfterAwait 0) acked in
  result (boundRunAfterAwait 0) acked = Normal Returned
  /\ status finished = FINISHED
  /\ boundCancel finished = (Normal tt, finished).
Proof.
  exact (proj1 (proj2 (cancel_twice_and_after_settlement_wrapped
                         quietEnv session runningTask 0 acknowledged ackFrame)
                  eq_refl eq_refl eq_refl eq_refl eq_refl eq_refl eq_refl)).
Defined.



End TaskProperties.

(** * Further properties of the uplink policy *)

Module PolicyExtras.
Import DefaultSimulcastUplinkPolicy PolicyNotions PolicyProperties.

(** ** Hysteresis *)

Lemma Qle_bool_false (a b : Q) : Qle_bool a b = false <-> ~ (a <= b)%Q.
Proof.
  rewrite <- Qle_bool_iff. destruct (Qle_bool a b); split; intro H; try reflexivity.
  - discriminate.
  - exfalso. apply H. reflexivity.
  - intro H'. discriminate.
Qed.

Lemma insideBand_gate (s : Policy) : insideBand s -> redetermines false s = false.
Proof.
  unfold insideBand, redetermines, hysteresis, Qge_bool,
    kHiDisabledRate, kMidDisabledRate.
  destruct (currentActiveStreams s); intro H; cbn [orb];
    try (apply orb_false_iff; split; apply Qle_bool_false; lra).
  unfold plusOne.
  assert (Hsmall : Qle_bool (9007199254740992 # 1) (lastUplinkBandwidthKbps s) = false)
    by (apply Qle_bool_false; lra).
  rewrite Hsmall. apply orb_false_iff; split; apply Qle_bool_false; lra.
Qed.

(** From 2^54 up the band of Hi is left again: the sum rounds back to the
    uplink itself and the gate is open. *)
Lemma hi_gate_reopens (s : Policy) :
  currentActiveStreams s = kHi ->
  (18014398509481984 # 1 <= lastUplinkBandwidthKbps s)%Q ->
  redetermines false s = true.
Proof.
  intros Hhi Hbig. unfold redetermines, hysteresis, Qge_bool, plusOne. rewrite Hhi.
  assert (H53 : Qle_bool (9007199254740992 # 1) (lastUplinkBandwidthKbps s) = true)
    by (apply Qle_bool_iff; lra).
  assert (H54 : Qle_bool (18014398509481984 # 1) (lastUplinkBandwidthKbps s) = true)
    by (apply Qle_bool_iff; exact Hbig).
  rewrite H53, H54. cbn [orb].
  assert (Hrefl : Qle_bool (lastUplinkBandwidthKbps s) (lastUplinkBandwidthKbps s) = true)
    by (apply Qle_bool_iff; lra).
  rewrite Hrefl. reflexivity.
Qed.

(** X1. Inside the hysteresis band of the current layer set (for Hi: above 0
    and below 2^53), a recomputation that is not forced changes nothing and
    returns the standing proposal. *)
Theorem inside_band_keeps_proposal (s : Policy) :
  insideBand s ->
  calculateEncodingParameters false s = (Normal (newQualityMap s), s).
Proof.
  intro H. unfold calculateEncodingParameters. run_policy.
  rewrite (insideBand_gate s H). reflexivity.
Qed.

Lemma inside_band_keeps_proposal_witness :
  calculateEncodingParameters false (constructor "attendee" 1000)
  = (Normal (newQualityMap (constructor "attendee" 1000)), constructor "attendee" 1000).
Proof.
  apply (inside_band_keeps_proposal (constructor "attendee" 1000)).
  split; reflexivity.
Defined.

(** ** The layer decision as a function of bandwidth and senders *)

Lemma forced_decision (s : Policy) :
  newActiveStreams (exec (calculateEncodingParameters true) s) = fst (decideLayers s)
  /\ newQualityMap (exec (calculateEncodingParameters true) s)
     = fillEncodingParamWithBitrates (snd (decideLayers s)) s.
Proof.
  destruct (calculate_exec true s) as [entries ->]. unfold proposal.
  assert (Hgate : redetermines true s = true)
    by (unfold redetermines; destruct (hysteresis s); reflexivity).
  rewrite Hgate. split; reflexivity.
Qed.

(** X2. With simulcast in use, a forced decision is monotone: more uplink
    bandwidth and no more senders never give a lower layer set. *)
Theorem more_bandwidth_never_lowers_tier (s1 s2 : Policy) :
  shouldDisableSimulcast s1 = false ->
  shouldDisableSimulcast s2 = false ->
  numSenders s2 <= numSenders s1 ->
  (lastUplinkBandwidthKbps s1 <= lastUplinkBandwidthKbps s2)%Q ->
  tierRank (newActiveStreams (exec (calculateEncodingParameters true) s1))
  <= tierRank (newActiveStreams (exec (calculateEncodingParameters true) s2)).
Proof.
  intros Hd1 Hd2 Hn Hq.
  destruct (forced_decision s1) as [-> _]. destruct (forced_decision s2) as [-> _].
  unfold decideLayers, kHiDisabledRate, kMidDisabledRate. rewrite Hd1, Hd2.
  destruct (numSenders s1 <=? 4) eqn:Hn1;
    destruct (numSenders s2 <=? 4) eqn:Hn2;
    destruct (Qge_bool (lastUplinkBandwidthKbps s1) (700 # 1)) eqn:Hh1;
    destruct (Qge_bool (lastUplinkBandwidthKbps s2) (700 # 1)) eqn:Hh2;
    destruct (Qge_bool (lastUplinkBandwidthKbps s1) (240 # 1)) eqn:Hm1;
    destruct (Qge_bool (lastUplinkBandwidthKbps s2) (240 # 1)) eqn:Hm2;
    cbn [andb fst tierRank]; try lia;
    reflect_hyps; exfalso; try lia; lra.
Qed.

Lemma more_bandwidth_never_lowers_tier_witness :
  tierRank (newActiveStreams (exec (calculateEncodingParameters true) inCallOfFive))
  <= tierRank (newActiveStreams
                 (exec (calculateEncodingParameters true)
                    (set_lastUplinkBandwidthKbps (900 # 1) inCallOfFive))).
Proof.
  apply (more_bandwidth_never_lowers_tier inCallOfFive
           (set_lastUplinkBandwidthKbps (900 # 1) inCallOfFive)).
  - reflexivity.
  - reflexivity.
  - vm_compute. discriminate.
  - vm_compute. discriminate.
Defined.

(** ** fillEncodingParamWithBitrates *)

(** X3. For any three bitrates the map has the entries low, mid, hi in this
    order, each carrying its own rid; maxBitrate is the bitrate times 1000;
    a layer is active exactly when its bitrate is positive; and no
    scaleResolutionDownBy is below 1: the ladder is 4, 2, 1 with simulcast
    in use and 1, 1, 1 with simulcast disabled. *)
Theorem fillEncodingParamWithBitrates_shape (low mid hi : Z) (s : Policy) :
  let m := fillEncodingParamWithBitrates [low; mid; hi] s in
  List.map fst m = ["low"; "mid"; "hi"]
  /\ List.map (fun kv => rid (snd kv)) m = ["low"; "mid"; "hi"]
  /\ List.map (fun kv => maxBitrate (snd kv)) m = [low * 1000; mid * 1000; hi * 1000]
  /\ Forall (fun kv => active (snd kv) = true <-> 0 < maxBitrate (snd kv)) m
  /\ Forall (fun kv => (1 # 1 <= scaleResolutionDownBy (snd kv))%Q) m
  /\ Forall2 (fun kv scale => (scaleResolutionDownBy (snd kv) == scale)%Q) m
       (if shouldDisableSimulcast s then [1 # 1; 1 # 1; 1 # 1] else [4 # 1; 2 # 1; 1 # 1]).
Proof.
  intro m. subst m. unfold fillEncodingParamWithBitrates.
  assert (Hact : forall b : Z,
             (if 0 <? b then true else false) = true <-> 0 < b * 1000).
  { intro b. destruct (0 <? b) eqn:Hb.
    - apply Z.ltb_lt in Hb. split; [lia | reflexivity].
    - apply Z.ltb_ge in Hb. split; [discriminate | lia]. }
  destruct (shouldDisableSimulcast s); cbn [fillLoop NAME_ARR_ASCENDING map_set nth
    String.eqb Ascii.eqb Bool.eqb List.map fst snd rid maxBitrate active
    scaleResolutionDownBy];
    (split; [reflexivity|]); (split; [reflexivity|]); (split; [reflexivity|]);
    (split; [repeat constructor; apply Hact|]);
    (split; [repeat constructor; vm_compute; discriminate
            | repeat constructor; vm_compute; reflexivity]).
Qed.

(** ** What the methods leave alone *)

Lemma recalculated_frame (numSendersChanged : bool) (s : Policy) :
  let s' := recalculated numSendersChanged s in
  currentQualityMap s' = currentQualityMap s
  /\ currentActiveStreams s' = currentActiveStreams s
  /\ lastUpdatedMs s' = lastUpdatedMs s
  /\ videoIndex s' = videoIndex s.
Proof.
  unfold recalculated.
  destruct (calculate_exec numSendersChanged s) as [entries He]. unfold exec in He.
  assert (Hp : currentQualityMap (proposal numSendersChanged s) = currentQualityMap s
               /\ currentActiveStreams (proposal numSendersChanged s)
                  = currentActiveStreams s
               /\ lastUpdatedMs (proposal numSendersChanged s) = lastUpdatedMs s
               /\ videoIndex (proposal numSendersChanged s) = videoIndex s).
  { unfold proposal. destruct (redetermines numSendersChanged s); repeat split. }
  destruct (calculateEncodingParameters numSendersChanged s) as [[quality|e] s'];
    cbn [snd] in He; subst s'; exact Hp.
Qed.

Lemma updateConnectionMetric_exec (nowStart nowStartup nowHold : Z)
    (sample : Q) (s : Policy) :
  exec (updateConnectionMetric nowStart nowStartup nowHold
          {| uplinkKbps := Some (Num sample) |}) s
  = if nowHold <? lastUpdatedMs s + holdDownWindow (currentActiveStreams s) sample
    then sampled nowStart nowStartup sample s
    else recalculated false (sampled nowStart nowStartup sample s).
Proof.
  unfold exec. rewrite updateConnectionMetric_unfold. cbv zeta.
  rewrite holdTime_window.
  destruct (sampled_frame nowStart nowStartup sample s) as (_ & _ & Hc & Hu).
  rewrite Hc, Hu. unfold recalculated.
  destruct (nowHold <? _); [reflexivity|].
  destruct (calculateEncodingParameters false _) as [[quality|e] s'']; reflexivity.
Qed.

Lemma sampled_committed (nowStart nowStartup : Z) (sample : Q) (s : Policy) :
  let s' := sampled nowStart nowStartup sample s in
  currentQualityMap s' = currentQualityMap s
  /\ videoIndex s' = videoIndex s
  /\ shouldDisableSimulcast s' = shouldDisableSimulcast s.
Proof. unfold sampled. destruct (startTimeMs s =? 0); repeat split. Qed.

Lemma updateConnectionMetric_cases (nowStart nowStartup nowHold : Z)
    (metrics : ConnectionMetrics) (s : Policy) :
  let s' := exec (updateConnectionMetric nowStart nowStartup nowHold metrics) s in
  s' = s
  \/ exists sample,
       s' = sampled nowStart nowStartup sample s
       \/ s' = recalculated false (sampled nowStart nowStartup sample s).
Proof.
  assert (Hnum : forall sample,
    let s' := exec (updateConnectionMetric nowStart nowStartup nowHold
                      {| uplinkKbps := Some (Num sample) |}) s in
    exists sample0,
      s' = sampled nowStart nowStartup sample0 s
      \/ s' = recalculated false (sampled nowStart nowStartup sample0 s)).
  { intro sample. cbv zeta. rewrite updateConnectionMetric_exec. exists sample.
    destruct (nowHold <? _); [left | right]; reflexivity. }
  destruct metrics as [[[|sample]|]].
  - left. reflexivity.
  - right. apply Hnum.
  - right. apply (Hnum (0 # 1)).
Qed.

Lemma wantsResubscribe_frame (now : Z) (s : Policy) :
  let s' := exec (wantsResubscribe now) s in
  newQualityMap s' = newQualityMap s
  /\ newActiveStreams s' = newActiveStreams s
  /\ currentQualityMap s' = currentQualityMap s
  /\ currentActiveStreams s' = currentActiveStreams s
  /\ videoIndex s' = videoIndex s.
Proof.
  destruct (videoIndex s) as [index|] eqn:Hindex.
  - unfold exec. rewrite (wantsResubscribe_unfold s index now Hindex). cbv zeta.
    cbn [snd]. destruct (_ || _); repeat split; exact Hindex.
  - unfold wantsResubscribe. run_policy. rewrite Hindex. repeat split. exact Hindex.
Qed.

Lemma chooseEncodingParameters_streams (s : Policy) :
  newActiveStreams (exec chooseEncodingParameters s) = newActiveStreams s.
Proof.
  unfold chooseEncodingParameters, publishEncodingSimulcastLayer. run_policy.
  cbn [activeStreamsToPublish newActiveStreams set_currentActiveStreams
       set_currentQualityMap].
  destruct (negb _); reflexivity.
Qed.

Lemma runNextTick_frame (s : Policy) :
  let s' := exec runNextTick s in
  newQualityMap s' = newQualityMap s
  /\ newActiveStreams s' = newActiveStreams s
  /\ currentQualityMap s' = currentQualityMap s
  /\ currentActiveStreams s' = currentActiveStreams s
  /\ lastUpdatedMs s' = lastUpdatedMs s
  /\ videoIndex s' = videoIndex s
  /\ observerQueue s' = observerQueue s.
Proof.
  unfold runNextTick. run_policy.
  destruct (scheduled s) as [|[o l] rest]; repeat split.
Qed.

(** X4. The committed parameter map and layer set change in
    [chooseEncodingParameters] only, and the last-transition timestamp in
    [wantsResubscribe] only. *)
Theorem committed_state_changes_on_commit_only (s s' : Policy) :
  step s s' ->
  (s' = exec chooseEncodingParameters s
   \/ (currentQualityMap s' = currentQualityMap s
       /\ currentActiveStreams s' = currentActiveStreams s))
  /\ ((exists now, s' = exec (wantsResubscribe now) s)
      \/ lastUpdatedMs s' = lastUpdatedMs s).
Proof.
  intro Hstep. destruct Hstep.
  - destruct (updateConnectionMetric_cases nowStart nowStartup nowHold metrics s)
      as [-> | [sample [-> | ->]]].
    + split; right; repeat split.
    + destruct (sampled_frame nowStart nowStartup sample s) as (_ & _ & Hc & Hu).
      destruct (sampled_committed nowStart nowStartup sample s) as (Hq & _).
      split; right; auto.
    + destruct (recalculated_frame false (sampled nowStart nowStartup sample s))
        as (-> & -> & -> & _).
      destruct (sampled_frame nowStart nowStartup sample s) as (_ & _ & Hc & Hu).
      destruct (sampled_committed nowStart nowStartup sample s) as (Hq & _).
      split; right; auto.
  - rewrite updateIndex_exec. cbv zeta.
    match goal with |- context [recalculated ?c ?x] =>
      destruct (recalculated_frame c x) as (-> & -> & -> & _) end.
    split; right; repeat split.
  - split; [left; reflexivity|right]. apply chooseEncodingParameters_frame.
  - split; [right|left; exists now; reflexivity].
    destruct (wantsResubscribe_frame now s) as (_ & _ & -> & -> & _). split; reflexivity.
  - split; right; repeat split.
  - split; right; repeat split.
  - destruct (runNextTick_frame s) as (_ & _ & -> & -> & -> & _).
    split; right; repeat split.
Qed.

Lemma committed_state_changes_on_commit_only_witness :
  let s := constructor "attendee" 1000 in
  let s' := exec (updateIndex twoParticipants) s in
  (s' = exec chooseEncodingParameters s
   \/ (currentQualityMap s' = currentQualityMap s
       /\ currentActiveStreams s' = currentActiveStreams s))
  /\ ((exists now, s' = exec (wantsResubscribe now) s)
      \/ lastUpdatedMs s' = lastUpdatedMs s).
Proof.
  exact (committed_state_changes_on_commit_only
           (constructor "attendee" 1000)
           (exec (updateIndex twoParticipants) (constructor "attendee" 1000))
           (step_updateIndex twoParticipants (constructor "attendee" 1000))).
Defined.

(** ** The maps agree with the layer sets *)

Lemma decideLayers_pattern (s : Policy) :
  activeFlags (fillEncodingParamWithBitrates (snd (decideLayers s)) s)
  = activePattern (fst (decideLayers s)).
Proof.
  unfold decideLayers, fillEncodingParamWithBitrates.
  destruct (shouldDisableSimulcast s); [reflexivity|].
  destruct ((numSenders s <=? 4) && _); [reflexivity|].
  destruct (Qge_bool (lastUplinkBandwidthKbps s) kMidDisabledRate); [|reflexivity].
  destruct (Qge_bool (lastUplinkBandwidthKbps s) (350 # 1));
    destruct (numSenders s <=? 6); reflexivity.
Qed.

Lemma proposal_consistent (numSendersChanged : bool) (s : Policy) :
  consistent s -> consistent (proposal numSendersChanged s).
Proof.
  intros [Hnew Hcur]. unfold proposal.
  destruct (redetermines numSendersChanged s); [|split; assumption].
  split; [|exact Hcur].
  cbn [newQualityMap newActiveStreams set_newQualityMap set_newActiveStreams].
  apply decideLayers_pattern.
Qed.

Lemma recalculated_consistent (numSendersChanged : bool) (s : Policy) :
  consistent s -> consistent (recalculated numSendersChanged s).
Proof.
  intro Hs. destruct (proposal_consistent numSendersChanged s Hs) as [Hnew _].
  destruct Hs as [_ Hcur].
  destruct (recalculated_fields numSendersChanged s) as (Hq & Ha & _).
  destruct (recalculated_frame numSendersChanged s) as (Hcq & Hca & _).
  split.
  - rewrite Hq, Ha. exact Hnew.
  - rewrite Hcq, Hca. exact Hcur.
Qed.

Lemma sampled_consistent (nowStart nowStartup : Z) (sample : Q) (s : Policy) :
  consistent s -> consistent (sampled nowStart nowStartup sample s).
Proof.
  unfold consistent, sampled. destruct (startTimeMs s =? 0); intro H; exact H.
Qed.

Lemma step_consistent (s s' : Policy) : step s s' -> consistent s -> consistent s'.
Proof.
  intros Hstep Hs. destruct Hstep.
  - destruct (updateConnectionMetric_cases nowStart nowStartup nowHold metrics s)
      as [-> | [sample [-> | ->]]].
    + exact Hs.
    + apply sampled_consistent. exact Hs.
    + apply recalculated_consistent, sampled_consistent. exact Hs.
  - rewrite updateIndex_exec. cbv zeta. apply recalculated_consistent. exact Hs.
  - destruct Hs as [Hnew _].
    destruct (chooseEncodingParameters_frame s) as (Hc & Hn & Ha & _).
    unfold consistent.
    rewrite Hc, Hn, Ha, chooseEncodingParameters_streams. split; exact Hnew.
  - destruct (wantsResubscribe_frame now s) as (Hq & Ha & Hcq & Hca & _).
    unfold consistent. rewrite Hq, Ha, Hcq, Hca. exact Hs.
  - exact Hs.
  - exact Hs.
  - destruct (runNextTick_frame s) as (Hq & Ha & Hcq & Hca & _).
    unfold consistent. rewrite Hq, Ha, Hcq, Hca. exact Hs.
Qed.

(** X5. In every state of a policy the proposed map switches on exactly the
    layers of the proposed layer set, and the committed map those of the
    committed layer set: mid alone for Hi, low and hi for HiAndLow, low and
    mid for MidAndLow, low alone for Low. *)
Theorem maps_agree_with_layer_sets (s : Policy) : reachable s -> consistent s.
Proof.
  induction 1 as [selfAttendeeId now | s s' _ IH Hstep].
  - split; reflexivity.
  - exact (step_consistent s s' Hstep IH).
Qed.

Lemma inCallOfTwo_reachable : reachable inCallOfTwo.
Proof.
  apply (reachable_step (constructor "attendee" 1000)).
  - apply reachable_new.
  - apply step_updateIndex.
Defined.

Lemma maps_agree_with_layer_sets_witness : consistent inCallOfTwo.
Proof. exact (maps_agree_with_layer_sets inCallOfTwo inCallOfTwo_reachable). Defined.

(** ** Exceptions *)

Lemma calculate_with_index (numSendersChanged : bool) (s : Policy)
    (index : VideoStreamIndex) :
  videoIndex s = Some index ->
  exists quality, result (calculateEncodingParameters numSendersChanged) s = Normal quality.
Proof.
  intro Hindex. unfold calculateEncodingParameters. run_policy.
  destruct (redetermines numSendersChanged s); [|eexists; reflexivity].
  destruct (decideLayers s) as [streams bitrates]. cbv beta iota.
  set (s1 := set_newQualityMap _ (set_newActiveStreams streams s)).
  assert (Hi1 : videoIndex s1 = Some index) by exact Hindex. clearbody s1.
  destruct (encodingParametersEqual s1); cbv beta iota delta [negb];
    [eexists; reflexivity|].
  unfold getQualityMapString. run_policy. rewrite Hi1.
  destruct (length (localStreamDescriptions index) =? 3)%nat; eexists; reflexivity.
Qed.

(** X6. Once [updateIndex] has stored a video index, no method of the policy
    throws, and the index stays in place. *)
Theorem no_exception_with_index (s : Policy) (index : VideoStreamIndex) :
  videoIndex s = Some index ->
  (forall nowStart nowStartup nowHold metrics,
      result (updateConnectionMetric nowStart nowStartup nowHold metrics) s = Normal tt)
  /\ (forall index', result (updateIndex index') s = Normal tt)
  /\ (forall now, exists answer, result (wantsResubscribe now) s = Normal answer)
  /\ (exists quality, result chooseEncodingParameters s = Normal quality)
  /\ (forall s', step s s' -> exists index', videoIndex s' = Some index').
Proof.
  intro Hindex. split; [|split; [|split; [|split]]].
  - intros nowStart nowStartup nowHold metrics.
    assert (Hnum : forall sample,
      result (updateConnectionMetric nowStart nowStartup nowHold
                {| uplinkKbps := Some (Num sample) |}) s = Normal tt).
    { intro sample. unfold result. rewrite updateConnectionMetric_unfold. cbv zeta.
      destruct (nowHold <? _); [reflexivity|].
      destruct (sampled_committed nowStart nowStartup sample s) as (_ & Hv & _).
      rewrite Hindex in Hv.
      destruct (calculate_with_index false _ index Hv) as [quality Hq].
      unfold result in Hq.
      destruct (calculateEncodingParameters false _) as [[q|e] s''];
        cbn [fst] in Hq |- *; [reflexivity | discriminate Hq]. }
    destruct metrics as [[[|sample]|]]; [reflexivity | apply Hnum | apply (Hnum (0 # 1))].
  - intro index'. unfold updateIndex. run_policy.
    match goal with |- context [calculateEncodingParameters ?c ?x] =>
      destruct (calculate_with_index c x index' eq_refl) as [quality Hq];
      unfold result in Hq;
      destruct (calculateEncodingParameters c x) as [[q|e] s''] end;
      cbn [fst] in Hq |- *; [reflexivity | discriminate Hq].
  - intro now. unfold result. rewrite (wantsResubscribe_unfold s index now Hindex).
    eexists. reflexivity.
  - unfold chooseEncodingParameters, publishEncodingSimulcastLayer. run_policy.
    cbn [activeStreamsToPublish newActiveStreams set_currentActiveStreams
         set_currentQualityMap].
    destruct (negb _); eexists; reflexivity.
  - intros s' Hstep. destruct Hstep.
    + destruct (updateConnectionMetric_cases nowStart nowStartup nowHold metrics s)
        as [-> | [sample [-> | ->]]].
      * exists index. exact Hindex.
      * destruct (sampled_committed nowStart nowStartup sample s) as (_ & -> & _).
        exists index. exact Hindex.
      * destruct (recalculated_frame false (sampled nowStart nowStartup sample s))
          as (_ & _ & _ & ->).
        destruct (sampled_committed nowStart nowStartup sample s) as (_ & -> & _).
        exists index. exact Hindex.
    + rewrite updateIndex_exec. cbv zeta.
      match goal with |- context [recalculated ?c ?x] =>
        destruct (recalculated_frame c x) as (_ & _ & _ & ->) end.
      exists index0. reflexivity.
    + destruct (chooseEncodingParameters_frame s) as (_ & _ & _ & -> & _).
      exists index. exact Hindex.
    + destruct (wantsResubscribe_frame now s) as (_ & _ & _ & _ & ->).
      exists index. exact Hindex.
    + exists index. exact Hindex.
    + exists index. exact Hindex.
    + destruct (runNextTick_frame s) as (_ & _ & _ & _ & _ & -> & _).
      exists index. exact Hindex.
Qed.

Lemma no_exception_with_index_witness :
  result (updateConnectionMetric 9000 9000 9000
            {| uplinkKbps := Some (Num (100 # 1)) |}) inCallOfFive = Normal tt.
Proof.
  exact (proj1 (no_exception_with_index inCallOfFive threeSenders eq_refl)
           9000 9000 9000 {| uplinkKbps := Some (Num (100 # 1)) |}).
Defined.

(** X7. While no video index is stored, [wantsResubscribe] throws a
    TypeError and changes nothing, and [calculateEncodingParameters] throws
    a TypeError exactly when it passes the gate with a proposal that
    differs from the committed map; the proposal is stored all the same. *)
Theorem type_error_without_index (numSendersChanged : bool) (s : Policy) :
  videoIndex s = None ->
  (forall now, wantsResubscribe now s = (Throw TypeError, s))
  /\ (result (calculateEncodingParameters numSendersChanged) s = Throw TypeError
      <-> redetermines numSendersChanged s = true
          /\ encodingParametersEqual (proposal numSendersChanged s) = false)
  /\ exec (calculateEncodingParameters numSendersChanged) s
     = proposal numSendersChanged s.
Proof.
  intro Hnone. split; [|split].
  - intro now. unfold wantsResubscribe. run_policy. rewrite Hnone. reflexivity.
  - unfold calculateEncodingParameters, proposal. run_policy.
    destruct (redetermines numSendersChanged s).
    + destruct (decideLayers s) as [streams bitrates]. cbv beta iota.
      set (s1 := set_newQualityMap _ (set_newActiveStreams streams s)).
      assert (Hn1 : videoIndex s1 = None) by exact Hnone. clearbody s1.
      destruct (encodingParametersEqual s1); cbv beta iota delta [negb].
      * split; [discriminate | intros [_ H]; discriminate H].
      * unfold getQualityMapString. run_policy. rewrite Hn1.
        split; [intro; split; reflexivity | reflexivity].
    + split; [discriminate | intros [H _]; discriminate H].
  - unfold calculateEncodingParameters, proposal. run_policy.
    destruct (redetermines numSendersChanged s); [|reflexivity].
    destruct (decideLayers s) as [streams bitrates]. cbv beta iota.
    set (s1 := set_newQualityMap _ (set_newActiveStreams streams s)).
    assert (Hn1 : videoIndex s1 = None) by exact Hnone. clearbody s1.
    destruct (encodingParametersEqual s1); cbv beta iota delta [negb];
      [reflexivity|].
    unfold getQualityMapString. run_policy. rewrite Hn1. reflexivity.
Qed.

Lemma type_error_without_index_witness :
  wantsResubscribe 2000 (constructor "attendee" 1000)
  = (Throw TypeError, constructor "attendee" 1000).
Proof.
  exact (proj1 (type_error_without_index false (constructor "attendee" 1000) eq_refl)
           2000).
Defined.

(** ** Commit and publication *)

Lemma ActiveStreams_eqb_refl (a : ActiveStreams) : ActiveStreams_eqb a a = true.
Proof. destruct a; reflexivity. Qed.

Lemma ActiveStreams_eqb_eq (a b : ActiveStreams) : ActiveStreams_eqb a b = true -> a = b.
Proof. destruct a, b; intro H; try reflexivity; discriminate H. Qed.

(** X8. A second [chooseEncodingParameters] with no new proposal in between
    changes nothing; in particular it queues no further notification. *)
Theorem chooseEncodingParameters_idempotent (s : Policy) :
  exec chooseEncodingParameters (exec chooseEncodingParameters s)
  = exec chooseEncodingParameters s
  /\ result chooseEncodingParameters (exec chooseEncodingParameters s)
     = result chooseEncodingParameters s.
Proof.
  unfold chooseEncodingParameters, publishEncodingSimulcastLayer. run_policy.
  cbn [activeStreamsToPublish newActiveStreams set_currentActiveStreams
       set_currentQualityMap].
  destruct s as [id lg n d nq cq na ca bw st lu vi cl nl [published|] oq sch];
    cbn [activeStreamsToPublish newActiveStreams].
  - destruct (ActiveStreams_eqb published na) eqn:Heq; cbn [negb].
    + apply ActiveStreams_eqb_eq in Heq. subst published. cbn.
      rewrite ActiveStreams_eqb_refl. cbn. split; reflexivity.
    + cbn. rewrite ActiveStreams_eqb_refl. cbn. split; reflexivity.
  - cbn. rewrite ActiveStreams_eqb_refl. cbn. split; reflexivity.
Qed.

(** X9. The first commit after a change of layer set queues one notification
    per registered observer, in registration order, carrying the committed
    layer set; a commit that keeps the published layer set queues none. *)
Theorem chooseEncodingParameters_notifies (s : Policy) :
  (activeStreamsToPublish s = Some (newActiveStreams s) ->
   scheduled (exec chooseEncodingParameters s) = scheduled s)
  /\ (activeStreamsToPublish s <> Some (newActiveStreams s) ->
      scheduled (exec chooseEncodingParameters s)
      = scheduled s
        ++ List.map (fun o => (o, getEncodingSimulcastLayer (newActiveStreams s)))
             (observerQueue s)).
Proof.
  unfold chooseEncodingParameters, publishEncodingSimulcastLayer. run_policy.
  cbn [activeStreamsToPublish newActiveStreams set_currentActiveStreams
       set_currentQualityMap].
  destruct (activeStreamsToPublish s) as [published|] eqn:Hp.
  - destruct (ActiveStreams_eqb published (newActiveStreams s)) eqn:Heq; cbn [negb].
    + apply ActiveStreams_eqb_eq in Heq. subst published.
      split; [reflexivity | intro Hne; exfalso; apply Hne; reflexivity].
    + split; [|reflexivity].
      intro He. injection He as ->. rewrite ActiveStreams_eqb_refl in Heq.
      discriminate Heq.
  - cbn [negb]. split; [discriminate | reflexivity].
Qed.

Lemma chooseEncodingParameters_notifies_witness :
  scheduled (exec chooseEncodingParameters (exec (addObserver 1) inCallOfTwo))
  = [(1%nat, High)].
Proof.
  refine (proj2 (chooseEncodingParameters_notifies (exec (addObserver 1) inCallOfTwo)) _).
  discriminate.
Defined.

Lemma set_has_delete (o : nat) (q : list nat) : set_has o (set_delete o q) = false.
Proof.
  unfold set_has, set_delete. induction q as [|x q IH]; [reflexivity|].
  simpl. destruct (Nat.eqb o x) eqn:Hx; simpl; [exact IH|].
  rewrite Hx. exact IH.
Qed.

Lemma runTicks_silent (o : nat) (n : nat) :
  forall s, set_has o (observerQueue s) = false ->
            Forall (fun call => fst call <> o) (fst (runTicks n s)).
Proof.
  induction n as [|n IH]; intros s Hs; [constructor|].
  cbn [runTicks].
  pose proof (runNextTick_frame s) as (_ & _ & _ & _ & _ & _ & Hq).
  unfold exec in Hq.
  assert (Hr : forall call, fst (runNextTick s) = Normal (Some call) -> fst call <> o).
  { intro call. unfold runNextTick. run_policy.
    destruct (scheduled s) as [|[o' l] rest]; [discriminate|].
    destruct (set_has o' (observerQueue s)) eqn:Ho'; [|discriminate].
    intro H. injection H as <-. cbn [fst]. intros ->. congruence. }
  destruct (runNextTick s) as [r s1]. cbn [fst snd] in Hq, Hr.
  specialize (IH s1). rewrite Hq in IH. specialize (IH Hs).
  destruct (runTicks n s1) as [calls s2]. cbn [fst] in IH |- *.
  destruct r as [[call|]|e]; [|exact IH|exact IH].
  constructor; [apply Hr; reflexivity | exact IH].
Qed.

(** X10. An observer that has been removed is never called, however many
    notifications were queued for it before the removal. *)
Theorem removed_observer_is_never_called (observer : nat) (s : Policy) (n : nat) :
  Forall (fun call => fst call <> observer)
    (fst (runTicks n (exec (removeObserver observer) s))).
Proof.
  apply runTicks_silent. unfold removeObserver. run_policy.
  cbn [observerQueue set_observerQueue set_logger]. apply set_has_delete.
Qed.

(** ** Local streams in wantsResubscribe *)

Lemma findIndex_none {A} (p : A -> bool) (l : list A) :
  Forall (fun x => p x = false) l -> findIndex p l = None.
Proof.
  induction 1 as [|x l Hx _ IH]; [reflexivity|]. simpl. rewrite Hx, IH. reflexivity.
Qed.

(** X11. Local streams that the previous snapshot does not track (stream id
    0, or an id that is not in the snapshot) never make [wantsResubscribe]
    return true: the answer is then whether the proposal differs from the
    committed map.  This is so for the first call, whose snapshot is empty. *)
Theorem untracked_streams_do_not_resubscribe
    (s : Policy) (index : VideoStreamIndex) (now : Z) :
  videoIndex s = Some index ->
  Forall (untracked (currLocalDescriptions s)) (localStreamDescriptions index) ->
  result (wantsResubscribe now) s = Normal (negb (encodingParametersEqual s)).
Proof.
  intros Hindex Hall. unfold result.
  rewrite (wantsResubscribe_unfold s index now Hindex). cbv zeta. cbn [fst].
  assert (Hno : someFlagFlipped s (localStreamDescriptions index) = false).
  { unfold someFlagFlipped. induction Hall as [|next l Hnext _ IH]; [reflexivity|].
    simpl. rewrite IH, orb_false_r. unfold flagFlipped.
    destruct Hnext as [Hzero | Hfresh].
    - rewrite Hzero. reflexivity.
    - destruct (negb (streamId next =? 0)); [|reflexivity].
      rewrite findIndex_none; [reflexivity|].
      eapply Forall_impl; [exact Hfresh|]. intros prev Hne. cbv beta in *.
      apply Z.eqb_neq. exact Hne. }
  rewrite Hno, orb_false_r. reflexivity.
Qed.

Lemma untracked_streams_do_not_resubscribe_witness :
  result (wantsResubscribe 2000) committedWithStream
  = Normal (negb (encodingParametersEqual committedWithStream)).
Proof.
  apply (untracked_streams_do_not_resubscribe committedWithStream oneStream 2000).
  - reflexivity.
  - constructor; [right; constructor | constructor].
Defined.

(** ** Instances for the properties of the bandwidth samples *)

Lemma hold_down_elapsed_recomputes_witness :
  exec (updateConnectionMetric 9000 9000 9000
          {| uplinkKbps := Some (Num (100 # 1)) |}) inCallOfFive
  = recalculated false (sampled 9000 9000 (100 # 1) inCallOfFive).
Proof.
  apply (hold_down_elapsed_recomputes inCallOfFive 9000 9000 9000 (100 # 1)).
  vm_compute. discriminate.
Defined.

Lemma after_startup_raw_sample_witness :
  lastUplinkBandwidthKbps
    (exec (updateConnectionMetric 9000 9000 9000
             {| uplinkKbps := Some (Num (50 # 1)) |}) started)
  = 50 # 1.
Proof.
  apply (after_startup_raw_sample started 9000 9000 9000 (50 # 1)).
  vm_compute. discriminate.
Defined.

Lemma disabled_simulcast_invariant_witness : singleLayer inCallOfTwo.
Proof. exact (disabled_simulcast_invariant inCallOfTwo inCallOfTwo_reachable). Defined.

(** X12. A local stream with a non-zero id whose disabled-by-runtime flag
    differs from the one in the previous snapshot (the first entry with
    that id) makes [wantsResubscribe] return true and restart the hold-down
    clock, also when the proposal equals the committed map. *)
Theorem flipped_flag_resubscribes
    (s : Policy) (index : VideoStreamIndex) (now : Z)
    (next prev : VideoStreamDescription) (pre post : list VideoStreamDescription) :
  videoIndex s = Some index ->
  In next (localStreamDescriptions index) ->
  streamId next <> 0 ->
  currLocalDescriptions s = pre ++ prev :: post ->
  Forall (fun earlier => streamId earlier <> streamId next) pre ->
  streamId prev = streamId next ->
  disabledByWebRTC next <> disabledByWebRTC prev ->
  result (wantsResubscribe now) s = Normal true
  /\ lastUpdatedMs (exec (wantsResubscribe now) s) = now.
Proof.
  intros Hindex Hin Hid Hcurr Hpre Hsame Hflag.
  assert (Hflip : someFlagFlipped s (localStreamDescriptions index) = true).
  { unfold someFlagFlipped. apply existsb_exists. exists next. split; [exact Hin|].
    unfold flagFlipped. apply Z.eqb_neq in Hid. rewrite Hid. cbn [negb].
    rewrite Hcurr.
    destruct (findIndex_first (fun val => streamId val =? streamId next) pre post prev)
      as [-> ->].
    - eapply Forall_impl; [exact Hpre|]. intros earlier Hne. cbv beta in *.
      apply Z.eqb_neq. exact Hne.
    - apply Z.eqb_eq. exact Hsame.
    - destruct (disabledByWebRTC next), (disabledByWebRTC prev);
        try reflexivity; exfalso; apply Hflag; reflexivity. }
  unfold result, exec. rewrite (wantsResubscribe_unfold s index now Hindex). cbv zeta.
  rewrite Hflip, orb_true_r. split; reflexivity.
Qed.

Lemma flipped_flag_resubscribes_witness :
  encodingParametersEqual afterFlip = true
  /\ result (wantsResubscribe 3000) afterFlip = Normal true
  /\ lastUpdatedMs (exec (wantsResubscribe 3000) afterFlip) = 3000.
Proof.
  split; [reflexivity|].
  apply (flipped_flag_resubscribes afterFlip oneStreamEnabled 3000
           {| streamId := 7; disabledByWebRTC := false |}
           {| streamId := 7; disabledByWebRTC := true |} [] []).
  - reflexivity.
  - left. reflexivity.
  - discriminate.
  - reflexivity.
  - constructor.
  - reflexivity.
  - discriminate.
Defined.

(** ** updateIndex *)

(** X13. [updateIndex] stores the index, counts the senders as the other
    publishing participants plus one, and disables simulcast exactly for a
    participant count of 0, 1 or 2; a negative count, like a count above 2,
    leaves simulcast in use. *)
Theorem updateIndex_stores_counts (index : VideoStreamIndex) (s : Policy) :
  let s' := exec (updateIndex index) s in
  videoIndex s' = Some index
  /\ numSenders s'
     = numberOfVideoPublishingParticipantsExcludingSelf index (selfAttendeeId s) + 1
  /\ (shouldDisableSimulcast s' = true <-> 0 <= numberOfParticipants index <= 2).
Proof.
  cbv zeta. rewrite updateIndex_exec. cbv zeta.
  match goal with |- context [recalculated ?c ?x] =>
    destruct (recalculated_frame c x) as (_ & _ & _ & Hv);
    destruct (recalculated_fields c x) as (_ & _ & Hd);
    assert (Hn : numSenders (recalculated c x) = numSenders x)
  end.
  { unfold recalculated.
    match goal with |- context [calculateEncodingParameters ?c ?x] =>
      destruct (calculate_exec c x) as [entries He]; unfold exec in He;
      destruct (calculateEncodingParameters c x) as [[quality|e] s'] end;
      cbn [snd] in He; subst s';
      cbn [numSenders set_newQualityMap set_logger];
      unfold proposal; destruct (redetermines _ _); reflexivity. }
  rewrite Hv, Hn, Hd. split; [reflexivity|]. split; [reflexivity|].
  cbn [shouldDisableSimulcast set_videoIndex set_shouldDisableSimulcast].
  rewrite andb_true_iff, !Z.leb_le. reflexivity.
Qed.

Lemma participants_drop_to_two_witness :
  shouldDisableSimulcast (exec (updateIndex twoParticipants) inCallOfFive) = true
  /\ layers (newQualityMap (exec (updateIndex twoParticipants) inCallOfFive))
     = [("low", false, 0); ("mid", true, 1200000); ("hi", false, 0)].
Proof.
  apply (participants_drop_to_two twoParticipants inCallOfFive).
  - reflexivity.
  - vm_compute. split; discriminate.
Defined.

End PolicyExtras.

(** * Further properties of the subscribe/acknowledge task *)

Module TaskExtras.
Import SubscribeAndReceiveSubscribeAckTask TaskNotions TaskProperties.

(** ** More on the subscription-order repair *)

Lemma fixUpLoop_exec (values : list Z) (directions : list string) :
  forall (k : nat) (acc : list Z) (w : World),
    (k <= length values)%nat ->
    exec (fixUpLoop directions values k acc) w
    = set_logger
        (fun l => l ++ replicate (recvonlyCount directions - (length values - k))
                         (Warn, MsgMoreReceiveSections (length values) (length values)))
        w.
Proof.
  unfold recvonlyCount.
  induction directions as [|direction rest IH]; intros k acc w Hk.
  - cbn. destruct w. unfold set_logger. cbn. rewrite app_nil_r. reflexivity.
  - cbn [fixUpLoop List.filter]. fold (isRecvonly direction).
    destruct (isRecvonly direction).
    + destruct (length values <=? k)%nat eqn:Hle.
      * apply Nat.leb_le in Hle. assert (k = length values) by lia. subst k.
        unfold exec, bind, warn, modify. cbv beta iota.
        fold (exec (fixUpLoop rest values (length values) (acc ++ [0]))
                (set_logger (fun l => l ++ [(Warn, MsgMoreReceiveSections
                                               (length values) (length values))]) w)).
        rewrite IH by lia. cbn [length].
        replace (length values - length values)%nat with 0%nat by lia.
        rewrite !Nat.sub_0_r. destruct w. unfold set_logger. cbn.
        rewrite <- app_assoc. reflexivity.
      * apply Nat.leb_gt in Hle. rewrite IH by lia. cbn [length].
        replace (S (length (List.filter isRecvonly rest)) - (length values - k))%nat
          with (length (List.filter isRecvonly rest) - (length values - S k))%nat by lia.
        reflexivity.
    + apply IH. exact Hk.
Qed.

Lemma fixUpSubscriptionOrder_run
    (env : Collaborators) (sdp : string) (videoSubscriptions : list Z) (w : World) :
  let directions := videoSectionDirections env sdp in
  let repaired := repairFrom directions (nonZero videoSubscriptions) 0 in
  fixUpSubscriptionOrder env sdp videoSubscriptions w
  = (Normal repaired,
     set_logger (fun l => l ++ fixUpLog directions videoSubscriptions repaired) w).
Proof.
  intros directions repaired. unfold fixUpSubscriptionOrder. fold directions.
  fold (nonZero videoSubscriptions).
  pose proof (fixUpLoop_result (nonZero videoSubscriptions) directions 0 [] w) as Hr.
  pose proof (fixUpLoop_exec (nonZero videoSubscriptions) directions 0 [] w
                ltac:(lia)) as He.
  unfold result, exec in Hr, He. unfold bind at 1.
  destruct (fixUpLoop directions (nonZero videoSubscriptions) 0 [] w) as [r w'].
  cbn [fst snd] in Hr, He. subst r w'. cbn [app]. fold repaired.
  unfold bind, info, modify, ret, fixUpLog. cbv beta iota.
  rewrite Nat.sub_0_r. destruct w. unfold set_logger. cbn.
  rewrite <- app_assoc. reflexivity.
Qed.

(** X18. [fixUpSubscriptionOrder] changes nothing but the log, to which it
    adds one warning per receive-only section left without a subscription
    (none when the subscriptions suffice) and then one summary line. *)
Theorem fixUpSubscriptionOrder_logs
    (env : Collaborators) (sdp : string) (videoSubscriptions : list Z) (w : World) :
  let directions := videoSectionDirections env sdp in
  exists repaired,
    result (fixUpSubscriptionOrder env sdp videoSubscriptions) w = Normal repaired
    /\ exec (fixUpSubscriptionOrder env sdp videoSubscriptions) w
       = set_logger
           (fun l =>
              l ++ replicate
                     (recvonlyCount directions - length (nonZero videoSubscriptions))
                     (Warn, MsgMoreReceiveSections
                              (length (nonZero videoSubscriptions))
                              (length (nonZero videoSubscriptions)))
                ++ [(Info, MsgFixedUp videoSubscriptions repaired)])
           w.
Proof.
  intro directions. eexists. unfold result, exec.
  rewrite fixUpSubscriptionOrder_run. cbn [fst snd]. split; reflexivity.
Qed.

Lemma nonZero_Forall (videoSubscriptions : list Z) :
  Forall (fun value => value <> 0) (nonZero videoSubscriptions).
Proof.
  unfold nonZero. induction videoSubscriptions as [|v l IH]; [constructor|].
  simpl. destruct (v =? 0) eqn:Hv; simpl; [exact IH|].
  constructor; [apply Z.eqb_neq; exact Hv | exact IH].
Qed.

Lemma nonZero_id (values : list Z) :
  Forall (fun value => value <> 0) values -> nonZero values = values.
Proof.
  unfold nonZero. induction 1 as [|v l Hv _ IH]; [reflexivity|].
  simpl. apply Z.eqb_neq in Hv. rewrite Hv. simpl. rewrite IH. reflexivity.
Qed.

Lemma drop_nth_cons (values : list Z) (k : nat) :
  (k < length values)%nat -> drop k values = nth k values 0 :: drop (S k) values.
Proof.
  revert k. induction values as [|v l IH]; intros k Hk; [simpl in Hk; lia|].
  destruct k as [|k]; [reflexivity|]. simpl in *. apply IH. lia.
Qed.

Lemma nonZero_repairFrom (values : list Z) (directions : list string) :
  Forall (fun value => value <> 0) values ->
  forall k,
    nonZero (repairFrom directions values k)
    = take (recvonlyCount directions) (drop k values).
Proof.
  intro Hnz. unfold recvonlyCount.
  induction directions as [|direction rest IH]; intro k; [reflexivity|].
  cbn [repairFrom List.filter]. destruct (isRecvonly direction).
  - destruct (length values <=? k)%nat eqn:Hle.
    + apply Nat.leb_le in Hle. unfold nonZero in *. cbn. rewrite IH.
      rewrite drop_ge by lia. rewrite !take_nil. reflexivity.
    + apply Nat.leb_gt in Hle. rewrite (drop_nth_cons values k Hle).
      cbn [length take]. unfold nonZero in *. cbn [List.filter].
      assert (Hk : nth k values 0 <> 0).
      { rewrite Forall_forall in Hnz. apply Hnz. apply list_elem_of_In.
        apply nth_In. exact Hle. }
      apply Z.eqb_neq in Hk. rewrite Hk. cbn [negb]. rewrite IH. reflexivity.
  - unfold nonZero in *. cbn. apply IH.
Qed.

(** X19. The repair invents, reorders and skips nothing: the non-zero
    entries of the repaired array are the leading non-zero entries of the
    input, as many as there are receive-only sections; with at least as
    many receive-only sections as non-zero entries, every subscription is
    kept. *)
Theorem fixUpSubscriptionOrder_keeps_leading_subscriptions
    (env : Collaborators) (sdp : string) (videoSubscriptions : list Z) (w : World) :
  let directions := videoSectionDirections env sdp in
  exists repaired,
    result (fixUpSubscriptionOrder env sdp videoSubscriptions) w = Normal repaired
    /\ nonZero repaired
       = take (recvonlyCount directions) (nonZero videoSubscriptions)
    /\ ((length (nonZero videoSubscriptions) <= recvonlyCount directions)%nat ->
        nonZero repaired = nonZero videoSubscriptions).
Proof.
  intro directions. eexists. unfold result. rewrite fixUpSubscriptionOrder_run.
  cbv zeta. cbn [fst]. split; [reflexivity|].
  pose proof (nonZero_repairFrom (nonZero videoSubscriptions) directions
                (nonZero_Forall videoSubscriptions) 0) as H.
  rewrite drop_0 in H. fold directions in H. split; [exact H|].
  intro Hle. etransitivity; [exact H|]. apply take_ge. exact Hle.
Qed.

Lemma fixUpSubscriptionOrder_keeps_leading_subscriptions_witness :
  exists repaired,
    result (fixUpSubscriptionOrder quietEnv "v=0" [0; 5; 0; 7]) idle = Normal repaired
    /\ nonZero repaired = [5; 7].
Proof.
  destruct (fixUpSubscriptionOrder_keeps_leading_subscriptions
              quietEnv "v=0" [0; 5; 0; 7] idle) as (repaired & Hr & _ & Hall).
  exists repaired. split; [exact Hr|]. apply Hall. vm_compute. lia.
Defined.

Lemma recvonlyBefore_lt (directions : list string) :
  forall (i : nat) (direction : string),
    directions !! i = Some direction ->
    isRecvonly direction = true ->
    (recvonlyBefore directions i < recvonlyCount directions)%nat.
Proof.
  unfold recvonlyBefore, recvonlyCount.
  induction directions as [|d rest IH]; intros i direction Hi Hrecv.
  - destruct i; discriminate Hi.
  - destruct i as [|i].
    + simpl in Hi. injection Hi as ->. simpl. rewrite Hrecv. simpl. lia.
    + simpl in Hi. simpl. specialize (IH i direction Hi Hrecv).
      destruct (isRecvonly d); simpl; lia.
Qed.

Lemma nth_take_lt (values : list Z) (n j : nat) :
  (j < n)%nat -> nth j (take n values) 0 = nth j values 0.
Proof.
  revert n j. induction values as [|v l IH]; intros n j Hj.
  - rewrite take_nil. reflexivity.
  - destruct n as [|n]; [lia|]. destruct j as [|j]; [reflexivity|].
    simpl. apply IH. lia.
Qed.

(** X20. The repair is idempotent: repairing the repaired array against the
    same SDP returns it unchanged. *)
Theorem fixUpSubscriptionOrder_idempotent
    (env : Collaborators) (sdp : string) (videoSubscriptions : list Z) (w w' : World) :
  exists repaired,
    result (fixUpSubscriptionOrder env sdp videoSubscriptions) w = Normal repaired
    /\ result (fixUpSubscriptionOrder env sdp repaired) w' = Normal repaired.
Proof.
  eexists. unfold result. rewrite !fixUpSubscriptionOrder_run. cbv zeta. cbn [fst].
  split; [reflexivity|]. f_equal.
  set (directions := videoSectionDirections env sdp).
  set (values := nonZero videoSubscriptions).
  rewrite (nonZero_repairFrom values directions (nonZero_Forall videoSubscriptions) 0).
  rewrite drop_0.
  apply list_eq. intro i.
  destruct (directions !! i) as [direction|] eqn:Hi.
  - rewrite (repairFrom_lookup _ directions 0 i direction Hi).
    rewrite (repairFrom_lookup values directions 0 i direction Hi).
    destruct (isRecvonly direction) eqn:Hrecv; [|reflexivity].
    rewrite nth_take_lt; [reflexivity|].
    apply (recvonlyBefore_lt directions i direction Hi Hrecv).
  - apply lookup_ge_None in Hi.
    rewrite !(proj2 (lookup_ge_None _ _)); [reflexivity| |];
      rewrite repairFrom_length; exact Hi.
Qed.

(** ** run up to its await *)

Lemma receiveSubscribeAck_run (w : World) :
  let interceptor := fresh (dom (promises w)) in
  receiveSubscribeAck w
  = (Normal interceptor,
     set_taskCanceler (Some interceptor)
       (set_observers (fun o => {[interceptor]} ∪ o)
          (set_signalingCalls (fun l => l ++ [CallRegisterObserver interceptor])
             (set_promises (<[interceptor := Pending]>) w)))).
Proof. reflexivity. Qed.

(** X21. [run] sends exactly one subscribe request and then registers
    exactly one observer, a new one whose promise is pending and which
    becomes the canceler.  The request carries the local SDP that is also
    stored as the previous offer; under unified plan its subscription
    array has one entry per video section of that SDP, and otherwise it is
    the caller's array unchanged. *)
Theorem run_sends_one_subscribe (env : Collaborators) (context : Session) (w : World) :
  exists (interceptor : nat) (settings : SignalingClientSubscribe),
    let w' := exec (run env context) w in
    result (run env context) w = Normal interceptor
    /\ signalingCalls w'
       = signalingCalls w ++ [CallSubscribe settings; CallRegisterObserver interceptor]
    /\ sub_sdpOffer settings = offeredSdp env context
    /\ previousSdpOffer w' = Some (offeredSdp env context)
    /\ (requiresUnifiedPlan context = true ->
        length (sub_receiveStreamIds settings)
        = length (videoSectionDirections env (offeredSdp env context)))
    /\ (requiresUnifiedPlan context = false ->
        sub_receiveStreamIds settings = videoSubscriptions context)
    /\ (interceptor ∉ dom (promises w))
    /\ promises w' = <[interceptor := Pending]> (promises w)
    /\ observers w' = {[interceptor]} ∪ observers w
    /\ taskCanceler w' = Some interceptor.
Proof.
  assert (Hrun : exists (settings : SignalingClientSubscribe) (w' : World),
    run env context w = (Normal (fresh (dom (promises w))), w')
    /\ signalingCalls w'
       = signalingCalls w
         ++ [CallSubscribe settings; CallRegisterObserver (fresh (dom (promises w)))]
    /\ sub_sdpOffer settings = offeredSdp env context
    /\ previousSdpOffer w' = Some (offeredSdp env context)
    /\ (requiresUnifiedPlan context = true ->
        length (sub_receiveStreamIds settings)
        = length (videoSectionDirections env (offeredSdp env context)))
    /\ (requiresUnifiedPlan context = false ->
        sub_receiveStreamIds settings = videoSubscriptions context)
    /\ promises w' = <[fresh (dom (promises w)) := Pending]> (promises w)
    /\ observers w' = {[fresh (dom (promises w))]} ∪ observers w
    /\ taskCanceler w' = Some (fresh (dom (promises w)))).
  { unfold run. fold (offeredSdp env context). run_task.
    destruct (enableSimulcast context); cbn [negb];
      try destruct (videoCaptureAndEncodeParameter context);
      destruct (requiresUnifiedPlan context);
      try rewrite fixUpSubscriptionOrder_run; cbv zeta beta iota;
      rewrite receiveSubscribeAck_run; cbv zeta;
      cbn [promises set_signalingCalls set_logger set_previousSdpOffer
           set_indexCalls];
      eexists _, _; (split; [reflexivity|]);
      cbn [promises signalingCalls observers previousSdpOffer taskCanceler
           set_taskCanceler set_observers set_signalingCalls set_promises
           set_previousSdpOffer set_logger set_indexCalls sub_sdpOffer
           sub_receiveStreamIds];
      (split; [rewrite <- app_assoc; reflexivity|]);
      (split; [reflexivity|]); (split; [reflexivity|]);
      (split; [intro Hplan; try discriminate Hplan; apply repairFrom_length|]);
      (split; [intro Hplan; try discriminate Hplan; reflexivity|]);
      (split; [reflexivity|]); split; reflexivity. }
  destruct Hrun as (settings & w' & Hrun & Hcalls & Hsdp & Hprev & Hlen & Hsame
                    & Hprom & Hobs & Hcanc).
  exists (fresh (dom (promises w))), settings. cbv zeta. unfold exec, result.
  rewrite Hrun. cbn [fst snd].
  split; [reflexivity|]. split; [exact Hcalls|]. split; [exact Hsdp|].
  split; [exact Hprev|]. split; [exact Hlen|]. split; [exact Hsame|].
  split; [apply is_fresh|]. split; [exact Hprom|]. split; [exact Hobs | exact Hcanc].
Qed.

Lemma run_sends_one_subscribe_witness :
  exists settings,
    signalingCalls awaiting = [CallSubscribe settings; CallRegisterObserver 0]
    /\ length (sub_receiveStreamIds settings) = 5%nat.
Proof.
  destruct (run_sends_one_subscribe quietEnv session idle)
    as (interceptor & settings & Hresult & Hcalls & _ & _ & Hlen & _).
  injection Hresult as <-.
  exists settings. split; [exact Hcalls | exact (Hlen eq_refl)].
Defined.

(** ** The three ways a wait ends *)

Lemma handle_ack (env : Collaborators) (this : nat) (event : SignalingClientEvent)
    (frame : SdkSignalFrame) (w : World) :
  isConnectionTerminated event = false ->
  type event = ReceivedSignalFrame ->
  message event = Some frame ->
  frameType frame = SUBSCRIBE_ACK ->
  promises w !! this = Some Pending ->
  Interceptor_handleSignalingClientEvent env this event w
  = (Normal tt,
     set_promises (<[this := Resolved (suback frame)]>)
       (set_observers (fun o => o ∖ {[this]})
          (set_signalingCalls (fun l => l ++ [CallRemoveObserver this]) w))).
Proof.
  intros Hterm Htype Hmessage Hframe Hpending.
  unfold Interceptor_handleSignalingClientEvent.
  rewrite Hterm, Htype, Hmessage, Hframe. run_task.
  cbn [promises set_observers set_signalingCalls]. rewrite Hpending. reflexivity.
Qed.

(** X22. An acknowledgement that arrives during the wait removes the
    observer and resolves the promise with the frame's suback; [run] then
    stores the answer SDP, hands the frame to the stream index and returns.
    If the frame carries no suback, [run] throws a TypeError instead and
    stores nothing. *)
Theorem acknowledgement_completes_run
    (env : Collaborators) (this : nat) (event : SignalingClientEvent)
    (frame : SdkSignalFrame) (w : World) :
  isConnectionTerminated event = false ->
  type event = ReceivedSignalFrame ->
  message event = Some frame ->
  frameType frame = SUBSCRIBE_ACK ->
  promises w !! this = Some Pending ->
  let settled := exec (Interceptor_handleSignalingClientEvent env this event) w in
  let finished := exec (runAfterAwait this) settled in
  (this ∉ observers settled)
  /\ promises settled !! this = Some (Resolved (suback frame))
  /\ (forall ack, suback frame = Some ack ->
        result (runAfterAwait this) settled = Normal Returned
        /\ contextSdpAnswer finished = Some (sdpAnswer ack)
        /\ indexCalls finished = indexCalls w ++ [CallIntegrateSubscribeAckFrame ack])
  /\ (suback frame = None ->
        result (runAfterAwait this) settled = Throw TypeError
        /\ contextSdpAnswer finished = contextSdpAnswer w
        /\ indexCalls finished = indexCalls w).
Proof.
  intros Hterm Htype Hmessage Hframe Hpending settled finished.
  subst finished.
  assert (Hs : settled
    = set_promises (<[this := Resolved (suback frame)]>)
        (set_observers (fun o => o ∖ {[this]})
           (set_signalingCalls (fun l => l ++ [CallRemoveObserver this]) w))).
  { subst settled. unfold exec.
    rewrite (handle_ack env this event frame w Hterm Htype Hmessage Hframe Hpending).
    reflexivity. }
  clearbody settled. unfold exec.
  assert (Hres : promises settled !! this = Some (Resolved (suback frame))).
  { subst settled. cbn [promises set_promises]. apply lookup_insert_eq. }
  split; [subst settled; cbn [observers set_promises set_observers]; (set_unfold; intuition congruence)|].
  split; [exact Hres|].
  unfold runAfterAwait. run_task. rewrite Hres. split.
  - intros ack Hack. rewrite Hack. subst settled. repeat split.
  - intro Hnone. rewrite Hnone. subst settled. repeat split.
Qed.

Lemma acknowledgement_completes_run_witness :
  result (runAfterAwait 0)
    (exec (Interceptor_handleSignalingClientEvent quietEnv 0 acknowledged) awaiting)
  = Normal Returned.
Proof.
  destruct (acknowledgement_completes_run quietEnv 0 acknowledged ackFrame awaiting
              eq_refl eq_refl eq_refl eq_refl eq_refl) as (_ & _ & Hack & _).
  exact (proj1 (Hack {| sdpAnswer := "answer" |} eq_refl)).
Defined.

(** X23. [cancel] during the wait removes the observer, rejects the promise
    with the cancellation error and clears the canceler; [run] then throws
    that error and commits nothing. *)
Theorem cancel_during_wait_fails_run (this : nat) (w : World) :
  taskCanceler w = Some this ->
  promises w !! this = Some Pending ->
  let canceled := exec cancel w in
  (this ∉ observers canceled)
  /\ promises canceled !! this = Some (Rejected (Error MsgCanceledWhileWaiting))
  /\ taskCanceler canceled = None
  /\ removals canceled = S (removals w)
  /\ runAfterAwait this canceled = (Throw (Error MsgCanceledWhileWaiting), canceled).
Proof.
  intros Hcanceler Hpending canceled.
  assert (Hc : canceled
    = set_taskCanceler None
        (set_promises (<[this := Rejected (Error MsgCanceledWhileWaiting)]>)
           (set_observers (fun o => o ∖ {[this]})
              (set_signalingCalls (fun l => l ++ [CallRemoveObserver this]) w)))).
  { subst canceled. unfold cancel. run_task. rewrite Hcanceler.
    cbn [promises set_observers set_signalingCalls]. rewrite Hpending. reflexivity. }
  clearbody canceled. subst canceled.
  assert (Hrej : promises (set_taskCanceler None
        (set_promises (<[this := Rejected (Error MsgCanceledWhileWaiting)]>)
           (set_observers (fun o => o ∖ {[this]})
              (set_signalingCalls (fun l => l ++ [CallRemoveObserver this]) w))))
        !! this = Some (Rejected (Error MsgCanceledWhileWaiting))).
  { cbn [promises set_taskCanceler set_promises]. apply lookup_insert_eq. }
  split; [cbn [observers set_taskCanceler set_promises set_observers]; (set_unfold; intuition congruence)|].
  split; [exact Hrej|]. split; [reflexivity|]. split.
  - unfold removals. cbn [signalingCalls set_taskCanceler set_promises set_observers
                          set_signalingCalls].
    rewrite List.filter_app, length_app. simpl. lia.
  - unfold runAfterAwait. run_task. rewrite Hrej. reflexivity.
Qed.

Lemma cancel_during_wait_fails_run_witness :
  result (runAfterAwait 0) (exec cancel awaiting)
  = Throw (Error MsgCanceledWhileWaiting).
Proof.
  destruct (cancel_during_wait_fails_run 0 awaiting eq_refl eq_refl)
    as (_ & _ & _ & _ & Hrun).
  unfold result. rewrite Hrun. reflexivity.
Defined.

(** X24. An event that is neither a termination nor the acknowledgement is
    ignored: the interceptor changes nothing.  It returns normally, except
    for a received-frame event without a message, where reading the frame
    type throws a TypeError. *)
Theorem other_events_are_ignored
    (env : Collaborators) (this : nat) (event : SignalingClientEvent) (w : World) :
  isConnectionTerminated event = false ->
  isSubscribeAck event = false ->
  exec (Interceptor_handleSignalingClientEvent env this event) w = w
  /\ (result (Interceptor_handleSignalingClientEvent env this event) w = Normal tt
      \/ (type event = ReceivedSignalFrame
          /\ message event = None
          /\ result (Interceptor_handleSignalingClientEvent env this event) w
             = Throw TypeError)).
Proof.
  intros Hterm Hack. unfold isSubscribeAck in Hack. rewrite Hterm in Hack.
  cbn [negb andb] in Hack.
  unfold Interceptor_handleSignalingClientEvent. rewrite Hterm.
  destruct (type event); [|split; [reflexivity | left; reflexivity]].
  destruct (message event) as [frame|].
  - destruct (frameType frame); [discriminate Hack|].
    split; [reflexivity | left; reflexivity].
  - split; [reflexivity|]. right. repeat split.
Qed.

Lemma other_events_are_ignored_witness :
  exec (Interceptor_handleSignalingClientEvent quietEnv 0 otherFrame) awaiting = awaiting.
Proof.
  exact (proj1 (other_events_are_ignored quietEnv 0 otherFrame awaiting eq_refl eq_refl)).
Defined.

Lemma deliver_unregistered (env : Collaborators) (this : nat)
    (events : list SignalingClientEvent) :
  forall w, this ∉ observers w -> deliver env this events w = w.
Proof.
  induction events as [|event events IH]; intros w Hout; [reflexivity|].
  cbn [deliver fold_left].
  assert (Hsame : exec (dispatch env this event) w = w).
  { unfold dispatch. run_task. destruct (decide (this ∈ observers w)); [contradiction|].
    reflexivity. }
  rewrite Hsame. apply IH. exact Hout.
Qed.

(** X25. A wait that has ended receives no further event: after [cancel],
    and after the acknowledgement, every event the signaling client
    delivers passes the interceptor by, so the state (and with it the
    outcome) stays what it is, and the status handler is not called. *)
Theorem ended_wait_receives_no_events
    (env : Collaborators) (this : nat) (w : World)
    (events : list SignalingClientEvent) :
  (taskCanceler w = Some this ->
   deliver env this events (exec cancel w) = exec cancel w)
  /\ (forall event frame,
        isConnectionTerminated event = false ->
        type event = ReceivedSignalFrame ->
        message event = Some frame ->
        frameType frame = SUBSCRIBE_ACK ->
        promises w !! this = Some Pending ->
        let settled := exec (Interceptor_handleSignalingClientEvent env this event) w in
        deliver env this events settled = settled).
Proof.
  split.
  - intro Hcanceler. apply deliver_unregistered.
    unfold cancel. run_task. rewrite Hcanceler.
    cbn [promises set_observers set_signalingCalls].
    destruct (promises w !! this) as [[| |]|];
      cbn [observers set_taskCanceler set_promises set_observers]; (set_unfold; intuition congruence).
  - intros event frame Hterm Htype Hmessage Hframe Hpending settled. subst settled.
    unfold exec at 1 2.
    rewrite (handle_ack env this event frame w Hterm Htype Hmessage Hframe Hpending).
    cbn [snd]. apply deliver_unregistered.
    cbn [observers set_promises set_observers]. (set_unfold; intuition congruence).
Qed.

Lemma ended_wait_receives_no_events_witness :
  deliver quietEnv 0 [acknowledged; closed 4500] (exec cancel awaiting)
  = exec cancel awaiting.
Proof.
  exact (proj1 (ended_wait_receives_no_events quietEnv 0 awaiting
                  [acknowledged; closed 4500]) eq_refl).
Defined.

(** X26. A second [receiveSubscribeAck] on the same task overwrites the
    canceler.  The two interceptors differ; [cancel] then ends the second
    wait only, and the first interceptor stays registered with its promise
    pending, out of reach of any later [cancel]. *)
Theorem second_wait_orphans_first (w : World) :
  let first := fresh (dom (promises w)) in
  let w1 := exec receiveSubscribeAck w in
  let second := fresh (dom (promises w1)) in
  let w2 := exec receiveSubscribeAck w1 in
  let canceled := exec cancel w2 in
  first <> second
  /\ taskCanceler w2 = Some second
  /\ promises canceled !! second = Some (Rejected (Error MsgCanceledWhileWaiting))
  /\ (second ∉ observers canceled)
  /\ first ∈ observers canceled
  /\ promises canceled !! first = Some Pending
  /\ exec cancel canceled = canceled.
Proof.
  intros first w1 second w2 canceled.
  assert (Hw1 : promises w1 = <[first := Pending]> (promises w)) by reflexivity.
  assert (Hne : first <> second).
  { intro Heq. pose proof (is_fresh (dom (promises w1))) as Hfresh.
    fold second in Hfresh. rewrite <- Heq in Hfresh. apply Hfresh.
    rewrite Hw1, dom_insert_L. (set_unfold; intuition congruence). }
  assert (Hw2 : w2
    = set_taskCanceler (Some second)
        (set_observers (fun o => {[second]} ∪ o)
           (set_signalingCalls (fun l => l ++ [CallRegisterObserver second])
              (set_promises (<[second := Pending]>) w1)))) by reflexivity.
  assert (Hc : canceled
    = set_taskCanceler None
        (set_promises (<[second := Rejected (Error MsgCanceledWhileWaiting)]>)
           (set_observers (fun o => o ∖ {[second]})
              (set_signalingCalls (fun l => l ++ [CallRemoveObserver second]) w2)))).
  { subst canceled. unfold cancel. run_task. rewrite Hw2.
    cbn [taskCanceler promises set_taskCanceler set_observers set_signalingCalls
         set_promises].
    rewrite lookup_insert_eq. reflexivity. }
  split; [exact Hne|]. split; [reflexivity|].
  rewrite Hc. cbn [promises observers set_taskCanceler set_promises set_observers
                   set_signalingCalls].
  split; [apply lookup_insert_eq|].
  split; [(set_unfold; intuition congruence)|].
  split.
  - rewrite Hw2. cbn [observers set_taskCanceler set_observers set_signalingCalls
                      set_promises].
    assert (Hin : first ∈ observers w1)
      by (subst w1; cbn [observers]; unfold exec; rewrite receiveSubscribeAck_run;
          cbn [snd observers set_taskCanceler set_observers]; (set_unfold; intuition congruence)).
    (set_unfold; intuition congruence).
  - split.
    + rewrite lookup_insert_ne by (intro H; apply Hne; symmetry; exact H).
      rewrite Hw2. cbn [promises set_taskCanceler set_observers set_signalingCalls
                        set_promises].
      rewrite lookup_insert_ne by (intro H; apply Hne; symmetry; exact H).
      rewrite Hw1. apply lookup_insert_eq.
    + unfold exec. rewrite cancel_null; reflexivity.
Qed.

End TaskExtras.
